(** * finetune.py: dataset assembly and task adaptation

    A shallow embedding of [finetune.py] (manifest parsing and label
    mapping of [ADNIDataset], the volume resizing helpers, the
    train/validation/test size computation of the entry script, and the
    composition, freezing and output transforms of [FinetuneModel]),
    followed by the properties established for it.

    Python values are modelled as the program has them: [str] as
    [string] (a sequence of code points below 256), [int] as [Z],
    [float] as an IEEE-754 binary64 value ([spec_float] with precision
    53 and [emax] 1024), exceptions as an explicit error result.  The
    elements of torch tensors are binary32 values ([spec_float] with
    precision 24 and [emax] 128), so that NaN, the infinities, overflow
    and underflow are those of the program. *)

From Stdlib Require Import ZArith List String Ascii Bool Lia SpecFloat.
Import ListNotations.

(** ** Python runtime: exceptions, list indexing, string methods *)

Module Py.

(** The exceptions the modelled code can raise. *)
Inductive exception : Type :=
| IndexError
| KeyError (key : string)
| UnboundLocalError (var : string)
| ValueError (msg : string)
| OverflowError (msg : string)
| TypeError (msg : string)
| RuntimeError (msg : string)
| IOError (path : string).

Inductive result (A : Type) : Type :=
| Ok (a : A)
| Raise (e : exception).

Arguments Ok {A} a.
Arguments Raise {A} e.

Definition bind {A B : Type} (r : result A) (k : A -> result B) : result B :=
  match r with
  | Ok a => k a
  | Raise e => Raise e
  end.

Definition is_ok {A : Type} (r : result A) : bool :=
  match r with
  | Ok _ => true
  | Raise _ => false
  end.

(** Truth value of an [int] (argparse delivers the switches as ints). *)
Definition truthy (z : Z) : bool := negb (z =? 0)%Z.

(** [l[i]] on a Python list: negative indices count from the end. *)
Definition getitem {A : Type} (l : list A) (i : Z) : result A :=
  let n := Z.of_nat (List.length l) in
  let j := if (i <? 0)%Z then (i + n)%Z else i in
  if (j <? 0)%Z then Raise IndexError
  else match nth_error l (Z.to_nat j) with
       | Some a => Ok a
       | None => Raise IndexError
       end.

(** [l[1:]] *)
Definition slice_from_1 {A : Type} (l : list A) : list A := tl l.

(** Stripping by a character class: [s.lstrip(...)], [s.rstrip(...)]. *)
Fixpoint lstrip_by (p : ascii -> bool) (s : string) : string :=
  match s with
  | EmptyString => EmptyString
  | String a s' => if p a then lstrip_by p s' else s
  end.

Fixpoint rstrip_by (p : ascii -> bool) (s : string) : string :=
  match s with
  | EmptyString => EmptyString
  | String a s' =>
      match rstrip_by p s' with
      | EmptyString => if p a then EmptyString else String a EmptyString
      | r => String a r
      end
  end.

(** [s.strip(c)] for a one-character set [c]. *)
Definition strip (c : ascii) (s : string) : string :=
  rstrip_by (Ascii.eqb c) (lstrip_by (Ascii.eqb c) s).

(** [s.split(sep)] for a one-character separator: empty fields are kept
    and the result is never empty. *)
Fixpoint split (sep : ascii) (s : string) : list string :=
  match s with
  | EmptyString => [EmptyString]
  | String a s' =>
      if Ascii.eqb a sep then EmptyString :: split sep s'
      else match split sep s' with
           | h :: t => String a h :: t
           | [] => [String a EmptyString]
           end
  end.

(** [os.path.join(a, b)] on a POSIX system. *)
Fixpoint ends_with (c : ascii) (s : string) : bool :=
  match s with
  | EmptyString => false
  | String a EmptyString => Ascii.eqb a c
  | String _ s' => ends_with c s'
  end.

Definition os_path_join (a b : string) : string :=
  match b with
  | String "/" _ => b
  | _ =>
      if String.eqb a EmptyString then b
      else if ends_with "/" a then (a ++ b)%string
      else (a ++ "/" ++ b)%string
  end.

End Py.

Import Py.

Declare Scope py_scope.
Delimit Scope py_scope with py.
Notation "x <- c1 ;; c2" := (Py.bind c1 (fun x => c2))
  (at level 61, c1 at next level, right associativity) : py_scope.

(** ** Python [float]: IEEE-754 binary64 *)

Module PyFloat.

Local Open Scope Z_scope.

Definition prec : Z := 53.
Definition emax : Z := 1024.

Definition float : Type := spec_float.

Definition is_finite (x : float) : bool :=
  match x with
  | S754_zero _ | S754_finite _ _ _ => true
  | S754_infinity _ | S754_nan => false
  end.

Definition mul (x y : float) : float := SFmul prec emax x y.

(** Conversion of an [int] operand to [float] (round to nearest, ties to
    even); an [int] beyond the binary64 range raises [OverflowError]. *)
Definition of_int (n : Z) : result float :=
  match binary_normalize prec emax n 0 false with
  | S754_infinity _ => Raise (OverflowError "int too large to convert to float")
  | x => Ok x
  end.

(** [int(x)]: truncation towards zero. *)
Definition trunc (s : bool) (m : positive) (e : Z) : Z :=
  cond_Zopp s (if 0 <=? e then Zpos m * 2 ^ e else Zpos m / 2 ^ (- e)).

Definition to_int (x : float) : result Z :=
  match x with
  | S754_nan => Raise (ValueError "cannot convert float NaN to integer")
  | S754_infinity _ => Raise (OverflowError "cannot convert float infinity to integer")
  | S754_zero _ => Ok 0
  | S754_finite s m e => Ok (trunc s m e)
  end.

(** [x * n] for a float [x] and an int [n]. *)
Definition mul_int (x : float) (n : Z) : result float :=
  (y <- of_int n ;; Ok (mul x y))%py.

(** [x == n] for a float [x] and an int [n]: the values are compared
    exactly. *)
Definition eq_int (x : float) (n : Z) : bool :=
  match x with
  | S754_zero _ => n =? 0
  | S754_finite s m e =>
      if 0 <=? e then cond_Zopp s (Zpos m * 2 ^ e) =? n
      else cond_Zopp s (Zpos m) =? n * 2 ^ (- e)
  | S754_infinity _ | S754_nan => false
  end.

(** [0 <= x] and [|x| <= 2^j] as exact comparisons of values. *)
Definition nonneg (x : float) : bool :=
  match x with
  | S754_zero _ => true
  | S754_finite s _ _ | S754_infinity s => negb s
  | S754_nan => false
  end.

Definition abs_le_pow2 (j : Z) (x : float) : bool :=
  match x with
  | S754_zero _ => true
  | S754_finite _ m e =>
      if j <=? e then Z.pos m * 2 ^ (e - j) <=? 1 else Z.pos m <=? 2 ^ (j - e)
  | S754_infinity _ | S754_nan => false
  end.

(** [0 <= x <= 1] *)
Definition in_unit_interval (x : float) : bool := nonneg x && abs_le_pow2 0 x.

(** The mathematical floor of a finite value. *)
Definition floor (x : float) : option Z :=
  match x with
  | S754_zero _ => Some 0
  | S754_finite s m e =>
      Some (if 0 <=? e then cond_Zopp s (Z.pos m) * 2 ^ e
            else cond_Zopp s (Z.pos m) / 2 ^ (- e))
  | S754_infinity _ | S754_nan => None
  end.

(** The errors of the int/float conversions. *)
Definition float_error (e : exception) : Prop :=
  e = ValueError "cannot convert float NaN to integer" \/
  e = OverflowError "cannot convert float infinity to integer" \/
  e = OverflowError "int too large to convert to float".

(** A zero, or a finite value with a mantissa below [2^53] and an
    exponent of at most [E]. *)
Definition small (E : Z) (x : float) : Prop :=
  match x with
  | S754_zero _ => True
  | S754_finite _ m e => Z.pos m < 2 ^ 53 /\ e <= E
  | S754_infinity _ | S754_nan => False
  end.

(** *** [float(s)] for a [str] *)

(** A [str] that is not ASCII is first rewritten: a code point of 127
    or more that is a blank (NEL, NBSP) becomes a space; below 256 there
    is no decimal digit besides the ASCII ones, and any other code point
    of 127 or more is left in place and makes the literal invalid. *)
Definition blank_above_ascii (c : ascii) : ascii :=
  let n := N_of_ascii c in
  if ((n =? 133) || (n =? 160))%N then " "%char else c.

Fixpoint to_ascii_blanks (s : string) : string :=
  match s with
  | String c r => String (blank_above_ascii c) (to_ascii_blanks r)
  | EmptyString => EmptyString
  end.

(** The ASCII blanks that [float()] strips. *)

Definition is_space (c : ascii) : bool :=
  let n := N_of_ascii c in
  (((9 <=? n) && (n <=? 13)) || (n =? 32))%N.

Definition is_digit (c : ascii) : bool :=
  let n := N_of_ascii c in ((48 <=? n) && (n <=? 57))%N.

Definition digit_value (c : ascii) : Z := Z.of_N (N_of_ascii c) - 48.

(** Underscores may only separate two digits; they are removed before the
    number is read.  A NUL character is rejected. *)
Fixpoint drop_underscores (prev : ascii) (s : string) : option string :=
  match s with
  | EmptyString => if Ascii.eqb prev "_" then None else Some EmptyString
  | String c s' =>
      if Ascii.eqb c "000" then None
      else if Ascii.eqb c "_" then
        if is_digit prev then drop_underscores c s' else None
      else if Ascii.eqb prev "_" && negb (is_digit c) then None
      else option_map (String c) (drop_underscores c s')
  end.

Definition strip_space (s : string) : string :=
  rstrip_by is_space (lstrip_by is_space s).

Definition parse_sign (s : string) : bool * string :=
  match s with
  | String "-" r => (true, r)
  | String "+" r => (false, r)
  | _ => (false, s)
  end.

(** The longest prefix of decimal digits, and what follows it. *)
Fixpoint span_digits (s : string) : string * string :=
  match s with
  | String c r =>
      if is_digit c then let (d, t) := span_digits r in (String c d, t)
      else (EmptyString, s)
  | EmptyString => (EmptyString, EmptyString)
  end.

Fixpoint digits_value (acc : Z) (s : string) : Z :=
  match s with
  | String c r => digits_value (10 * acc + digit_value c) r
  | EmptyString => acc
  end.

(** [digits [. digits] [(e|E) [sign] digits]] with at least one mantissa
    digit; an exponent marker without digits is not part of the number.
    Returns the mantissa digits as an integer, the decimal exponent, and
    the unread rest. *)
Definition parse_decimal (s : string) : option (Z * Z * string) :=
  let (ip, r1) := span_digits s in
  let (fp, r2) :=
    match r1 with
    | String "." r => span_digits r
    | _ => (EmptyString, r1)
    end in
  if String.eqb (ip ++ fp) EmptyString then None
  else
    let (e10, r3) :=
      match r2 with
      | String c r =>
          if Ascii.eqb c "e" || Ascii.eqb c "E" then
            let (es, r') := parse_sign r in
            let (ed, r'') := span_digits r' in
            if String.eqb ed EmptyString then (0, r2)
            else (cond_Zopp es (digits_value 0 ed), r'')
          else (0, r2)
      | EmptyString => (0, r2)
      end in
    Some (digits_value 0 (ip ++ fp), e10 - Z.of_nat (String.length fp), r3).

Definition lower (c : ascii) : ascii :=
  let n := N_of_ascii c in
  if ((65 <=? n) && (n <=? 90))%N then ascii_of_N (n + 32) else c.

Fixpoint lower_str (s : string) : string :=
  match s with
  | String c r => String (lower c) (lower_str r)
  | EmptyString => EmptyString
  end.

(** The binary64 value nearest to [(-1)^s * d * 10^e10] (ties to even);
    values beyond the range become infinities, tiny ones subnormals or
    zeros. *)
Definition of_decimal (s : bool) (d e10 : Z) : float :=
  match d with
  | Zpos _ =>
      if 0 <=? e10 then binary_normalize prec emax (cond_Zopp s (d * 10 ^ e10)) 0 s
      else
        let '(mz, ez, lz) := SFdiv_core_binary prec emax d 0 (10 ^ (- e10)) 0 in
        binary_round_aux prec emax s mz ez lz
  | _ => S754_zero s
  end.

(** [repr(s)], as it appears in error messages: the code points that
    are not printable (the controls, 127 to 160, and the soft hyphen)
    are escaped. *)
Definition hex_digit (n : N) : ascii :=
  if (n <? 10)%N then ascii_of_N (48 + n) else ascii_of_N (87 + n).

Fixpoint contains (c : ascii) (s : string) : bool :=
  match s with
  | String a r => Ascii.eqb a c || contains c r
  | EmptyString => false
  end.

Definition repr_char (q c : ascii) : string :=
  let n := N_of_ascii c in
  if Ascii.eqb c q || Ascii.eqb c "\" then String "\" (String c EmptyString)
  else if (n =? 9)%N then "\t"
  else if (n =? 10)%N then "\n"
  else if (n =? 13)%N then "\r"
  else if ((n <? 32) || ((127 <=? n) && (n <=? 160)) || (n =? 173))%N then
    String "\" (String "x" (String (hex_digit (n / 16)) (String (hex_digit (n mod 16)) EmptyString)))
  else String c EmptyString.

Fixpoint repr_body (q : ascii) (s : string) : string :=
  match s with
  | String c r => (repr_char q c ++ repr_body q r)%string
  | EmptyString => EmptyString
  end.

Definition repr (s : string) : string :=
  let q := if contains "'" s && negb (contains "034" s) then "034"%char else "'"%char in
  (String q (repr_body q s) ++ String q EmptyString)%string.

Definition could_not_convert (s : string) : exception :=
  ValueError ("could not convert string to float: " ++ repr s).

Definition of_str (s : string) : result float :=
  match drop_underscores "000" (to_ascii_blanks s) with
  | None => Raise (could_not_convert s)
  | Some t =>
      let (sg, body) := parse_sign (strip_space t) in
      match parse_decimal body with
      | Some (d, e10, EmptyString) => Ok (of_decimal sg d e10)
      | Some (_, _, String _ _) => Raise (could_not_convert s)
      | None =>
          let w := lower_str body in
          if String.eqb w "inf" || String.eqb w "infinity" then Ok (S754_infinity sg)
          else if String.eqb w "nan" then Ok S754_nan
          else Raise (could_not_convert s)
      end
  end.

End PyFloat.

(** ** numpy arrays and the torch tensor made from one *)

Module Numpy.

Local Open Scope Z_scope.

(** The flattened (row-major) elements of an array, tagged by dtype:
    the dtypes that [torch.from_numpy] converts (torch 1.11). *)
Inductive array_data : Type :=
| F64 (l : list spec_float)
| F32 (l : list spec_float)
| I64 (l : list Z)
| F16 (l : list spec_float)
| C128 (l : list (spec_float * spec_float))
| C64 (l : list (spec_float * spec_float))
| I32 (l : list Z)
| I16 (l : list Z)
| I8 (l : list Z)
| U8 (l : list Z)
| B8 (l : list bool).

Inductive dtype : Type :=
| float64 | float32 | int64 | float16 | complex128 | complex64
| int32 | int16 | int8 | uint8 | bool_.

(** The unsigned dtypes that [torch.from_numpy] rejects. *)
Inductive unsigned_dtype : Type := uint16 | uint32 | uint64.

Definition unsigned_name (dt : unsigned_dtype) : string :=
  match dt with
  | uint16 => "numpy.uint16"
  | uint32 => "numpy.uint32"
  | uint64 => "numpy.uint64"
  end.

(** A contiguous array of class [np.ndarray] whose dtype torch
    converts. *)
Record ndarray : Type := { shape : list Z; data : array_data }.

Record tensor : Type := { t_shape : list Z; t_data : array_data }.

(** The instances of [np.ndarray]: such an array; an array of an
    unsigned dtype of 16 bits or more; a view with a negative stride
    (as [a[::-1]] is), given by its elements in index order; an
    instance of the subclass [np.ma.MaskedArray] with its mask. *)
Inductive array_object : Type :=
| Ndarray (a : ndarray)
| NdarrayUnsigned (dt : unsigned_dtype) (sh : list Z) (l : list Z)
| NdarrayReversed (a : ndarray)
| MaskedArray (a : ndarray) (mask : list bool).

(** The Python objects that reach the resizing helpers. *)
Inductive pyobj : Type :=
| PyNone
| PyInt (z : Z)
| PyFloat (x : spec_float)
| PyStr (s : string)
| PyTensor (t : tensor)
| PyArray (o : array_object).

Abbreviation PyNdarray a := (PyArray (Ndarray a)).

Definition dtype_of (d : array_data) : dtype :=
  match d with
  | F64 _ => float64
  | F32 _ => float32
  | I64 _ => int64
  | F16 _ => float16
  | C128 _ => complex128
  | C64 _ => complex64
  | I32 _ => int32
  | I16 _ => int16
  | I8 _ => int8
  | U8 _ => uint8
  | B8 _ => bool_
  end.

Definition size_of (d : array_data) : nat :=
  match d with
  | F64 l | F32 l | F16 l => List.length l
  | C128 l | C64 l => List.length l
  | I64 l | I32 l | I16 l | I8 l | U8 l => List.length l
  | B8 l => List.length l
  end.

(** [isinstance(x, np.ndarray)]: true of an instance of a subclass. *)
Definition is_ndarray (x : pyobj) : bool :=
  match x with
  | PyArray _ => true
  | _ => false
  end.

(** [type(x) != np.ndarray]: true of an instance of a subclass. *)
Definition type_is_not_ndarray (o : array_object) : bool :=
  match o with
  | MaskedArray _ _ => true
  | _ => false
  end.

(** [torch.from_numpy(a)]: a tensor over the same buffer; an
    unsupported dtype is a [TypeError], a negative stride a
    [ValueError]. *)
Definition from_numpy (o : array_object) : result tensor :=
  match o with
  | Ndarray a | MaskedArray a _ => Ok {| t_shape := shape a; t_data := data a |}
  | NdarrayUnsigned dt _ _ =>
      Raise (TypeError
        ("can't convert np.ndarray of type " ++ unsigned_name dt ++
         ". The only supported types are: float64, float32, float16, complex64, " ++
         "complex128, int64, int32, int16, int8, uint8, and bool."))
  | NdarrayReversed _ =>
      Raise (ValueError
        ("At least one stride in the given numpy array is negative, " ++
         "and tensors with negative strides are not currently supported. " ++
         "(You can probably work around this by making a copy of your array " ++
         " with array.copy().) "))
  end.

(** The element sequence of [np.resize]: an empty source or an empty
    target is zero-filled; otherwise the source is repeated
    [ceil(new_size / size)] times and cut to [new_size] elements. *)
Definition resize_list {X : Type} (zero : X) (a : list X) (new_size : Z) : list X :=
  if (Z.of_nat (List.length a) =? 0) || (new_size =? 0)
  then repeat zero (Z.to_nat new_size)
  else
    let repeats := - (- new_size / Z.of_nat (List.length a)) in
    firstn (Z.to_nat new_size) (List.concat (repeat a (Z.to_nat repeats))).

Definition fzero : spec_float := S754_zero false.

Definition resize_data (d : array_data) (new_size : Z) : array_data :=
  match d with
  | F64 l => F64 (resize_list fzero l new_size)
  | F32 l => F32 (resize_list fzero l new_size)
  | I64 l => I64 (resize_list 0 l new_size)
  | F16 l => F16 (resize_list fzero l new_size)
  | C128 l => C128 (resize_list (fzero, fzero) l new_size)
  | C64 l => C64 (resize_list (fzero, fzero) l new_size)
  | I32 l => I32 (resize_list 0 l new_size)
  | I16 l => I16 (resize_list 0 l new_size)
  | I8 l => I8 (resize_list 0 l new_size)
  | U8 l => U8 (resize_list 0 l new_size)
  | B8 l => B8 (resize_list false l new_size)
  end.

Definition resized (a : ndarray) (new_shape : list Z) : ndarray :=
  {| shape := new_shape; data := resize_data (data a) (fold_left Z.mul new_shape 1) |}.

(** [np.resize(a, new_shape)]: the flattened elements are repeated or
    cut.  The result is a new contiguous array; for an instance of
    [MaskedArray] it is again a [MaskedArray], without mask. *)
Definition np_resize (o : array_object) (new_shape : list Z) : result array_object :=
  if existsb (fun d => d <? 0) new_shape
  then Raise (ValueError "all elements of `new_shape` must be non-negative")
  else
    Ok match o with
       | Ndarray a | NdarrayReversed a => Ndarray (resized a new_shape)
       | NdarrayUnsigned dt _ l =>
           NdarrayUnsigned dt new_shape (resize_list 0 l (fold_left Z.mul new_shape 1))
       | MaskedArray a _ => MaskedArray (resized a new_shape) []
       end.

(** Rounding of one element to binary32. *)
Definition to_float32 (x : spec_float) : spec_float :=
  match x with
  | S754_finite s m e => binary_round 24 128 s m e
  | _ => x
  end.

Definition int_to_float32 (z : Z) : spec_float := binary_normalize 24 128 z 0 false.

Definition bool_to_float32 (b : bool) : spec_float :=
  if b then S754_finite false 8388608 (-23) else S754_zero false.

(** The elements of [a.astype(np.float32)]; of a complex element the
    real part is kept. *)
Definition data_as_float32 (d : array_data) : list spec_float :=
  match d with
  | F64 l | F16 l => map to_float32 l
  | F32 l => l
  | C128 l => map (fun z => to_float32 (fst z)) l
  | C64 l => map fst l
  | I64 l | I32 l | I16 l | I8 l | U8 l => map int_to_float32 l
  | B8 l => map bool_to_float32 l
  end.

(** [a.astype(np.float32)] *)
Definition astype_float32 (a : ndarray) : ndarray :=
  {| shape := shape a; data := F32 (data_as_float32 (data a)) |}.

Definition astype_float32_object (o : array_object) : array_object :=
  match o with
  | Ndarray a | NdarrayReversed a => Ndarray (astype_float32 a)
  | NdarrayUnsigned _ sh l => Ndarray {| shape := sh; data := F32 (map int_to_float32 l) |}
  | MaskedArray a mask => MaskedArray (astype_float32 a) mask
  end.





End Numpy.

(** ** The volume helpers and [ADNIDataset] *)

Module Dataset.

Import PyFloat Numpy.
Local Open Scope Z_scope.
Local Open Scope py_scope.

(** [resize_image(img_array, trg_size)]: raising a [str] is itself a
    [TypeError] in Python 3. *)
Definition resize_image (img_array : array_object) (trg_size : list Z)
  : result array_object :=
  res <- np_resize img_array trg_size ;;
  if type_is_not_ndarray res
  then Raise (TypeError "exceptions must derive from BaseException")
  else Ok res.

(** [customToTensor(img)]: the tensor made first is dropped when
    [img1] is bound again; a function that falls off its end returns
    [None]. *)
Definition customToTensor (img : pyobj) : result pyobj :=
  match img with
  | PyArray o =>
      img1 <- from_numpy o ;;
      img1 <- resize_image o [150; 150; 200] ;;
      Ok (PyArray (astype_float32_object img1))
  | _ => Ok PyNone
  end.

(** A label is an [int] class code or a [float] score. *)
Inductive label : Type :=
| ClassCode (z : Z)
| Score (x : float).

Record ADNIDataset : Type := {
  root_dir : string;
  lines : list (list string);
  classification : Z;
  label_file_idx : Z
}.

(** [ADNIDataset.__init__]; [file_lines] is what
    [open(data_file).readlines()] delivers. *)
Definition init (root : string) (file_lines : list string) (classif : Z) : ADNIDataset :=
  {| root_dir := root;
     lines := slice_from_1 (map (split ",") file_lines);
     classification := classif;
     label_file_idx := if truthy classif then 2 else 4 |}.

(** [ADNIDataset.__len__] *)
Definition len (self : ADNIDataset) : Z := Z.of_nat (List.length (lines self)).

(** The [if]/[elif] chain of [__getitem__]: the local [label] stays
    unbound ([None]) when no branch is taken. *)
Definition class_label (img_label : string) : option label :=
  if String.eqb img_label "AD" then Some (ClassCode 1)
  else if String.eqb img_label "CN" then Some (ClassCode 0)
  else if String.eqb img_label "MCI" then Some (ClassCode 2)
  else None.

(** Reading a local variable. *)
Definition read_local {A : Type} (name : string) (v : option A) : result A :=
  match v with
  | Some a => Ok a
  | None => Raise (UnboundLocalError name)
  end.

Section GetItem.

(** [nib.load(path).get_fdata()]: the decoded volume, or the decoder's
    error. *)
Variable load_fdata : string -> result ndarray.

(** [ADNIDataset.__getitem__] *)
Definition getitem (self : ADNIDataset) (idx : Z) : result (pyobj * label) :=
  lst <- Py.getitem (lines self) idx ;;
  name0 <- Py.getitem lst 0 ;;
  let img_name := strip "034" name0 in
  label <-
    (if truthy (classification self) then
       raw <- Py.getitem lst (label_file_idx self) ;;
       let img_label := strip "034" raw in
       Ok (class_label img_label)
     else
       raw <- Py.getitem lst (label_file_idx self) ;;
       img_label <- of_str (strip "034" raw) ;;
       Ok (Some (Score img_label))) ;;
  let image_path := (os_path_join (root_dir self) img_name ++ ".nii")%string in
  a <- load_fdata image_path ;;
  a <- customToTensor (PyNdarray a) ;;
  label <- read_local "label" label ;;
  Ok (a, label).

End GetItem.

End Dataset.

(** ** The train/validation/test split of the entry script *)

Module Split.

Import PyFloat.
Local Open Scope Z_scope.
Local Open Scope py_scope.

(** [sum(lengths)] *)
Definition sum (l : list Z) : Z := fold_left Z.add l 0.

(** [n * x] for an int [n] and a float [x]. *)
Definition rmul_int (n : Z) (x : float) : result float :=
  y <- of_int n ;; Ok (mul y x).

(** The list [lengths] handed to [random_split]; [n] is [len(dataset)]. *)
Definition split_lengths (n : Z) (val_ratio test_ratio train_ratio : float)
  : result (list Z) :=
  a <- mul_int val_ratio n ;;
  val_size <- to_int a ;;
  b <- mul_int test_ratio n ;;
  test_size <- to_int b ;;
  let lengths := [val_size; test_size] in
  if eq_int train_ratio 1 then
    let lengths := lengths ++ [n - sum lengths] in
    Ok lengths
  else
    c <- rmul_int (n - sum lengths) train_ratio ;;
    train_size <- to_int c ;;
    let lengths := lengths ++ [train_size] in
    let lengths := lengths ++ [n - sum lengths] in
    Ok lengths.

(** [l[lo:hi]] on a Python list. *)
Definition clamp_index (len i : Z) : Z :=
  if i <? 0 then Z.max (i + len) 0 else Z.min i len.

Definition py_slice {A : Type} (l : list A) (lo hi : Z) : list A :=
  let len := Z.of_nat (List.length l) in
  let lo' := clamp_index len lo in
  let hi' := clamp_index len hi in
  firstn (Z.to_nat (hi' - lo')) (skipn (Z.to_nat lo') l).

(** [torch.utils.data.random_split] (torch 1.11) on a given permutation
    [indices] of the dataset's positions: the only check is that the
    lengths add up; subset [k] is [indices[offset - length : offset]]
    for the running sum [offset]. *)
Fixpoint subsets (indices : list Z) (offset : Z) (lengths : list Z) : list (list Z) :=
  match lengths with
  | [] => []
  | length :: rest =>
      let offset := offset + length in
      py_slice indices (offset - length) offset :: subsets indices offset rest
  end.

Definition random_split (indices : list Z) (lengths : list Z) : result (list (list Z)) :=
  if negb (sum lengths =? Z.of_nat (List.length indices))
  then Raise (ValueError "Sum of input lengths does not equal the length of the input dataset!")
  else Ok (subsets indices 0 lengths).

(** Lines 209-216: the sizes, then the subsets; the unpacking into
    three or four names cannot fail since [lengths] has that many
    entries. *)
Definition split (indices : list Z) (val_ratio test_ratio train_ratio : float)
  : result (list (list Z)) :=
  lengths <- split_lengths (Z.of_nat (List.length indices)) val_ratio test_ratio train_ratio ;;
  random_split indices lengths.

End Split.

(** ** Binary32 values, the elements of torch tensors *)

Module Binary32.

Local Open Scope Z_scope.

Definition prec : Z := 24.
Definition emax : Z := 128.

Definition f32 : Type := spec_float.

Definition zero : f32 := S754_zero false.
Definition one : f32 := S754_finite false 8388608 (-23).
Definition hundred : f32 := S754_finite false 13107200 (-17).
Definition nan : f32 := S754_nan.

Definition add (x y : f32) : f32 := SFadd prec emax x y.
Definition sub (x y : f32) : f32 := SFsub prec emax x y.
Definition mul (x y : f32) : f32 := SFmul prec emax x y.
Definition div (x y : f32) : f32 := SFdiv prec emax x y.

(** An integer as a binary32 value (round to nearest, ties to even). *)
Definition of_Z (n : Z) : f32 := binary_normalize prec emax n 0 false.

Definition is_nan (x : f32) : bool :=
  match x with
  | S754_nan => true
  | _ => false
  end.

Definition is_finite (x : f32) : bool :=
  match x with
  | S754_zero _ | S754_finite _ _ _ => true
  | S754_infinity _ | S754_nan => false
  end.

(** [x <= n] and [n <= x] for an integer [n], as exact comparisons of
    values; both are false of a NaN. *)
Definition le_Z (x : f32) (n : Z) : bool :=
  match x with
  | S754_zero _ => 0 <=? n
  | S754_finite s m e =>
      if 0 <=? e then cond_Zopp s (Z.pos m * 2 ^ e) <=? n
      else cond_Zopp s (Z.pos m) <=? n * 2 ^ (- e)
  | S754_infinity s => s
  | S754_nan => false
  end.

Definition ge_Z (x : f32) (n : Z) : bool :=
  match x with
  | S754_zero _ => n <=? 0
  | S754_finite s m e =>
      if 0 <=? e then n <=? cond_Zopp s (Z.pos m * 2 ^ e)
      else n * 2 ^ (- e) <=? cond_Zopp s (Z.pos m)
  | S754_infinity s => negb s
  | S754_nan => false
  end.

(** [lo <= x <= hi] *)
Definition between (lo hi : Z) (x : f32) : bool := ge_Z x lo && le_Z x hi.

(** [x < y]; false when either is a NaN. *)
Definition ltb (x y : f32) : bool := SFltb x y.

(** The larger of two values; a NaN wins. *)
Definition max (x y : f32) : f32 :=
  if is_nan x || is_nan y then nan else if ltb x y then y else x.

Definition sum (l : list f32) : f32 := fold_left add l zero.

(** The mean of a sequence: its sum divided by its length, so the mean
    of no element is 0/0, a NaN. *)
Definition mean (l : list f32) : f32 := div (sum l) (of_Z (Z.of_nat (List.length l))).

End Binary32.

(** ** [FinetuneModel]: composition, freezing, forward pass, loss inputs *)

Module Torch.

Import Binary32.
Local Open Scope py_scope.

(** A parameter tensor with its [requires_grad] flag. *)
Record Param : Type := {
  p_name : string;
  p_shape : list nat;
  p_value : list f32;
  requires_grad : bool
}.

(** A sub-model as this file uses it: its parameters and its
    train/eval mode. *)
Record SubModule : Type := {
  sm_parameters : list Param;
  sm_training : bool
}.

Definition state_dict : Type := list (string * (list nat * list f32)).

Fixpoint lookup (k : string) (sd : state_dict) : option (list nat * list f32) :=
  match sd with
  | [] => None
  | (k', v) :: rest => if String.eqb k k' then Some v else lookup k rest
  end.

Definition shape_eqb (a b : list nat) : bool :=
  if list_eq_dec Nat.eq_dec a b then true else false.

Definition loading_error : exception :=
  RuntimeError "Error(s) in loading state_dict".

(** The values of a state dict are copied into the parameters; the
    flags are left as they are. *)
Fixpoint load_parameters (ps : list Param) (sd : state_dict) : result (list Param) :=
  match ps with
  | [] => Ok []
  | p :: rest =>
      match lookup (p_name p) sd with
      | None => Raise loading_error
      | Some (sh, v) =>
          if shape_eqb sh (p_shape p) then
            rest' <- load_parameters rest sd ;;
            Ok ({| p_name := p_name p; p_shape := p_shape p; p_value := v;
                   requires_grad := requires_grad p |} :: rest')
          else Raise loading_error
      end
  end.

(** [m.load_state_dict(sd)] (strict): missing keys, unexpected keys and
    shape mismatches are errors. *)
Definition load_state_dict (m : SubModule) (sd : state_dict) : result SubModule :=
  if existsb (fun kv => negb (existsb (String.eqb (fst kv)) (map p_name (sm_parameters m)))) sd
  then Raise loading_error
  else
    ps <- load_parameters (sm_parameters m) sd ;;
    Ok {| sm_parameters := ps; sm_training := sm_training m |}.

(** A parameter that carries the shape and value a state dict stores
    under its name. *)
Definition loaded_from (sd : state_dict) (p : Param) : Prop :=
  lookup (p_name p) sd = Some (p_shape p, p_value p).

(** [for p in m.parameters(): p.requires_grad = False] *)
Definition set_no_grad (p : Param) : Param :=
  {| p_name := p_name p; p_shape := p_shape p; p_value := p_value p;
     requires_grad := false |}.

Definition freeze (m : SubModule) : SubModule :=
  {| sm_parameters := map set_no_grad (sm_parameters m); sm_training := sm_training m |}.

(** [m.eval()] *)
Definition eval (m : SubModule) : SubModule :=
  {| sm_parameters := sm_parameters m; sm_training := false |}.

Record hparams : Type := {
  transformer_checkpoint_path : string;
  cnn_checkpoint_path : string;
  finetune_transformer : Z;
  finetune_cnn : Z;
  classification : Z;
  n_hidden : Z;
  lr : spec_float
}.

Record Linear : Type := {
  in_features : nat;
  out_features : nat;
  weight : list (list f32);
  bias : list f32
}.

Inductive layer : Type :=
| LinearLayer (l : Linear)
| ReLU
| Sigmoid.

Inductive metric_kind : Type :=
| AUROC (num_classes : Z)
| MeanAbsoluteError.

Inductive loss_kind : Type :=
| nll_loss
| smooth_l1_loss.

(** *** Tensors *)

(** A float32 tensor: its sizes and its elements in row-major order. *)
Record Tensor : Type := { sizes : list nat; storage : list f32 }.

Definition numel (sz : list nat) : nat := fold_right Nat.mul 1%nat sz.

Definition elem (t : Tensor) (i : nat) : f32 := nth i (storage t) nan.

Definition tabulate {A : Type} (n : nat) (f : nat -> list A) : list A :=
  flat_map f (seq 0 n).

(** A dimension that the tensor does not have. *)
Definition dimension_out_of_range : exception := IndexError.

(** [t.transpose(1, 2)]: element [(b, j, i, k)] of the result is element
    [(b, i, j, k)] of [t]. *)
Definition transpose_1_2 (t : Tensor) : result Tensor :=
  match sizes t with
  | d0 :: d1 :: d2 :: rest =>
      let r := numel rest in
      Ok {| sizes := d0 :: d2 :: d1 :: rest;
            storage :=
              tabulate d0 (fun b => tabulate d2 (fun j => tabulate d1 (fun i =>
                map (fun k => elem t (((b * d1 + i) * d2 + j) * r + k)) (seq 0 r)))) |}
  | _ => Raise dimension_out_of_range
  end.

(** [t.flatten(1, 2)] *)
Definition flatten_1_2 (t : Tensor) : result Tensor :=
  match sizes t with
  | d0 :: d1 :: d2 :: rest => Ok {| sizes := d0 :: d1 * d2 :: rest; storage := storage t |}
  | _ => Raise dimension_out_of_range
  end.

(** The elements [(b, 0, k)], [(b, 1, k)], ... along dimension 1. *)
Definition along_1 (t : Tensor) (d1 r b k : nat) : list f32 :=
  map (fun i => elem t ((b * d1 + i) * r + k)) (seq 0 d1).

(** [t.mean(1)]: the order in which the kernel adds the elements is not
    fixed by torch; they are added here from first to last. *)
Definition mean_1 (t : Tensor) : result Tensor :=
  match sizes t with
  | d0 :: d1 :: rest =>
      let r := numel rest in
      Ok {| sizes := d0 :: rest;
            storage := tabulate d0 (fun b => map (fun k => mean (along_1 t d1 r b k)) (seq 0 r)) |}
  | _ => Raise dimension_out_of_range
  end.

(** [t.flatten()] *)
Definition flatten (t : Tensor) : Tensor :=
  {| sizes := [numel (sizes t)]; storage := storage t |}.

(** [t * c] for a Python number [c], here already a binary32 value. *)
Definition mul_scalar (t : Tensor) (c : f32) : Tensor :=
  {| sizes := sizes t; storage := map (fun y => mul y c) (storage t) |}.

(** The products are added here from first to last; the order in the
    kernel is not fixed by torch. *)
Definition dot (w x : list f32) : f32 :=
  fold_left (fun acc p => add acc (mul (fst p) (snd p))) (combine w x) zero.

Definition shape_mismatch : exception :=
  RuntimeError "mat1 and mat2 shapes cannot be multiplied".

(** [nn.Linear]: [y = x W^T + b] on the last dimension, which must have
    [in_features] entries. *)
Definition linear_forward (l : Linear) (x : Tensor) : result Tensor :=
  match rev (sizes x) with
  | [] => Raise (RuntimeError "both arguments to matmul need to be at least 1D")
  | n :: lead =>
      if negb (n =? in_features l)%nat then Raise shape_mismatch
      else
        Ok {| sizes := rev lead ++ [out_features l];
              storage :=
                tabulate (numel lead) (fun row =>
                  let xs := map (fun i => elem x (row * n + i)) (seq 0 n) in
                  map (fun wb => add (dot (fst wb) xs) (snd wb))
                      (combine (weight l) (bias l))) |}
  end.

Section Model.

(** The values that the elementwise kernels of torch give where the
    result is not fixed by the IEEE special cases or by the range of
    binary32. *)
Variable exp_kernel : f32 -> f32.
Variable log_kernel : f32 -> f32.
Variable sigmoid_kernel : f32 -> f32.

(** [exp]: a NaN stays a NaN, [exp(-inf) = 0], [exp(0) = 1]; at -128 and
    below the result is far under the least positive binary32 value and
    rounds to 0, at 128 and above it is over the largest one and is
    [inf]. *)
Definition exp (x : f32) : f32 :=
  match x with
  | S754_nan => nan
  | S754_infinity true => zero
  | S754_infinity false => x
  | S754_zero _ => one
  | S754_finite _ _ _ =>
      if le_Z x (-128) then zero
      else if ge_Z x 128 then S754_infinity false
      else exp_kernel x
  end.

(** [log]: [log(0) = -inf], [log(1) = 0], a NaN for a negative value. *)
Definition log (x : f32) : f32 :=
  match x with
  | S754_nan => nan
  | S754_zero _ => S754_infinity true
  | S754_infinity false => x
  | S754_infinity true | S754_finite true _ _ => nan
  | S754_finite false _ _ => if between 1 1 x then zero else log_kernel x
  end.

(** The logistic function [1 / (1 + exp(-x))]. *)
Definition sigmoid (x : f32) : f32 :=
  match x with
  | S754_nan => nan
  | S754_infinity true => zero
  | S754_infinity false => one
  | S754_zero _ | S754_finite _ _ _ => sigmoid_kernel x
  end.

(** [relu], the larger of [x] and 0: zero for a value below zero, a
    NaN for a NaN, and any other value unchanged. *)
Definition relu (x : f32) : f32 :=
  match x with
  | S754_infinity true | S754_finite true _ _ => zero
  | _ => x
  end.

Definition map_elements (f : f32 -> f32) (t : Tensor) : Tensor :=
  {| sizes := sizes t; storage := map f (storage t) |}.

Definition layer_forward (ly : layer) (x : Tensor) : result Tensor :=
  match ly with
  | LinearLayer l => linear_forward l x
  | ReLU => Ok (map_elements relu x)
  | Sigmoid => Ok (map_elements sigmoid x)
  end.

(** [nn.Sequential]: the layers in order. *)
Fixpoint sequential (ls : list layer) (x : Tensor) : result Tensor :=
  match ls with
  | [] => Ok x
  | ly :: rest => y <- layer_forward ly x ;; sequential rest y
  end.

(** [F.softmax] and [F.log_softmax] on the elements along one
    dimension: both shift by the maximum.  The kernels of torch may
    order the additions and the final division differently; the
    properties below do not depend on that. *)
Definition max_of (x : list f32) : f32 :=
  match x with
  | [] => nan
  | a :: r => fold_left max r a
  end.

Definition sum_exp (x : list f32) : f32 :=
  sum (map (fun xi => exp (sub xi (max_of x))) x).

Definition softmax_vector (x : list f32) : list f32 :=
  map (fun xi => div (exp (sub xi (max_of x))) (sum_exp x)) x.

Definition log_softmax_vector (x : list f32) : list f32 :=
  map (fun xi => sub (sub xi (max_of x)) (log (sum_exp x))) x.

(** A function of the elements along dimension 1, applied for every
    index of the other dimensions ([dim=1]). *)
Definition over_dim_1 (f : list f32 -> list f32) (t : Tensor) : result Tensor :=
  match sizes t with
  | d0 :: d1 :: rest =>
      let r := numel rest in
      Ok {| sizes := sizes t;
            storage :=
              tabulate d0 (fun b => tabulate d1 (fun i =>
                map (fun k => nth i (f (along_1 t d1 r b k)) nan) (seq 0 r))) |}
  | _ => Raise dimension_out_of_range
  end.

(** [F.softmax(t, dim=1)] and [F.log_softmax(t, dim=1)] *)
Definition softmax (t : Tensor) : result Tensor := over_dim_1 softmax_vector t.

Definition log_softmax (t : Tensor) : result Tensor := over_dim_1 log_softmax_vector t.

(** What [finetune.py] imports from the sibling modules and from torch:
    the batch types, the checkpoint reader, the two sub-model
    constructors and their forward passes, the initial values of a fresh
    [nn.Linear], and the loss functions. *)
Variable input : Type.
Variable targets : Type.
Variable torch_load_transformer : string -> result state_dict.
Variable torch_load_cnn : string -> result (list state_dict).
Variable MultiViewTransformer : hparams -> SubModule.
Variable cnn_multi_dim : Z -> Z -> SubModule.
Variable init_weight : nat -> nat -> nat -> f32.
Variable init_bias : nat -> nat -> f32.
Variable output_single : list SubModule -> input -> result Tensor.
Variable transformer_forward : SubModule -> Tensor -> result Tensor.
Variable apply_loss : loss_kind -> Tensor -> targets -> result f32.

(** A metric accumulator: its kind and the updates it has received. *)
Record Metric : Type := {
  m_kind : metric_kind;
  m_updates : list (Tensor * targets)
}.

Inductive log_value : Type :=
| LogLoss (x : f32)
| LogMetric (m : Metric).

Record FinetuneModel : Type := {
  hp : hparams;
  transformer : SubModule;
  cnn_models : list SubModule;
  train_metric : Metric;
  test_metric : Metric;
  val_metric : Metric;
  loss : loss_kind;
  mlps : list layer;
  logged : list (string * log_value)
}.

(** [nn.Linear(inf, outf)], the [k]-th one built. *)
Definition nn_Linear (k : nat) (inf outf : Z) : result Linear :=
  if ((inf <? 0) || (outf <? 0))%Z
  then Raise (RuntimeError "Trying to create tensor with negative dimension")
  else Ok {| in_features := Z.to_nat inf;
             out_features := Z.to_nat outf;
             weight := map (fun j => map (init_weight k j) (seq 0 (Z.to_nat inf)))
                           (seq 0 (Z.to_nat outf));
             bias := map (init_bias k) (seq 0 (Z.to_nat outf)) |}.

(** [for model_idx, model in enumerate(self.cnn_models):
       model.load_state_dict(loaded[model_idx])] *)
Fixpoint load_cnn_models (models : list SubModule) (model_idx : Z)
  (loaded : list state_dict) : result (list SubModule) :=
  match models with
  | [] => Ok []
  | model :: rest =>
      sd <- Py.getitem loaded model_idx ;;
      model' <- load_state_dict model sd ;;
      rest' <- load_cnn_models rest (model_idx + 1)%Z loaded ;;
      Ok (model' :: rest')
  end.

Definition new_metric (k : metric_kind) : Metric :=
  {| m_kind := k; m_updates := [] |}.

(** [FinetuneModel.__init__] *)
Definition init (args : hparams) : result FinetuneModel :=
  let transformer := MultiViewTransformer args in
  sd <- torch_load_transformer (transformer_checkpoint_path args) ;;
  transformer <- load_state_dict transformer sd ;;
  let transformer :=
    if negb (truthy (finetune_transformer args)) then eval (freeze transformer)
    else transformer in
  let in_size := n_hidden args in
  let cnn_models := map (fun i => cnn_multi_dim i in_size) [0; 1; 2]%Z in
  loaded <- torch_load_cnn (cnn_checkpoint_path args) ;;
  cnn_models <- load_cnn_models cnn_models 0%Z loaded ;;
  let cnn_models :=
    if negb (truthy (finetune_cnn args)) then map (fun m => eval (freeze m)) cnn_models
    else cnn_models in
  l0 <- nn_Linear 0 in_size in_size ;;
  let mlps := [LinearLayer l0; ReLU] in
  if truthy (classification args) then
    l1 <- nn_Linear 1 in_size 3 ;;
    Ok {| hp := args; transformer := transformer; cnn_models := cnn_models;
          train_metric := new_metric (AUROC 3);
          test_metric := new_metric (AUROC 3);
          val_metric := new_metric (AUROC 3);
          loss := nll_loss;
          mlps := mlps ++ [LinearLayer l1];
          logged := [] |}
  else
    l1 <- nn_Linear 1 in_size 1 ;;
    Ok {| hp := args; transformer := transformer; cnn_models := cnn_models;
          train_metric := new_metric MeanAbsoluteError;
          test_metric := new_metric MeanAbsoluteError;
          val_metric := new_metric MeanAbsoluteError;
          loss := smooth_l1_loss;
          mlps := mlps ++ [LinearLayer l1; Sigmoid];
          logged := [] |}.

(** The parameters of a layer; a fresh [nn.Linear] has a trainable
    weight and a trainable bias. *)
Definition layer_parameters (ly : layer) : list Param :=
  match ly with
  | LinearLayer l =>
      [ {| p_name := "weight"; p_shape := [out_features l; in_features l];
           p_value := List.concat (weight l); requires_grad := true |};
        {| p_name := "bias"; p_shape := [out_features l];
           p_value := bias l; requires_grad := true |} ]
  | ReLU | Sigmoid => []
  end.

Definition ensemble_parameters (self : FinetuneModel) : list Param :=
  flat_map sm_parameters (cnn_models self).

(** [self.parameters()], in registration order. *)
Definition parameters (self : FinetuneModel) : list Param :=
  sm_parameters (transformer self) ++ ensemble_parameters self
  ++ flat_map layer_parameters (mlps self).

Record AdamW : Type := { opt_params : list Param; opt_lr : spec_float }.

(** [FinetuneModel.configure_optimizers] *)
Definition configure_optimizers (self : FinetuneModel) : AdamW :=
  {| opt_params := filter requires_grad (parameters self); opt_lr := lr (hp self) |}.

(** [FinetuneModel.forward]; the int 100 multiplies a float32 tensor as
    the binary32 value 100. *)
Definition forward (self : FinetuneModel) (x : input) : result Tensor :=
  out <- output_single (cnn_models self) x ;;
  out <- transpose_1_2 out ;;
  out <- transformer_forward (transformer self) out ;;
  out <- flatten_1_2 out ;;
  out <- mean_1 out ;;
  out <- sequential (mlps self) out ;;
  if negb (truthy (classification (hp self))) then Ok (mul_scalar out hundred)
  else Ok out.

(** Lines 90-99 of [get_loss_metrics]: the loss input [pred] and the
    metric input [pred_metric]. *)
Definition loss_metric_inputs (self : FinetuneModel) (x : input)
  : result (Tensor * Tensor) :=
  pred <- forward self x ;;
  let pred_metric := pred in
  if truthy (classification (hp self)) then
    pred_metric <- softmax pred ;;
    pred <- log_softmax pred ;;
    Ok (pred, pred_metric)
  else
    let pred := flatten pred in
    let pred_metric := flatten pred_metric in
    Ok (pred, pred_metric).

Definition update (m : Metric) (preds : Tensor) (target : targets) : Metric :=
  {| m_kind := m_kind m; m_updates := m_updates m ++ [(preds, target)] |}.

(** [FinetuneModel.get_loss_metrics]: the loss, and the model with the
    stage's metric updated and both values logged. *)
Definition get_loss_metrics (self : FinetuneModel) (x : input) (target : targets)
  (stage : string) : result (f32 * FinetuneModel) :=
  inputs <- loss_metric_inputs self x ;;
  let (pred, pred_metric) := inputs in
  metric <-
    (if String.eqb stage "train" then Ok (train_metric self)
     else if String.eqb stage "test" then Ok (test_metric self)
     else if String.eqb stage "val" then Ok (val_metric self)
     else Raise (KeyError stage)) ;;
  let metric := update metric pred_metric target in
  l <- apply_loss (loss self) pred target ;;
  Ok (l,
      {| hp := hp self; transformer := transformer self; cnn_models := cnn_models self;
         train_metric := if String.eqb stage "train" then metric else train_metric self;
         test_metric := if String.eqb stage "test" then metric else test_metric self;
         val_metric := if String.eqb stage "val" then metric else val_metric self;
         loss := loss self;
         mlps := mlps self;
         logged := logged self ++ [((stage ++ "_loss")%string, LogLoss l);
                                    ((stage ++ "_metric")%string, LogMetric metric)] |}).

(** [training_step], [test_step] and [validation_step]: [batch] is the
    (volumes, labels) pair of the loader, the batch index is unused. *)
Definition training_step (self : FinetuneModel) (batch : input * targets) (batch_idx : Z)
  : result (f32 * FinetuneModel) :=
  get_loss_metrics self (fst batch) (snd batch) "train".

Definition test_step (self : FinetuneModel) (batch : input * targets) (batch_idx : Z)
  : result (f32 * FinetuneModel) :=
  get_loss_metrics self (fst batch) (snd batch) "test".

Definition validation_step (self : FinetuneModel) (batch : input * targets) (batch_idx : Z)
  : result (f32 * FinetuneModel) :=
  get_loss_metrics self (fst batch) (snd batch) "val".

End Model.

Arguments m_kind {targets} _.
Arguments m_updates {targets} _.
Arguments hp {targets} _.
Arguments transformer {targets} _.
Arguments cnn_models {targets} _.
Arguments train_metric {targets} _.
Arguments test_metric {targets} _.
Arguments val_metric {targets} _.
Arguments loss {targets} _.
Arguments mlps {targets} _.
Arguments logged {targets} _.
Arguments ensemble_parameters {targets} self.
Arguments parameters {targets} self.
Arguments configure_optimizers {targets} self.

End Torch.

(** ** Sample inputs *)

Module Samples.

Import PyFloat Numpy.
Local Open Scope Z_scope.
Local Open Scope string_scope.

(** The binary64 values of some decimal literals. *)
Definition f_1_0 : float := S754_finite false 4503599627370496 (-52).
Definition f_0_2 : float := S754_finite false 7205759403792794 (-55).
Definition f_0_3 : float := S754_finite false 5404319552844595 (-54).
Definition f_0_5 : float := S754_finite false 4503599627370496 (-53).
Definition f_0_6 : float := S754_finite false 5404319552844595 (-53).
Definition f_1_5 : float := S754_finite false 6755399441055744 (-52).
Definition f_72_3 : float := S754_finite false 5087660204045107 (-46).
Definition f_neg_0_25 : float := S754_finite true 4503599627370496 (-54).

(** A manifest in the layout of the ADNI export: a header line, then
    rows of quoted fields. *)
Definition quoted (s : string) : string := String "034" (s ++ String "034" "").

Fixpoint join (sep : string) (l : list string) : string :=
  match l with
  | [] => ""
  | [x] => x
  | x :: rest => x ++ sep ++ join sep rest
  end.

Definition row (fields : list string) : string :=
  join "," (map quoted fields) ++ String "010" "".

Definition header : list string :=
  ["Image Data ID"; "Subject"; "Group"; "Sex"; "Age"; "Visit"].
Definition scan_0 : list string := ["I100"; "002_S_0001"; "AD"; "M"; "72.3"; "1"].
Definition scan_1 : list string := ["I101"; "002_S_0002"; "CN"; "F"; "68.5"; "1"].
Definition scan_2 : list string := ["I102"; "002_S_0003"; "MCI"; "F"; "n/a"; "2"].
Definition scan_3 : list string := ["I103"; "002_S_0004"; "FOO"; "M"; "80"; "1"].

Definition manifest : list string :=
  [row header; row scan_0; row scan_1; row scan_2; row scan_3].

Definition class_dataset : Dataset.ADNIDataset := Dataset.init "./adni_data" manifest 1.

(** A 2 x 3 volume, and a decoder that finds it under every path. *)
Definition volume : ndarray :=
  {| shape := [2; 3];
     data := F64 [f_0_2; f_0_3; f_0_5; f_0_6; f_1_0; f_1_5] |}.

Definition decoder (path : string) : result ndarray := Ok volume.

(** Two one-parameter sub-models with matching checkpoints, and the
    options of a run. *)
Definition sub_model (name : string) : Torch.SubModule :=
  {| Torch.sm_parameters :=
       [ {| Torch.p_name := name; Torch.p_shape := [1%nat];
            Torch.p_value := [Binary32.zero]; Torch.requires_grad := true |} ];
     Torch.sm_training := true |}.

Definition checkpoint (name : string) : Torch.state_dict :=
  [(name, ([1%nat], [Binary32.one]))].

Definition options (finetune_transformer finetune_cnn classification : Z) : Torch.hparams :=
  {| Torch.transformer_checkpoint_path := "./transformer_checkpoints/";
     Torch.cnn_checkpoint_path := "./cnn_checkpoints/checkpointat5.pth";
     Torch.finetune_transformer := finetune_transformer;
     Torch.finetune_cnn := finetune_cnn;
     Torch.classification := classification;
     Torch.n_hidden := 2;
     Torch.lr := S754_finite false 4611686018427388 (-62) |}.

Definition load_fusion (path : string) : result Torch.state_dict :=
  Ok (checkpoint "fusion").
Definition load_views (path : string) : result (list Torch.state_dict) :=
  Ok [checkpoint "view"; checkpoint "view"; checkpoint "view"].
Definition new_fusion (args : Torch.hparams) : Torch.SubModule := sub_model "fusion".
Definition new_view (i in_size : Z) : Torch.SubModule := sub_model "view".
Definition weight_0 (k j i : nat) : Binary32.f32 := Binary32.zero.
Definition bias_0 (k j : nat) : Binary32.f32 := Binary32.zero.

Definition build (args : Torch.hparams) : result (Torch.FinetuneModel unit) :=
  Torch.init unit load_fusion load_views new_fusion new_view weight_0 bias_0 args.

(** The features of a batch of one sample: three slices, one view, two
    channels; a fusion network that returns its input. *)
Definition features (models : list Torch.SubModule) (x : unit) : result Torch.Tensor :=
  Ok {| Torch.sizes := [1; 1; 3; 2]%nat;
        Torch.storage := map Binary32.of_Z [1; 2; 3; 4; 5; 6] |}.

Definition fusion (m : Torch.SubModule) (t : Torch.Tensor) : result Torch.Tensor := Ok t.

(** Kernels with the value 1/2, 1 and 0 wherever the result is not
    fixed. *)
Definition half : Binary32.f32 := S754_finite false 8388608 (-24).
Definition sigmoid_half (x : Binary32.f32) : Binary32.f32 := half.
Definition exp_one (x : Binary32.f32) : Binary32.f32 := Binary32.one.
Definition log_zero (x : Binary32.f32) : Binary32.f32 := Binary32.zero.

(** A manifest that ends with a blank line, a manifest whose label is
    the last column, and one whose score is. *)
Definition manifest_blank_end : list string := manifest ++ [String "010" ""].

Definition label_last_dataset : Dataset.ADNIDataset :=
  Dataset.init "./adni_data"
    [row ["Image Data ID"; "Subject"; "Group"]; row ["I100"; "002_S_0001"; "AD"]] 1.

Definition score_last_dataset : Dataset.ADNIDataset :=
  Dataset.init "./adni_data"
    [row ["Image Data ID"; "Subject"; "Group"; "Sex"; "Age"];
     row ["I100"; "002_S_0001"; "AD"; "M"; "72.3"]] 0.

(** An ensemble checkpoint with two entries only, and a loss that is
    always zero. *)
Definition load_two_views (path : string) : result (list Torch.state_dict) :=
  Ok [checkpoint "view"; checkpoint "view"].

Definition loss_0 (k : Torch.loss_kind) (pred : Torch.Tensor) (target : unit)
  : result Binary32.f32 := Ok Binary32.zero.



Definition features_nan (models : list Torch.SubModule) (x : unit) : result Torch.Tensor :=
  Ok {| Torch.sizes := [1; 1; 1; 2]%nat;
        Torch.storage := [Binary32.nan; Binary32.one] |}.

(** Features with three channels, where the head expects two. *)
Definition features_wide (models : list Torch.SubModule) (x : unit) : result Torch.Tensor :=
  Ok {| Torch.sizes := [1; 1; 1; 3]%nat;
        Torch.storage := map Binary32.of_Z [1; 2; 3] |}.






End Samples.

(** * Properties *)

Import PyFloat.

(** ** Binary64 rounding: sizes of mantissas and exponents *)

Section Rounding.

Local Open Scope Z_scope.

Lemma digits2_pos_size p : digits2_pos p = Pos.size p.
Proof. induction p; simpl; congruence. Qed.

Lemma Zdigits2_nonneg m : 0 <= Zdigits2 m.
Proof. destruct m; simpl; lia. Qed.

Lemma Zdigits2_gt m : 0 <= m -> m < 2 ^ Zdigits2 m.
Proof.
  destruct m as [|p|p]; simpl; intros H; try lia.
  rewrite digits2_pos_size.
  pose proof (Pos.size_gt p) as G.
  apply Pos2Z.pos_lt_pos in G. rewrite Pos2Z.inj_pow in G. exact G.
Qed.

Lemma Zdigits2_le m k : 0 <= m -> 0 <= k -> m < 2 ^ k -> Zdigits2 m <= k.
Proof.
  destruct m as [|p|p]; simpl; intros H Hk Hm; try lia.
  rewrite digits2_pos_size.
  pose proof (Pos.size_le p) as G.
  apply Pos2Z.pos_le_pos in G. rewrite Pos2Z.inj_pow in G.
  assert (2 ^ Z.pos (Pos.size p) < 2 ^ (k + 1)) as L.
  { rewrite Z.pow_add_r by lia. change (Z.pos p~0) with (2 * Z.pos p) in G. lia. }
  apply Z.pow_lt_mono_r_iff in L; lia.
Qed.

Lemma shr_1_m mrs : 0 <= shr_m mrs -> shr_m (shr_1 mrs) = shr_m mrs / 2.
Proof.
  destruct mrs as [m r s]. simpl. intros H.
  rewrite <- Z.div2_div.
  destruct m as [|[p|p|]|p]; simpl; try lia; reflexivity.
Qed.

(** Shifting a mantissa right by [p] bits divides it by [2^p]. *)
Lemma shr_m_iter p : forall mrs, 0 <= shr_m mrs ->
  shr_m (iter_pos shr_1 p mrs) = shr_m mrs / 2 ^ Z.pos p.
Proof.
  induction p as [p IH|p IH|]; intros mrs H; simpl iter_pos.
  - assert (0 <= shr_m (shr_1 mrs)) as H1.
    { rewrite shr_1_m by assumption. apply Z.div_pos; lia. }
    assert (0 <= shr_m (iter_pos shr_1 p (shr_1 mrs))) as H2.
    { rewrite IH by assumption. apply Z.div_pos; lia. }
    rewrite IH by assumption. rewrite IH by assumption. rewrite shr_1_m by assumption.
    rewrite !Z.div_div by lia. f_equal.
    change (Z.pos p~1) with (2 * Z.pos p + 1).
    rewrite Z.pow_add_r, Z.pow_mul_r by lia.
    replace (2 ^ 2) with 4 by reflexivity. rewrite Z.pow_1_r.
    assert (4 ^ Z.pos p = 2 ^ Z.pos p * 2 ^ Z.pos p).
    { rewrite <- Z.pow_mul_l. reflexivity. }
    lia.
  - assert (0 <= shr_m (iter_pos shr_1 p mrs)) as H2.
    { rewrite IH by assumption. apply Z.div_pos; lia. }
    rewrite IH by assumption. rewrite IH by assumption.
    rewrite !Z.div_div by lia. f_equal.
    change (Z.pos p~0) with (2 * Z.pos p).
    rewrite Z.pow_mul_r by lia.
    replace (2 ^ 2) with 4 by reflexivity.
    rewrite <- Z.pow_mul_l. reflexivity.
  - rewrite shr_1_m by assumption. reflexivity.
Qed.

Lemma shr_record_of_loc_m m l : shr_m (shr_record_of_loc m l) = m.
Proof. destruct l as [|[| |]]; reflexivity. Qed.

(** The exponent and mantissa after [shr_fexp]. *)
Lemma shr_fexp_spec m e l mrs' e' :
  0 <= m ->
  shr_fexp prec emax m e l = (mrs', e') ->
  e' = Z.max e (fexp prec emax (Zdigits2 m + e)) /\
  shr_m mrs' = m / 2 ^ (e' - e).
Proof.
  intros Hm. unfold shr_fexp, shr.
  destruct (fexp prec emax (Zdigits2 m + e) - e) as [|p|p] eqn:E; intros H; inversion H; subst.
  - split; [lia|]. rewrite shr_record_of_loc_m. replace (e' - e') with 0 by lia.
    rewrite Z.pow_0_r, Z.div_1_r. reflexivity.
  - split; [lia|]. rewrite shr_m_iter by (rewrite shr_record_of_loc_m; exact Hm).
    rewrite shr_record_of_loc_m. f_equal. f_equal. lia.
  - split; [lia|]. rewrite shr_record_of_loc_m. replace (e' - e') with 0 by lia.
    rewrite Z.pow_0_r, Z.div_1_r. reflexivity.
Qed.

Lemma round_nearest_even_bounds m l :
  m <= round_nearest_even m l <= m + 1.
Proof.
  destruct l as [|[| |]]; simpl; try lia. destruct (Z.even m); lia.
Qed.

Lemma fexp_eq x : fexp prec emax x = Z.max (x - 53) (-1074).
Proof. reflexivity. Qed.

Lemma div_pow2_lt m a b : 0 <= m -> 0 <= a -> 0 <= b -> m < 2 ^ (a + b) -> m / 2 ^ a < 2 ^ b.
Proof.
  intros Hm Ha Hb H. apply Z.div_lt_upper_bound; [lia|].
  rewrite <- Z.pow_add_r by lia. exact H.
Qed.

Lemma div_pow2_zero m a k : 0 <= m -> 0 <= k -> k <= a -> m < 2 ^ k -> m / 2 ^ a = 0.
Proof.
  intros Hm Hk Ha H. apply Z.div_small. split; [lia|].
  apply Z.lt_le_trans with (2 ^ k); [exact H|]. apply Z.pow_le_mono_r; lia.
Qed.

(** What [binary_round_aux] can return for a positive mantissa below
    [2^k]. *)
Lemma binary_round_aux_bounds s m e l k :
  0 <= k -> Z.pos m < 2 ^ k ->
  match binary_round_aux prec emax s (Z.pos m) e l with
  | S754_zero s' => s' = s
  | S754_finite s' m' e' =>
      s' = s /\ Z.pos m' < 2 ^ 53 /\ e' <= Z.max e (Z.max (k + e - 52) (-1074))
  | S754_infinity s' => s' = s /\ 971 < Z.max e (Z.max (k + e - 52) (-1074))
  | S754_nan => False
  end.
Proof.
  intros Hk Hm. unfold binary_round_aux.
  destruct (shr_fexp prec emax (Z.pos m) e l) as [mrs1 e1] eqn:E1.
  apply shr_fexp_spec in E1; [|lia]. destruct E1 as [He1 Hm1].
  set (m1 := round_nearest_even (shr_m mrs1) (loc_of_shr_record mrs1)).
  pose proof (round_nearest_even_bounds (shr_m mrs1) (loc_of_shr_record mrs1)) as Hr.
  fold m1 in Hr.
  assert (0 <= shr_m mrs1) as Hp1 by (rewrite Hm1; apply Z.div_pos; lia).
  assert (0 <= m1) as Hpm1 by lia.
  destruct (shr_fexp prec emax m1 e1 loc_Exact) as [mrs2 e2] eqn:E2.
  apply shr_fexp_spec in E2; [|lia]. destruct E2 as [He2 Hm2].
  assert (0 <= shr_m mrs2) as Hp2 by (rewrite Hm2; apply Z.div_pos; lia).
  pose proof (Zdigits2_le (Z.pos m) k ltac:(lia) Hk Hm) as HD.
  pose proof (Zdigits2_nonneg (Z.pos m)) as HD0.
  rewrite fexp_eq in He1, He2.
  (* bound on the digits of the rounded mantissa *)
  assert (Zdigits2 m1 <= Z.max (k - (e1 - e)) 0 + 1) as HD1.
  { apply Zdigits2_le; [lia|lia|].
    assert (shr_m mrs1 < 2 ^ Z.max (k - (e1 - e)) 0) as Hlt.
    { rewrite Hm1. destruct (Z.le_gt_cases (e1 - e) k).
      - rewrite Z.max_l by lia. apply div_pow2_lt; try lia.
        replace (e1 - e + (k - (e1 - e))) with k by lia. exact Hm.
      - rewrite (div_pow2_zero (Z.pos m) (e1 - e) k) by lia.
        apply Z.pow_pos_nonneg; lia. }
    rewrite Z.pow_add_r by lia. lia. }
  assert (e2 <= Z.max e (Z.max (k + e - 52) (-1074))) as Hb by lia.
  assert (shr_m mrs2 < 2 ^ 53) as Hc.
  { rewrite Hm2. pose proof (Zdigits2_gt m1 Hpm1) as G.
    pose proof (Zdigits2_nonneg m1) as G0.
    destruct (Z.le_gt_cases (Zdigits2 m1) 53).
    - apply Z.le_lt_trans with m1.
      + apply Z.div_le_upper_bound; [lia|].
        assert (0 < 2 ^ (e2 - e1)) by (apply Z.pow_pos_nonneg; lia). nia.
      + apply Z.lt_le_trans with (2 ^ Zdigits2 m1); [exact G|].
        apply Z.pow_le_mono_r; lia.
    - apply div_pow2_lt; try lia.
      apply Z.lt_le_trans with (2 ^ Zdigits2 m1); [exact G|].
      apply Z.pow_le_mono_r; lia. }
  destruct (shr_m mrs2) as [|p|p] eqn:Em2; [reflexivity| |lia].
  destruct (e2 <=? emax - prec) eqn:El.
  - repeat split; assumption.
  - apply Z.leb_gt in El. unfold emax, prec in El. split; [reflexivity|lia].
Qed.

Lemma iter_xO m d : Z.pos (Pos.iter xO m d) = Z.pos m * 2 ^ Z.pos d.
Proof.
  induction d as [|d IH] using Pos.peano_ind.
  - simpl. lia.
  - rewrite Pos.iter_succ, Pos2Z.inj_succ, Z.pow_succ_r by lia.
    change (Z.pos (Pos.iter xO m d)~0) with (2 * Z.pos (Pos.iter xO m d)). lia.
Qed.

Lemma binary_round_bounds s m e k :
  0 <= k -> Z.pos m < 2 ^ k ->
  match binary_round prec emax s m e with
  | S754_zero s' => s' = s
  | S754_finite s' m' e' =>
      s' = s /\ Z.pos m' < 2 ^ 53 /\ e' <= Z.max e (Z.max (k + e - 52) (-1074))
  | S754_infinity s' => s' = s /\ 971 < Z.max e (Z.max (k + e - 52) (-1074))
  | S754_nan => False
  end.
Proof.
  intros Hk Hm. unfold binary_round, shl_align.
  set (e' := fexp prec emax (Z.pos (digits2_pos m) + e)).
  destruct (e' - e) as [|d|d] eqn:E.
  - apply binary_round_aux_bounds; assumption.
  - apply binary_round_aux_bounds; assumption.
  - assert (Z.pos (Pos.iter xO m d) < 2 ^ (k + Z.pos d)) as L.
    { rewrite iter_xO, Z.pow_add_r by lia.
      assert (0 < 2 ^ Z.pos d) by (apply Z.pow_pos_nonneg; lia). nia. }
    pose proof (binary_round_aux_bounds s (Pos.iter xO m d) e' loc_Exact (k + Z.pos d)
                  ltac:(lia) L) as B.
    destruct (binary_round_aux prec emax s (Z.pos (Pos.iter xO m d)) e' loc_Exact);
      try exact B; intuition lia.
Qed.

(** An int below [2^K] in magnitude converts without overflow. *)
Lemma of_int_small n K :
  0 <= K <= 1023 -> Z.abs n < 2 ^ K ->
  exists y, of_int n = Ok y /\ small (Z.max 0 (K - 52)) y /\
            (0 <= n -> nonneg y = true).
Proof.
  intros HK Hn. unfold of_int, binary_normalize.
  destruct n as [|p|p].
  - eexists; repeat split.
  - pose proof (binary_round_bounds false p 0 K ltac:(lia) ltac:(lia)) as B.
    destruct (binary_round prec emax false p 0) as [s'|s'| |s' m' e']; try contradiction.
    + eexists; repeat split.
    + lia.
    + eexists; split; [reflexivity|]. destruct B as (-> & B1 & B2).
      split; [split; [exact B1|lia]|reflexivity].
  - pose proof (binary_round_bounds true p 0 K ltac:(lia) ltac:(lia)) as B.
    destruct (binary_round prec emax true p 0) as [s'|s'| |s' m' e']; try contradiction.
    + eexists; repeat split.
    + lia.
    + eexists; split; [reflexivity|]. destruct B as (-> & B1 & B2).
      split; [split; [exact B1|lia]|lia].
Qed.

(** The product of a factor of magnitude at most [2^j] and a small
    value is small: it does not overflow. *)
Lemma mul_small j E x y :
  0 <= j -> abs_le_pow2 j x = true -> small E y ->
  Z.max (j + E + 1) (-1074) <= 971 ->
  small (Z.max (j + E + 1) (-1074)) (mul x y) /\
  (nonneg x = true -> nonneg y = true -> nonneg (mul x y) = true).
Proof.
  intros Hj Hx Hy HE.
  destruct x as [sx|sx| |sx mx ex]; try discriminate;
    destruct y as [sy|sy| |sy my ey]; try contradiction;
    unfold mul; cbn [SFmul small nonneg abs_le_pow2] in *.
  - split; [exact I|reflexivity].
  - split; [exact I|reflexivity].
  - split; [exact I|reflexivity].
  - destruct Hy as [Hy1 Hy2].
    assert (exists k, 0 <= k /\ Z.pos (mx * my) < 2 ^ k /\
                      Z.max (ex + ey) (Z.max (k + (ex + ey) - 52) (-1074))
                      <= Z.max (j + E + 1) (-1074)) as (k & Hk & Hlt & Hb).
    { rewrite Pos2Z.inj_mul.
      destruct (j <=? ex) eqn:C.
      - apply Z.leb_le in C. apply Z.leb_le in Hx.
        assert (0 < 2 ^ (ex - j)) as P by (apply Z.pow_pos_nonneg; lia).
        assert (Z.pos mx = 1) as M.
        { destruct (Z.eq_dec (Z.pos mx) 1) as [|N]; [assumption|].
          assert (2 <= Z.pos mx) by lia. nia. }
        assert (ex - j = 0) as X.
        { destruct (Z.eq_dec (ex - j) 0) as [|N]; [assumption|].
          assert (2 ^ 1 <= 2 ^ (ex - j)) by (apply Z.pow_le_mono_r; lia).
          change (2 ^ 1) with 2 in *. nia. }
        exists 53. rewrite M. split; [lia|]. split; [lia|]. lia.
      - apply Z.leb_gt in C. apply Z.leb_le in Hx.
        exists (j - ex + 53). split; [lia|]. split.
        + rewrite Z.pow_add_r by lia.
          assert (0 < 2 ^ (j - ex)) by (apply Z.pow_pos_nonneg; lia). nia.
        + lia. }
    pose proof (binary_round_aux_bounds (xorb sx sy) (mx * my) (ex + ey) loc_Exact k Hk Hlt) as B.
    destruct (binary_round_aux prec emax (xorb sx sy) (Z.pos (mx * my)) (ex + ey) loc_Exact)
      as [s'|s'| |s' m' e']; try contradiction.
    + split; [exact I|reflexivity].
    + lia.
    + destruct B as (-> & B1 & B2). split; [split; [exact B1|lia]|].
      destruct sx, sy; simpl; intros; congruence.
Qed.

Lemma mul_comm x y : mul x y = mul y x.
Proof.
  unfold mul.
  destruct x as [sx|sx| |sx mx ex], y as [sy|sy| |sy my ey]; simpl;
    try reflexivity; try (rewrite xorb_comm; reflexivity).
  rewrite xorb_comm, Pos.mul_comm, Z.add_comm. reflexivity.
Qed.

(** [int()] of a small value succeeds; on a non-negative value it is
    the floor. *)
Lemma to_int_small E x :
  small E x ->
  exists v, to_int x = Ok v /\ Z.abs v < 2 ^ (53 + Z.max E 0) /\
            (nonneg x = true -> 0 <= v /\ floor x = Some v).
Proof.
  destruct x as [s|s| |s m e]; cbn [small to_int nonneg floor]; try contradiction.
  - intros _. exists 0. split; [reflexivity|]. split; [|auto with zarith].
    apply Z.pow_pos_nonneg; lia.
  - intros [Hm He]. eexists; split; [reflexivity|].
    unfold trunc.
    assert (0 <= (if 0 <=? e then Z.pos m * 2 ^ e else Z.pos m / 2 ^ (- e))
            < 2 ^ (53 + Z.max E 0)) as B.
    { destruct (0 <=? e) eqn:C.
      - apply Z.leb_le in C. split; [apply Z.mul_nonneg_nonneg; try lia; apply Z.pow_nonneg; lia|].
        rewrite Z.pow_add_r by lia.
        assert (2 ^ e <= 2 ^ Z.max E 0) by (apply Z.pow_le_mono_r; lia).
        assert (0 < 2 ^ e) by (apply Z.pow_pos_nonneg; lia). nia.
      - apply Z.leb_gt in C. split; [apply Z.div_pos; try lia; apply Z.pow_pos_nonneg; lia|].
        apply Z.le_lt_trans with (Z.pos m).
        + apply Z.div_le_upper_bound; [apply Z.pow_pos_nonneg; lia|].
          assert (0 < 2 ^ (- e)) by (apply Z.pow_pos_nonneg; lia). nia.
        + apply Z.lt_le_trans with (2 ^ 53); [exact Hm|]. apply Z.pow_le_mono_r; lia. }
    split.
    + destruct s; cbn [cond_Zopp]; lia.
    + destruct s; cbn [cond_Zopp negb]; [discriminate|]. intros _. split; [lia|].
      destruct (0 <=? e); reflexivity.
Qed.

End Rounding.

(** ** The split sizes *)

Section SplitSizes.

Import Split.
Local Open Scope Z_scope.

Lemma small_finite E x : small E x -> is_finite x = true.
Proof. destruct x; simpl; intros H; try contradiction; reflexivity. Qed.

(** One size: the product of a ratio and a count, then [int()]. *)
Lemma mul_int_to_int j K x n :
  0 <= j -> 52 <= K <= 1023 -> j + K <= 1022 ->
  abs_le_pow2 j x = true -> Z.abs n < 2 ^ K ->
  exists a v,
    mul_int x n = Ok a /\ is_finite a = true /\ to_int a = Ok v /\
    Z.abs v < 2 ^ (j + K + 2) /\
    (nonneg x = true -> 0 <= n -> 0 <= v /\ floor a = Some v).
Proof.
  intros Hj HK HjK Hx Hn.
  destruct (of_int_small n K ltac:(lia) Hn) as (y & Hy & Sy & Ny).
  rewrite Z.max_r in Sy by lia.
  destruct (mul_small j (K - 52) x y Hj Hx Sy ltac:(lia)) as [Sa Na].
  rewrite Z.max_l in Sa by lia.
  destruct (to_int_small _ _ Sa) as (v & Hv & Bv & Fv).
  exists (mul x y), v. unfold mul_int. rewrite Hy. cbn [bind].
  split; [reflexivity|]. split; [eapply small_finite; eassumption|].
  split; [exact Hv|]. split.
  - replace (j + K + 2) with (53 + Z.max (j + (K - 52) + 1) 0) by lia. exact Bv.
  - intros Px Pn. apply Fv. apply Na; [exact Px|apply Ny; exact Pn].
Qed.

Lemma rmul_int_to_int j K x n :
  0 <= j -> 52 <= K <= 1023 -> j + K <= 1022 ->
  abs_le_pow2 j x = true -> Z.abs n < 2 ^ K ->
  exists a v,
    rmul_int n x = Ok a /\ is_finite a = true /\ to_int a = Ok v /\
    Z.abs v < 2 ^ (j + K + 2) /\
    (nonneg x = true -> 0 <= n -> 0 <= v /\ floor a = Some v).
Proof.
  intros Hj HK HjK Hx Hn.
  destruct (mul_int_to_int j K x n Hj HK HjK Hx Hn) as (a & v & H).
  exists a, v. unfold rmul_int. unfold mul_int in H.
  destruct (of_int n) as [y|e]; cbn [bind] in *; [|destruct H as [H _]; discriminate].
  rewrite mul_comm. exact H.
Qed.

Lemma pow2_le a b : 0 <= a <= b -> 2 ^ a <= 2 ^ b.
Proof. intros. apply Z.pow_le_mono_r; lia. Qed.

(** The sizes on the branch [train_ratio == 1]. *)
Lemma split_lengths_eq_1 n v t r a b vs ts :
  mul_int v n = Ok a -> to_int a = Ok vs ->
  mul_int t n = Ok b -> to_int b = Ok ts ->
  eq_int r 1 = true ->
  split_lengths n v t r = Ok [vs; ts; n - (vs + ts)].
Proof.
  intros Ha Hv Hb Ht Hr. unfold split_lengths.
  rewrite Ha. cbn [bind]. rewrite Hv. cbn [bind]. rewrite Hb. cbn [bind].
  rewrite Ht. cbn [bind]. rewrite Hr. reflexivity.
Qed.

Lemma split_lengths_neq_1 n v t r a b c vs ts trs :
  mul_int v n = Ok a -> to_int a = Ok vs ->
  mul_int t n = Ok b -> to_int b = Ok ts ->
  eq_int r 1 = false ->
  rmul_int (n - (vs + ts)) r = Ok c -> to_int c = Ok trs ->
  split_lengths n v t r = Ok [vs; ts; trs; n - (vs + ts + trs)].
Proof.
  intros Ha Hv Hb Ht Hr Hc Htr. unfold split_lengths.
  rewrite Ha. cbn [bind]. rewrite Hv. cbn [bind]. rewrite Hb. cbn [bind].
  rewrite Ht. cbn [bind]. rewrite Hr.
  replace (n - sum [vs; ts]) with (n - (vs + ts)) by (unfold sum; simpl; lia).
  rewrite Hc. cbn [bind]. rewrite Htr. cbn [bind].
  f_equal.
Qed.

Lemma in_unit_interval_parts x :
  in_unit_interval x = true -> nonneg x = true /\ abs_le_pow2 0 x = true.
Proof. unfold in_unit_interval. intros H. apply andb_prop in H. exact H. Qed.

Lemma abs_lt_2_63 n : 0 <= n < 2 ^ 63 -> Z.abs n < 2 ^ 63.
Proof. lia. Qed.

(** C2 (amended).  For a record count [0 <= n < 2^63] and binary64
    ratios [val_ratio], [test_ratio] in [[0, 1]] with [train_ratio == 1],
    the split computes [val_size = floor(val_ratio * n)] and
    [test_size = floor(test_ratio * n)] (the binary64 products) and
    [train_size = n - val_size - test_size]; the three sizes add up to
    [n] exactly, [val_size] and [test_size] are non-negative, and
    [train_size] is non-negative exactly when
    [val_size + test_size <= n]. *)
Theorem split_sizes_train_ratio_one n val_ratio test_ratio train_ratio :
  0 <= n < 2 ^ 63 ->
  in_unit_interval val_ratio = true ->
  in_unit_interval test_ratio = true ->
  eq_int train_ratio 1 = true ->
  exists a b val_size test_size,
    mul_int val_ratio n = Ok a /\ floor a = Some val_size /\
    mul_int test_ratio n = Ok b /\ floor b = Some test_size /\
    split_lengths n val_ratio test_ratio train_ratio
      = Ok [val_size; test_size; n - val_size - test_size] /\
    val_size + test_size + (n - val_size - test_size) = n /\
    0 <= val_size /\ 0 <= test_size /\
    (0 <= n - val_size - test_size <-> val_size + test_size <= n).
Proof.
  intros Hn Hv Ht Hr.
  apply in_unit_interval_parts in Hv. destruct Hv as [Pv Bv].
  apply in_unit_interval_parts in Ht. destruct Ht as [Pt Bt].
  destruct (mul_int_to_int 0 63 val_ratio n ltac:(lia) ltac:(lia) ltac:(lia) Bv
              (abs_lt_2_63 n Hn)) as (a & vs & Ha & _ & Hvs & _ & Fa).
  destruct (mul_int_to_int 0 63 test_ratio n ltac:(lia) ltac:(lia) ltac:(lia) Bt
              (abs_lt_2_63 n Hn)) as (b & ts & Hb & _ & Hts & _ & Fb).
  destruct (Fa Pv ltac:(lia)) as [Nv Flv]. destruct (Fb Pt ltac:(lia)) as [Nt Flt].
  exists a, b, vs, ts.
  rewrite (split_lengths_eq_1 n val_ratio test_ratio train_ratio a b vs ts Ha Hvs Hb Hts Hr).
  replace (n - (vs + ts)) with (n - vs - ts) by lia.
  repeat split; try assumption; lia.
Qed.

(** C3 (amended).  For a record count [0 <= n < 2^63], ratios
    [val_ratio], [test_ratio] in [[0, 1]] and a [train_ratio] of
    magnitude at most 1 other than 1, the split computes
    [remaining = n - val_size - test_size],
    [train_size = int(remaining * train_ratio)] (truncation towards
    zero; the floor when [train_ratio >= 0] and
    [val_size + test_size <= n]) and
    [discard_size = remaining - train_size], and the four sizes add up
    to [n] exactly. *)
Theorem split_sizes_train_ratio_other n val_ratio test_ratio train_ratio :
  0 <= n < 2 ^ 63 ->
  in_unit_interval val_ratio = true ->
  in_unit_interval test_ratio = true ->
  abs_le_pow2 0 train_ratio = true ->
  eq_int train_ratio 1 = false ->
  exists a b c val_size test_size train_size discard_size,
    mul_int val_ratio n = Ok a /\ floor a = Some val_size /\
    mul_int test_ratio n = Ok b /\ floor b = Some test_size /\
    rmul_int (n - val_size - test_size) train_ratio = Ok c /\
    to_int c = Ok train_size /\
    discard_size = n - val_size - test_size - train_size /\
    split_lengths n val_ratio test_ratio train_ratio
      = Ok [val_size; test_size; train_size; discard_size] /\
    val_size + test_size + train_size + discard_size = n /\
    (nonneg train_ratio = true -> val_size + test_size <= n ->
     floor c = Some train_size /\ 0 <= train_size).
Proof.
  intros Hn Hv Ht Br Hr.
  apply in_unit_interval_parts in Hv. destruct Hv as [Pv Bv].
  apply in_unit_interval_parts in Ht. destruct Ht as [Pt Bt].
  destruct (mul_int_to_int 0 63 val_ratio n ltac:(lia) ltac:(lia) ltac:(lia) Bv
              (abs_lt_2_63 n Hn)) as (a & vs & Ha & _ & Hvs & Av & Fa).
  destruct (mul_int_to_int 0 63 test_ratio n ltac:(lia) ltac:(lia) ltac:(lia) Bt
              (abs_lt_2_63 n Hn)) as (b & ts & Hb & _ & Hts & At & Fb).
  destruct (Fa Pv ltac:(lia)) as [Nv Flv]. destruct (Fb Pt ltac:(lia)) as [Nt Flt].
  assert (Z.abs (n - (vs + ts)) < 2 ^ 67) as Hrem.
  { change (0 + 63 + 2) with 65 in Av, At.
    change (2 ^ 67) with (4 * 2 ^ 65). change (2 ^ 63) with 9223372036854775808 in Hn.
    change (2 ^ 65) with 36893488147419103232 in *. lia. }
  destruct (rmul_int_to_int 0 67 train_ratio (n - (vs + ts)) ltac:(lia) ltac:(lia) ltac:(lia)
              Br Hrem) as (c & trs & Hc & _ & Htrs & _ & Fc).
  exists a, b, c, vs, ts, trs, (n - vs - ts - trs).
  rewrite (split_lengths_neq_1 n val_ratio test_ratio train_ratio a b c vs ts trs
             Ha Hvs Hb Hts Hr Hc Htrs).
  replace (n - vs - ts) with (n - (vs + ts)) by lia.
  replace (n - (vs + ts + trs)) with (n - (vs + ts) - trs) by lia.
  repeat split; try assumption; try lia.
  - apply Fc; [assumption|lia].
  - apply Fc; [assumption|lia].
Qed.

Lemma of_int_error n e : of_int n = Raise e -> float_error e.
Proof.
  unfold of_int. destruct (binary_normalize prec emax n 0 false); intros H; inversion H.
  right; right; reflexivity.
Qed.

Lemma to_int_error x e : to_int x = Raise e -> float_error e.
Proof.
  destruct x; intros H; inversion H.
  - right; left; reflexivity.
  - left; reflexivity.
Qed.

Lemma mul_int_error x n e : mul_int x n = Raise e -> float_error e.
Proof.
  unfold mul_int. destruct (of_int n) eqn:E; cbn [bind]; intros H; inversion H; subst.
  eapply of_int_error; eassumption.
Qed.

Lemma rmul_int_error x n e : rmul_int n x = Raise e -> float_error e.
Proof.
  unfold rmul_int. destruct (of_int n) eqn:E; cbn [bind]; intros H; inversion H; subst.
  eapply of_int_error; eassumption.
Qed.

(** The sizes always add up to the record count, and only the float
    conversions can fail. *)
Lemma split_lengths_cases n v t r :
  match split_lengths n v t r with
  | Ok lengths => sum lengths = n
  | Raise e => float_error e
  end.
Proof.
  unfold split_lengths.
  destruct (mul_int v n) as [a|e] eqn:Ea; cbn [bind]; [|eapply mul_int_error; eassumption].
  destruct (to_int a) as [vs|e] eqn:Ev; cbn [bind]; [|eapply to_int_error; eassumption].
  destruct (mul_int t n) as [b|e] eqn:Eb; cbn [bind]; [|eapply mul_int_error; eassumption].
  destruct (to_int b) as [ts|e] eqn:Et; cbn [bind]; [|eapply to_int_error; eassumption].
  destruct (eq_int r 1).
  - unfold sum; cbn [app fold_left]. lia.
  - destruct (rmul_int (n - sum [vs; ts]) r) as [c|e] eqn:Ec; cbn [bind];
      [|eapply rmul_int_error; eassumption].
    destruct (to_int c) as [trs|e] eqn:Etr; cbn [bind]; [|eapply to_int_error; eassumption].
    unfold sum; cbn [app fold_left]. lia.
Qed.

(** C4 (amended).  The split validates no ratio.  The only errors it
    raises are those of the float conversions ([int()] of a NaN or
    infinite product, an int too large for a float); for fewer than
    [2^63] records and any three ratios of magnitude at most [2^400],
    inside [(0, 1]] or not and whether or not
    [val_size + test_size > n], it returns sizes that add up to [n],
    which [random_split] accepts. *)
Theorem split_performs_no_ratio_check indices val_ratio test_ratio train_ratio :
  (forall e, split indices val_ratio test_ratio train_ratio = Raise e -> float_error e) /\
  (Z.of_nat (List.length indices) < 2 ^ 63 ->
   abs_le_pow2 400 val_ratio = true ->
   abs_le_pow2 400 test_ratio = true ->
   abs_le_pow2 400 train_ratio = true ->
   exists lengths subsets,
     split_lengths (Z.of_nat (List.length indices)) val_ratio test_ratio train_ratio = Ok lengths /\
     sum lengths = Z.of_nat (List.length indices) /\
     split indices val_ratio test_ratio train_ratio = Ok subsets).
Proof.
  set (n := Z.of_nat (List.length indices)).
  assert (forall lengths,
             split_lengths n val_ratio test_ratio train_ratio = Ok lengths ->
             sum lengths = n /\
             split indices val_ratio test_ratio train_ratio = Ok (subsets indices 0 lengths)) as Hok.
  { intros lengths H. pose proof (split_lengths_cases n val_ratio test_ratio train_ratio) as C.
    rewrite H in C. split; [exact C|].
    unfold split. fold n. rewrite H. cbn [bind]. unfold random_split.
    fold n. rewrite C, Z.eqb_refl. reflexivity. }
  split.
  - intros e H.
    pose proof (split_lengths_cases n val_ratio test_ratio train_ratio) as C.
    destruct (split_lengths n val_ratio test_ratio train_ratio) as [lengths|e'] eqn:E.
    + destruct (Hok lengths eq_refl) as [_ S]. rewrite S in H. discriminate.
    + unfold split in H. fold n in H. rewrite E in H. cbn [bind] in H.
      inversion H; subst. exact C.
  - intros Hn Bv Bt Br.
    assert (0 <= n) as Hn0 by (unfold n; lia).
    destruct (mul_int_to_int 400 63 val_ratio n ltac:(lia) ltac:(lia) ltac:(lia) Bv
                ltac:(lia)) as (a & vs & Ha & _ & Hvs & Av & _).
    destruct (mul_int_to_int 400 63 test_ratio n ltac:(lia) ltac:(lia) ltac:(lia) Bt
                ltac:(lia)) as (b & ts & Hb & _ & Hts & At & _).
    destruct (eq_int train_ratio 1) eqn:Hr.
    + exists [vs; ts; n - (vs + ts)], (subsets indices 0 [vs; ts; n - (vs + ts)]).
      pose proof (split_lengths_eq_1 n _ _ _ a b vs ts Ha Hvs Hb Hts Hr) as E.
      destruct (Hok _ E) as [S1 S2]. repeat split; assumption.
    + assert (Z.abs (n - (vs + ts)) < 2 ^ 467) as Hrem.
      { change (400 + 63 + 2) with 465 in Av, At.
        assert (2 ^ 63 <= 2 ^ 465) by (apply pow2_le; lia).
        replace (2 ^ 467) with (4 * 2 ^ 465) by (change 467 with (2 + 465); rewrite Z.pow_add_r by lia; reflexivity).
        lia. }
      destruct (rmul_int_to_int 400 467 train_ratio (n - (vs + ts)) ltac:(lia) ltac:(lia)
                  ltac:(lia) Br Hrem) as (c & trs & Hc & _ & Htrs & _ & _).
      pose proof (split_lengths_neq_1 n _ _ _ a b c vs ts trs Ha Hvs Hb Hts Hr Hc Htrs) as E.
      destruct (Hok _ E) as [S1 S2].
      exists [vs; ts; trs; n - (vs + ts + trs)], (subsets indices 0 [vs; ts; trs; n - (vs + ts + trs)]).
      repeat split; assumption.
Qed.

Import Samples.

Example literal_values :
  of_str "0.2" = Ok f_0_2 /\ of_str "0.3" = Ok f_0_3 /\ of_str "0.5" = Ok f_0_5 /\
  of_str "0.6" = Ok f_0_6 /\ of_str "1.5" = Ok f_1_5 /\ of_str "1.0" = Ok f_1_0 /\
  of_str "1" = Ok f_1_0 /\ of_str "-0.25" = Ok f_neg_0_25 /\ of_str "72.3" = Ok f_72_3.
Proof. vm_compute. repeat split. Qed.

(** Ten records with ratios 0.2, 0.2 and 1.0 give sizes (2, 2, 6); with
    a train ratio of 0.5 the remaining six are halved. *)
Example split_ten_records :
  split_lengths 10 f_0_2 f_0_2 f_1_0 = Ok [2; 2; 6] /\
  split_lengths 10 f_0_2 f_0_2 f_0_5 = Ok [2; 2; 3; 3] /\
  split (map Z.of_nat (seq 0 10)) f_0_2 f_0_2 f_0_5
    = Ok [[0; 1]; [2; 3]; [4; 5; 6]; [7; 8; 9]].
Proof. vm_compute. repeat split. Qed.

Lemma split_sizes_train_ratio_one_witness :
  exists a b val_size test_size,
    mul_int f_0_2 10 = Ok a /\ floor a = Some val_size /\
    mul_int f_0_2 10 = Ok b /\ floor b = Some test_size /\
    split_lengths 10 f_0_2 f_0_2 f_1_0
      = Ok [val_size; test_size; 10 - val_size - test_size] /\
    val_size + test_size + (10 - val_size - test_size) = 10 /\
    0 <= val_size /\ 0 <= test_size /\
    (0 <= 10 - val_size - test_size <-> val_size + test_size <= 10).
Proof.
  apply (split_sizes_train_ratio_one 10 f_0_2 f_0_2 f_1_0);
    [split; [discriminate | reflexivity] | reflexivity | reflexivity | reflexivity].
Defined.

(** With both ratios 0.6 the train size is negative; with a validation
    ratio of -0.25 the validation size is negative and is not the floor
    of the product -2.5. *)
Lemma split_train_size_negative :
  (in_unit_interval f_0_6 = true /\ eq_int f_1_0 1 = true /\
   split_lengths 10 f_0_6 f_0_6 f_1_0 = Ok [6; 6; -2] /\
   ~ Forall (fun size => 0 <= size) [6; 6; -2]) /\
  (exists a,
     mul_int f_neg_0_25 10 = Ok a /\ floor a = Some (-3) /\
     split_lengths 10 f_neg_0_25 f_0_2 f_1_0 = Ok [-2; 2; 10]).
Proof.
  split.
  - repeat split; try (vm_compute; reflexivity).
    intros H. apply Forall_inv_tail, Forall_inv_tail, Forall_inv in H. lia.
  - exists (S754_finite true 5629499534213120 (-51)). vm_compute. repeat split.
Qed.

Lemma split_sizes_train_ratio_other_witness :
  exists a b c val_size test_size train_size discard_size,
    mul_int f_0_2 10 = Ok a /\ floor a = Some val_size /\
    mul_int f_0_2 10 = Ok b /\ floor b = Some test_size /\
    rmul_int (10 - val_size - test_size) f_0_5 = Ok c /\
    to_int c = Ok train_size /\
    discard_size = 10 - val_size - test_size - train_size /\
    split_lengths 10 f_0_2 f_0_2 f_0_5
      = Ok [val_size; test_size; train_size; discard_size] /\
    val_size + test_size + train_size + discard_size = 10 /\
    (nonneg f_0_5 = true -> val_size + test_size <= 10 ->
     floor c = Some train_size /\ 0 <= train_size).
Proof.
  apply (split_sizes_train_ratio_other 10 f_0_2 f_0_2 f_0_5);
    [split; [discriminate | reflexivity] | reflexivity | reflexivity | reflexivity
     | reflexivity].
Defined.

(** With both ratios 0.6 and a train ratio of 0.3 the remaining count is
    -2 and the product -0.6: its floor is -1, the train size is 0. *)
Lemma split_train_size_truncated :
  SFltb f_0_3 f_1_0 = true /\
  exists c train_size,
    split_lengths 10 f_0_6 f_0_6 f_0_3 = Ok [6; 6; train_size; -2] /\
    rmul_int (10 - 6 - 6) f_0_3 = Ok c /\
    floor c = Some (-1) /\
    floor c <> Some train_size.
Proof.
  split; [reflexivity|].
  exists (S754_finite true 5404319552844595 (-53)), 0.
  split; [vm_compute; reflexivity|]. split; [vm_compute; reflexivity|].
  split; [vm_compute; reflexivity|]. vm_compute. discriminate.
Qed.

Lemma split_performs_no_ratio_check_witness :
  exists lengths subsets,
    split_lengths 10 f_1_5 f_0_2 f_1_0 = Ok lengths /\
    sum lengths = 10 /\
    split (map Z.of_nat (seq 0 10)) f_1_5 f_0_2 f_1_0 = Ok subsets.
Proof.
  apply (proj2 (split_performs_no_ratio_check (map Z.of_nat (seq 0 10)) f_1_5 f_0_2 f_1_0));
    reflexivity.
Defined.

(** A validation ratio of 1.5, and ratios with
    [val_size + test_size > n], are split without an error. *)
Lemma split_accepts_invalid_ratios :
  abs_le_pow2 0 f_1_5 = false /\
  split (map Z.of_nat (seq 0 10)) f_1_5 f_0_2 f_1_0
    = Ok [[0; 1; 2; 3; 4; 5; 6; 7; 8; 9]; []; []] /\
  split_lengths 10 f_0_6 f_0_6 f_1_0 = Ok [6; 6; -2] /\
  split (map Z.of_nat (seq 0 10)) f_0_6 f_0_6 f_1_0
    = Ok [[0; 1; 2; 3; 4; 5]; [6; 7; 8; 9]; []].
Proof. vm_compute. repeat split. Qed.

End SplitSizes.

(** ** The volume helpers *)

Section VolumeHelpers.

Import Numpy Dataset.
Local Open Scope Z_scope.

Section ResizeList.

Context {X : Type}.

Lemma length_concat_repeat (l : list X) k :
  List.length (List.concat (repeat l k)) = (k * List.length l)%nat.
Proof.
  induction k as [|k IH]; simpl; [reflexivity|].
  rewrite length_app, IH. reflexivity.
Qed.


Lemma ceil_div_covers n len :
  0 < len -> n <= - (- n / len) * len.
Proof.
  intros Hl. pose proof (Z.div_mod (- n) len ltac:(lia)) as D.
  pose proof (Z.mod_pos_bound (- n) len Hl) as B. nia.
Qed.

Lemma length_resize_list (zero : X) l n :
  0 <= n -> List.length (resize_list zero l n) = Z.to_nat n.
Proof.
  intros Hn. unfold resize_list.
  destruct ((Z.of_nat (List.length l) =? 0) || (n =? 0)) eqn:E.
  - apply repeat_length.
  - apply orb_false_elim in E. destruct E as [E1 E2].
    apply Z.eqb_neq in E1, E2.
    rewrite length_firstn, length_concat_repeat.
    pose proof (ceil_div_covers n (Z.of_nat (List.length l)) ltac:(lia)) as C.
    assert (0 <= - (- n / Z.of_nat (List.length l))) as P.
    { assert (- n / Z.of_nat (List.length l) <= 0); [|lia].
      apply Z.div_le_upper_bound; lia. }
    apply Nat.min_l. nia.
Qed.


End ResizeList.

Lemma size_of_resize_data d n :
  0 <= n -> size_of (resize_data d n) = Z.to_nat n.
Proof.
  intros Hn. destruct d; cbn [resize_data size_of]; apply length_resize_list; exact Hn.
Qed.




Lemma size_of_astype_float32 a :
  size_of (data (astype_float32 a)) = size_of (data a) /\
  dtype_of (data (astype_float32 a)) = float32.
Proof.
  unfold astype_float32, data_as_float32. cbn [data dtype_of size_of].
  split; [|reflexivity]. destruct (data a); cbn [size_of]; rewrite ?length_map; reflexivity.
Qed.

Lemma np_resize_target a :
  np_resize (Ndarray a) [150; 150; 200]
  = Ok (Ndarray {| shape := [150; 150; 200]; data := resize_data (data a) 4500000 |}).
Proof. reflexivity. Qed.

Lemma customToTensor_ndarray a :
  customToTensor (PyNdarray a)
  = Ok (PyNdarray (astype_float32
         {| shape := [150; 150; 200]; data := resize_data (data a) 4500000 |})).
Proof. reflexivity. Qed.





End VolumeHelpers.

(** ** Strings accepted by [float()] *)

Section FloatLiterals.

Local Open Scope string_scope.




(** Rewriting the blanks above ASCII neither adds nor removes a
    character that is no blank. *)
Lemma contains_to_ascii_blanks c s :
  is_space c = false -> (N_of_ascii c <> 133)%N -> (N_of_ascii c <> 160)%N ->
  contains c (to_ascii_blanks s) = contains c s.
Proof.
  intros H1 H2 H3. induction s as [|a s IH]; [reflexivity|].
  cbn [to_ascii_blanks contains]. rewrite IH. f_equal.
  unfold blank_above_ascii.
  destruct ((N_of_ascii a =? 133) || (N_of_ascii a =? 160))%N eqn:E; [|reflexivity].
  destruct (Ascii.eqb_spec " "%char c) as [<-|_]; [discriminate|].
  destruct (Ascii.eqb_spec a c) as [->|_]; [|reflexivity].
  apply orb_true_iff in E. destruct E as [E|E]; apply N.eqb_eq in E; congruence.
Qed.


Lemma span_digits_app s : forall d r, span_digits s = (d, r) -> s = d ++ r.
Proof.
  induction s as [|a s IH]; intros d r; simpl.
  - intros H; inversion H. reflexivity.
  - destruct (is_digit a).
    + destruct (span_digits s) as [d' r']. intros H; inversion H; subst.
      simpl. f_equal. apply IH. reflexivity.
    + intros H; inversion H. reflexivity.
Qed.







End FloatLiterals.

(** ** Item access of the dataset *)

Section ItemAccess.

Import Numpy Dataset.
Local Open Scope Z_scope.
Local Open Scope string_scope.

Variable load_fdata : string -> result ndarray.

(** [__getitem__] once the row and its columns have been read. *)
Lemma getitem_row self idx lst name0 raw :
  Py.getitem (lines self) idx = Ok lst ->
  Py.getitem lst 0 = Ok name0 ->
  Py.getitem lst (label_file_idx self) = Ok raw ->
  getitem load_fdata self idx =
  (label <- (if truthy (classification self) then Ok (class_label (strip "034" raw))
             else (x <- of_str (strip "034" raw) ;; Ok (Some (Score x)))) ;;
   a <- load_fdata (os_path_join (root_dir self) (strip "034" name0) ++ ".nii") ;;
   a <- customToTensor (PyNdarray a) ;;
   label <- read_local "label" label ;;
   Ok (a, label))%py.
Proof.
  intros H1 H2 H3. unfold getitem. rewrite H1. cbn [bind]. rewrite H2. cbn [bind].
  destruct (truthy (classification self)); rewrite H3; reflexivity.
Qed.

Lemma class_label_table s code :
  In (s, code) [("AD", 1); ("CN", 0); ("MCI", 2)] ->
  class_label s = Some (ClassCode code).
Proof.
  intros [H|[H|[H|[]]]]; inversion H; subst; reflexivity.
Qed.

Lemma class_label_none s :
  s <> "AD" -> s <> "CN" -> s <> "MCI" -> class_label s = None.
Proof.
  intros H1 H2 H3. unfold class_label.
  apply String.eqb_neq in H1, H2, H3. rewrite H1, H2, H3. reflexivity.
Qed.

(** C7.  In classification mode the label column is mapped by the
    exact-match table "AD" -> 1, "CN" -> 0, "MCI" -> 2: for a row whose
    stripped label is one of the three and whose volume decodes, item
    access returns the resized volume with that class code. *)
Theorem getitem_class_code self idx lst name0 raw vol code :
  truthy (classification self) = true ->
  Py.getitem (lines self) idx = Ok lst ->
  Py.getitem lst 0 = Ok name0 ->
  Py.getitem lst (label_file_idx self) = Ok raw ->
  In (strip "034" raw, code) [("AD", 1); ("CN", 0); ("MCI", 2)] ->
  load_fdata (os_path_join (root_dir self) (strip "034" name0) ++ ".nii") = Ok vol ->
  exists a, customToTensor (PyNdarray vol) = Ok a /\
            getitem load_fdata self idx = Ok (a, ClassCode code).
Proof.
  intros Hc H1 H2 H3 Hl Hv.
  rewrite (getitem_row self idx lst name0 raw H1 H2 H3), Hc.
  rewrite (class_label_table _ _ Hl). cbn [bind]. rewrite Hv. cbn [bind].
  rewrite customToTensor_ndarray. eexists. split; reflexivity.
Qed.

(** Any other label leaves [label] unbound: the volume is decoded and
    resized first, and the [return] statement then fails. *)
Lemma getitem_unknown_label self idx lst name0 raw :
  truthy (classification self) = true ->
  Py.getitem (lines self) idx = Ok lst ->
  Py.getitem lst 0 = Ok name0 ->
  Py.getitem lst (label_file_idx self) = Ok raw ->
  strip "034" raw <> "AD" -> strip "034" raw <> "CN" -> strip "034" raw <> "MCI" ->
  getitem load_fdata self idx =
  match load_fdata (os_path_join (root_dir self) (strip "034" name0) ++ ".nii") with
  | Ok _ => Raise (UnboundLocalError "label")
  | Raise e => Raise e
  end.
Proof.
  intros Hc H1 H2 H3 N1 N2 N3.
  rewrite (getitem_row self idx lst name0 raw H1 H2 H3), Hc.
  rewrite (class_label_none _ N1 N2 N3). cbn [bind].
  destruct (load_fdata _) as [vol|e]; cbn [bind]; [|reflexivity].
  rewrite customToTensor_ndarray. reflexivity.
Qed.

(** The only error of [float(s)] names [s]. *)
Lemma of_str_error s e : of_str s = Raise e -> e = could_not_convert s.
Proof.
  unfold of_str.
  destruct (drop_underscores "000" (to_ascii_blanks s)); [|intros H; inversion H; reflexivity].
  destruct (parse_sign (strip_space s0)) as [sg body].
  destruct (parse_decimal body) as [[[d e10] [|c r]]|].
  - discriminate.
  - intros H; inversion H; reflexivity.
  - destruct (_ || _); [discriminate|]. destruct (_ =? _)%string; [discriminate|].
    intros H; inversion H; reflexivity.
Qed.


End ItemAccess.

Section ItemAccessSamples.

Import Numpy Dataset Samples.
Local Open Scope Z_scope.
Local Open Scope string_scope.

Lemma getitem_class_code_witness :
  (exists a, customToTensor (PyNdarray volume) = Ok a /\
             getitem decoder class_dataset 0 = Ok (a, ClassCode 1)) /\
  (exists a, customToTensor (PyNdarray volume) = Ok a /\
             getitem decoder class_dataset 1 = Ok (a, ClassCode 0)) /\
  (exists a, customToTensor (PyNdarray volume) = Ok a /\
             getitem decoder class_dataset 2 = Ok (a, ClassCode 2)).
Proof.
  split; [|split].
  - eapply (getitem_class_code decoder class_dataset 0);
      [reflexivity | reflexivity | reflexivity | reflexivity | left; reflexivity
       | reflexivity].
  - eapply (getitem_class_code decoder class_dataset 1);
      [reflexivity | reflexivity | reflexivity | reflexivity | right; left; reflexivity
       | reflexivity].
  - eapply (getitem_class_code decoder class_dataset 2);
      [reflexivity | reflexivity | reflexivity | reflexivity
       | right; right; left; reflexivity | reflexivity].
Defined.

(** C1.  For the row labelled "FOO" the code binds no [label]: it
    decodes and resizes the volume and then fails at [return a, label]
    with the interpreter's [UnboundLocalError]; when the volume cannot
    be decoded that error is raised instead. *)
Theorem getitem_unrecognised_label :
  Py.getitem (lines class_dataset) 3 = Ok (split "," (row scan_3)) /\
  Py.getitem (split "," (row scan_3)) 2 = Ok (quoted "FOO") /\
  getitem decoder class_dataset 3 = Raise (UnboundLocalError "label") /\
  getitem (fun path => Raise (IOError path)) class_dataset 3
    = Raise (IOError "./adni_data/I103.nii").
Proof.
  split; [reflexivity|]. split; [reflexivity|]. split.
  - rewrite (getitem_unknown_label decoder class_dataset 3 (split "," (row scan_3))
               (quoted "I103") (quoted "FOO"));
      try reflexivity; discriminate.
  - rewrite (getitem_unknown_label _ class_dataset 3 (split "," (row scan_3))
               (quoted "I103") (quoted "FOO"));
      try reflexivity; discriminate.
Qed.



End ItemAccessSamples.
(** ** Binary32 rounding: the product with 100 *)

Section Binary32Rounding.

Import Binary32.
Local Open Scope Z_scope.

Lemma shr_1_exact mrs :
  shr_r mrs = false -> shr_s mrs = false -> 0 <= shr_m mrs -> shr_m mrs mod 2 = 0 ->
  shr_r (shr_1 mrs) = false /\ shr_s (shr_1 mrs) = false.
Proof.
  destruct mrs as [m r s]. cbn [shr_r shr_s shr_m]. intros -> -> Hm Hd.
  destruct m as [|[p|p|]|p]; cbn [shr_1 orb shr_r shr_s]; try (split; reflexivity); try lia.
  - rewrite Pos2Z.inj_xI in Hd. rewrite Z.add_comm, Z.mul_comm, Z.mod_add in Hd by lia.
    discriminate.
  - discriminate.
Qed.

(** Shifting out bits that are all zero loses nothing. *)
Lemma shr_iter_exact p : forall mrs,
  shr_r mrs = false -> shr_s mrs = false -> 0 <= shr_m mrs ->
  shr_m mrs mod 2 ^ Z.pos p = 0 ->
  shr_r (iter_pos shr_1 p mrs) = false /\ shr_s (iter_pos shr_1 p mrs) = false.
Proof.
  assert (forall m a b, 0 <= m -> 0 <= a -> 0 <= b -> m mod 2 ^ (a + b) = 0 ->
            m mod 2 ^ a = 0 /\ (m / 2 ^ a) mod 2 ^ b = 0) as Split.
  { intros m a b Hm Ha Hb H. rewrite Z.pow_add_r in H by lia.
    assert (0 < 2 ^ a) as Pa by (apply Z.pow_pos_nonneg; lia).
    assert (0 < 2 ^ b) as Pb by (apply Z.pow_pos_nonneg; lia).
    apply Z.mod_divide in H; [|lia]. destruct H as [q Hq].
    split.
    - apply Z.mod_divide; [lia|]. exists (q * 2 ^ b). lia.
    - replace m with (q * 2 ^ b * 2 ^ a) by lia. rewrite Z.div_mul by lia.
      apply Z.mod_mul. lia. }
  induction p as [p IH|p IH|]; intros mrs Hr Hs Hm Hd; cbn [iter_pos].
  - replace (Z.pos p~1) with (1 + (Z.pos p + Z.pos p)) in Hd by lia.
    destruct (Split _ 1 (Z.pos p + Z.pos p) Hm ltac:(lia) ltac:(lia) Hd) as [D1 D2].
    change (2 ^ 1) with 2 in D1, D2.
    destruct (shr_1_exact mrs Hr Hs Hm D1) as [R1 S1].
    assert (shr_m (shr_1 mrs) = shr_m mrs / 2) as M1 by (apply shr_1_m; exact Hm).
    assert (0 <= shr_m (shr_1 mrs)) as P1 by (rewrite M1; apply Z.div_pos; lia).
    rewrite <- M1 in D2.
    destruct (Split _ (Z.pos p) (Z.pos p) P1 ltac:(lia) ltac:(lia) D2) as [D3 D4].
    destruct (IH (shr_1 mrs) R1 S1 P1 D3) as [R2 S2].
    assert (shr_m (iter_pos shr_1 p (shr_1 mrs)) = shr_m (shr_1 mrs) / 2 ^ Z.pos p) as M2
      by (apply shr_m_iter; exact P1).
    apply IH; [exact R2|exact S2| |rewrite M2; exact D4].
    rewrite M2. apply Z.div_pos; lia.
  - replace (Z.pos p~0) with (Z.pos p + Z.pos p) in Hd by lia.
    destruct (Split _ (Z.pos p) (Z.pos p) Hm ltac:(lia) ltac:(lia) Hd) as [D3 D4].
    destruct (IH mrs Hr Hs Hm D3) as [R2 S2].
    assert (shr_m (iter_pos shr_1 p mrs) = shr_m mrs / 2 ^ Z.pos p) as M2
      by (apply shr_m_iter; exact Hm).
    apply IH; [exact R2|exact S2| |rewrite M2; exact D4].
    rewrite M2. apply Z.div_pos; lia.
  - apply shr_1_exact; assumption.
Qed.

Lemma fexp32 x : fexp prec emax x = Z.max (x - 24) (-149).
Proof. reflexivity. Qed.

(** The exponent and mantissa after [shr_fexp], and its location when
    the bits shifted out are zero. *)
Lemma shr_fexp32 m e mrs' e' :
  0 <= m ->
  shr_fexp prec emax m e loc_Exact = (mrs', e') ->
  e' = Z.max e (fexp prec emax (Zdigits2 m + e)) /\
  shr_m mrs' = m / 2 ^ (e' - e) /\
  (m mod 2 ^ (e' - e) = 0 -> loc_of_shr_record mrs' = loc_Exact).
Proof.
  intros Hm. unfold shr_fexp, shr.
  destruct (fexp prec emax (Zdigits2 m + e) - e) as [|p|p] eqn:E; intros H; inversion H; subst.
  - split; [lia|]. replace (e' - e') with 0 by lia.
    rewrite Z.pow_0_r, Z.div_1_r. split; reflexivity.
  - split; [lia|].
    replace (e + Z.pos p - e) with (Z.pos p) by lia. split.
    + rewrite shr_m_iter by exact Hm. reflexivity.
    + intros Hd.
      destruct (shr_iter_exact p {| shr_m := m; shr_r := false; shr_s := false |}
                  eq_refl eq_refl Hm Hd) as [R S].
      destruct (iter_pos shr_1 p {| shr_m := m; shr_r := false; shr_s := false |})
        as [m' r' s'].
      cbn [shr_r shr_s] in R, S. subst. reflexivity.
  - split; [lia|]. replace (e' - e') with 0 by lia.
    rewrite Z.pow_0_r, Z.div_1_r. split; reflexivity.
Qed.

(** A product of at most 100 rounds to a value of at most 100. *)
Lemma round_le_100 (m : positive) e :
  e <= -17 -> Z.pos m <= 100 * 2 ^ (- e) ->
  between 0 100 (binary_round_aux prec emax false (Z.pos m) e loc_Exact) = true.
Proof.
  intros He Hm. unfold binary_round_aux.
  assert (forall n x, x <= -17 -> 0 <= n <= 100 * 2 ^ (- x) -> Zdigits2 n + x <= 7) as Dig.
  { intros n x Hx Hn.
    assert (Zdigits2 n <= 7 - x); [|lia].
    apply Zdigits2_le; [lia|lia|].
    apply Z.le_lt_trans with (100 * 2 ^ (- x)); [lia|].
    replace (7 - x) with (7 + - x) by lia. rewrite Z.pow_add_r by lia.
    assert (0 < 2 ^ (- x)) by (apply Z.pow_pos_nonneg; lia).
    change (2 ^ 7) with 128. lia. }
  assert (forall a b, a <= b -> b <= -17 -> 100 * 2 ^ (- a) = 100 * 2 ^ (- b) * 2 ^ (b - a)) as Sc.
  { intros a b Hab Hb. rewrite <- Z.mul_assoc, <- Z.pow_add_r by lia. do 2 f_equal. lia. }
  destruct (shr_fexp prec emax (Z.pos m) e loc_Exact) as [mrs1 e1] eqn:E1.
  apply shr_fexp32 in E1; [|lia]. destruct E1 as (He1 & Hm1 & Hx1).
  pose proof (Dig (Z.pos m) e He ltac:(lia)) as D0.
  rewrite fexp32 in He1.
  assert (e <= e1 <= -17) as B1 by lia.
  assert (0 < 2 ^ (e1 - e)) as P1 by (apply Z.pow_pos_nonneg; lia).
  assert (0 < 2 ^ (- e1)) as Q1 by (apply Z.pow_pos_nonneg; lia).
  set (m1 := round_nearest_even (shr_m mrs1) (loc_of_shr_record mrs1)).
  assert (0 <= m1 <= 100 * 2 ^ (- e1)) as Hb1.
  { pose proof (round_nearest_even_bounds (shr_m mrs1) (loc_of_shr_record mrs1)) as Hr.
    fold m1 in Hr.
    assert (0 <= shr_m mrs1) by (rewrite Hm1; apply Z.div_pos; lia).
    split; [lia|].
    rewrite (Sc e e1) in Hm by lia.
    destruct (Z.eq_dec (Z.pos m) (100 * 2 ^ (- e1) * 2 ^ (e1 - e))) as [Eq|Ne].
    - assert (Z.pos m mod 2 ^ (e1 - e) = 0) as Dv.
      { rewrite Eq. apply Z.mod_mul. lia. }
      unfold m1. rewrite (Hx1 Dv). cbn [round_nearest_even].
      rewrite Hm1, Eq, Z.div_mul by lia. lia.
    - assert (shr_m mrs1 < 100 * 2 ^ (- e1)); [|lia].
      rewrite Hm1. apply Z.div_lt_upper_bound; lia. }
  destruct (shr_fexp prec emax m1 e1 loc_Exact) as [mrs2 e2] eqn:E2.
  apply shr_fexp32 in E2; [|lia]. destruct E2 as (He2 & Hm2 & _).
  pose proof (Dig m1 e1 ltac:(lia) Hb1) as D1.
  rewrite fexp32 in He2.
  assert (e1 <= e2 <= -17) as B2 by lia.
  assert (0 < 2 ^ (e2 - e1)) as P2 by (apply Z.pow_pos_nonneg; lia).
  assert (0 <= shr_m mrs2 <= 100 * 2 ^ (- e2)) as Hb2.
  { rewrite Hm2. split; [apply Z.div_pos; lia|].
    apply Z.div_le_upper_bound; [lia|].
    rewrite (Sc e1 e2) in Hb1 by lia. lia. }
  destruct (shr_m mrs2) as [|p|p] eqn:Em2; [reflexivity| |lia].
  destruct (Z.leb_spec e2 (emax - prec)) as [_|L]; [|unfold emax, prec in L; lia].
  unfold between, ge_Z, le_Z. cbn [cond_Zopp].
  destruct (Z.leb_spec 0 e2) as [C|C]; [lia|].
  apply andb_true_iff. split; apply Z.leb_le; lia.
Qed.

(** The product of a value in [[0, 1]] and 100 lies in [[0, 100]]; the
    product of a NaN and 100 is a NaN. *)
Lemma mul_hundred_between y :
  between 0 1 y = true -> between 0 100 (mul y hundred) = true.
Proof.
  unfold between. intros H. apply andb_true_iff in H. destruct H as [G L].
  destruct y as [s|s| |s my ey]; cbn [ge_Z le_Z] in G, L; try discriminate.
  - destruct s; reflexivity.
  - destruct s; discriminate.
  - destruct s.
    + exfalso. cbn [cond_Zopp] in G.
      destruct (Z.leb_spec 0 ey) as [C|C]; apply Z.leb_le in G.
      * assert (0 < Z.pos my * 2 ^ ey); [|lia].
        apply Z.mul_pos_pos; [lia|]. apply Z.pow_pos_nonneg; lia.
      * lia.
    + cbn [cond_Zopp] in L. unfold mul, hundred. cbn [SFmul xorb].
      rewrite Pos2Z.inj_mul.
      destruct (Z.leb_spec 0 ey) as [C|C]; apply Z.leb_le in L.
      * assert (ey = 0) as ->.
        { destruct (Z.eq_dec ey 0) as [|N]; [assumption|]. exfalso.
          assert (2 ^ 1 <= 2 ^ ey) by (apply Z.pow_le_mono_r; lia).
          change (2 ^ 1) with 2 in *. nia. }
        change (2 ^ 0) with 1 in L.
        apply round_le_100; [lia|]. change (2 ^ (- (0 + -17))) with 131072. lia.
      * apply round_le_100; [lia|].
        replace (- (ey + -17)) with (17 + - ey) by lia. rewrite Z.pow_add_r by lia.
        change (2 ^ 17) with 131072. nia.
Qed.

Lemma between_not_nan lo hi y : between lo hi y = true -> is_nan y = false.
Proof. destruct y; try reflexivity. discriminate. Qed.

End Binary32Rounding.

(** ** The composed model *)

Section NetworkProps.

Import Binary32 Torch.

Lemma length_flat_map_const {A B : Type} (f : A -> list B) l c :
  (forall i, List.length (f i) = c) ->
  List.length (flat_map f l) = (List.length l * c)%nat.
Proof.
  intros H. induction l as [|a l IH]; cbn [flat_map List.length]; [reflexivity|].
  rewrite length_app, H, IH. lia.
Qed.

Lemma length_tabulate {A : Type} n (f : nat -> list A) c :
  (forall i, List.length (f i) = c) -> List.length (tabulate n f) = (n * c)%nat.
Proof.
  intros H. unfold tabulate. rewrite (length_flat_map_const f _ c H), length_seq.
  reflexivity.
Qed.


Lemma numel_app a b : numel (a ++ b) = (numel a * numel b)%nat.
Proof.
  unfold numel. induction a as [|x a IH]; simpl; [lia|]. rewrite IH. lia.
Qed.

Lemma numel_rev a : numel (rev a) = numel a.
Proof.
  induction a as [|x a IH]; [reflexivity|].
  cbn [rev]. rewrite numel_app, IH. unfold numel. simpl. lia.
Qed.

(** [nn.Linear] replaces the last dimension, which must be the number
    of input features, by the number of output features. *)
Lemma linear_forward_sizes l x y :
  linear_forward l x = Ok y ->
  exists lead,
    sizes x = lead ++ [in_features l] /\
    sizes y = lead ++ [out_features l] /\
    List.length (storage y)
      = (numel lead * Nat.min (List.length (weight l)) (List.length (bias l)))%nat.
Proof.
  unfold linear_forward. destruct (rev (sizes x)) as [|n lead] eqn:R; [discriminate|].
  destruct (Nat.eqb_spec n (in_features l)) as [E|E]; cbn [negb]; [|discriminate].
  intros H. inversion H; subst y; clear H. cbn [sizes storage].
  exists (rev lead). split; [|split; [reflexivity|]].
  - rewrite <- E. rewrite <- (rev_involutive (sizes x)), R. reflexivity.
  - rewrite numel_rev. apply length_tabulate. intros i.
    rewrite length_map, length_combine. reflexivity.
Qed.




Variable exp_kernel : f32 -> f32.
Variable log_kernel : f32 -> f32.
Variable sigmoid_kernel : f32 -> f32.
Variable input : Type.
Variable targets : Type.
Variable torch_load_transformer : string -> result state_dict.
Variable torch_load_cnn : string -> result (list state_dict).
Variable MultiViewTransformer : hparams -> SubModule.
Variable cnn_multi_dim : Z -> Z -> SubModule.
Variable init_weight : nat -> nat -> nat -> f32.
Variable init_bias : nat -> nat -> f32.
Variable output_single : list SubModule -> input -> result Tensor.
Variable transformer_forward : SubModule -> Tensor -> result Tensor.
Variable apply_loss : loss_kind -> Tensor -> targets -> result f32.

Local Abbreviation init_model :=
  (init targets torch_load_transformer torch_load_cnn MultiViewTransformer
        cnn_multi_dim init_weight init_bias).
Local Abbreviation forward_pass :=
  (forward sigmoid_kernel input targets output_single transformer_forward).
Local Abbreviation loss_inputs :=
  (loss_metric_inputs exp_kernel log_kernel sigmoid_kernel input targets output_single
     transformer_forward).
Local Abbreviation step :=
  (get_loss_metrics exp_kernel log_kernel sigmoid_kernel input targets output_single
     transformer_forward apply_loss).
Local Abbreviation Linear_ := (nn_Linear init_weight init_bias).

(** *** What the constructor builds *)



Lemma freeze_no_grad m :
  Forall (fun p => requires_grad p = false) (sm_parameters (eval (freeze m))).
Proof.
  simpl. apply Forall_forall. intros p Hp. apply in_map_iff in Hp.
  destruct Hp as (q & <- & _). reflexivity.
Qed.

Lemma nn_Linear_rows k inf outf l :
  Linear_ k inf outf = Ok l ->
  List.length (weight l) = Z.to_nat outf /\ List.length (bias l) = Z.to_nat outf.
Proof.
  unfold nn_Linear. destruct (_ || _)%bool; [discriminate|].
  intros H. inversion H. simpl. rewrite !length_map, !length_seq. split; reflexivity.
Qed.

(** The fields of a constructed model. *)
Lemma init_fields args m :
  init_model args = Ok m ->
  hp m = args /\
  loss m = (if truthy (classification args) then nll_loss else smooth_l1_loss) /\
  (truthy (finetune_transformer args) = true ->
     exists sd, load_state_dict (MultiViewTransformer args) sd = Ok (transformer m)) /\
  (truthy (finetune_transformer args) = false ->
     exists t, transformer m = eval (freeze t)) /\
  (truthy (finetune_cnn args) = false ->
     exists ms, cnn_models m = map (fun c => eval (freeze c)) ms) /\
  exists l0 l1,
    Linear_ 0 (n_hidden args) (n_hidden args) = Ok l0 /\
    if truthy (classification args)
    then Linear_ 1 (n_hidden args) 3 = Ok l1 /\ mlps m = [LinearLayer l0; ReLU; LinearLayer l1]
    else Linear_ 1 (n_hidden args) 1 = Ok l1 /\
         mlps m = [LinearLayer l0; ReLU; LinearLayer l1; Sigmoid].
Proof.
  unfold init.
  destruct (torch_load_transformer _) as [sd|]; [|discriminate]. cbn [bind].
  destruct (load_state_dict (MultiViewTransformer args) sd) as [tr|] eqn:Et; [|discriminate].
  cbn [bind].
  destruct (torch_load_cnn _) as [loaded|]; [|discriminate]. cbn [bind].
  destruct (load_cnn_models _ 0%Z loaded) as [cnns|] eqn:Ec; [|discriminate]. cbn [bind].
  destruct (Linear_ 0 (n_hidden args) (n_hidden args)) as [l0|] eqn:E0; [|discriminate].
  cbn [bind].
  destruct (truthy (classification args)) eqn:Ecl.
  - destruct (Linear_ 1 (n_hidden args) 3) as [l1|] eqn:E1; [|discriminate]. cbn [bind].
    intros H. inversion H; subst; clear H. cbn [hp loss transformer cnn_models mlps app].
    split; [reflexivity|]. split; [reflexivity|]. split.
    { intros Hf. rewrite Hf. cbn [negb]. exists sd. exact Et. }
    split.
    { intros Hf. rewrite Hf. cbn [negb]. exists tr. reflexivity. }
    split.
    { intros Hf. rewrite Hf. cbn [negb]. exists cnns. reflexivity. }
    exists l0, l1. repeat split; reflexivity.
  - destruct (Linear_ 1 (n_hidden args) 1) as [l1|] eqn:E1; [|discriminate]. cbn [bind].
    intros H. inversion H; subst; clear H. cbn [hp loss transformer cnn_models mlps app].
    split; [reflexivity|]. split; [reflexivity|]. split.
    { intros Hf. rewrite Hf. cbn [negb]. exists sd. exact Et. }
    split.
    { intros Hf. rewrite Hf. cbn [negb]. exists tr. reflexivity. }
    split.
    { intros Hf. rewrite Hf. cbn [negb]. exists cnns. reflexivity. }
    exists l0, l1. repeat split; reflexivity.
Qed.

(** *** The forward pass *)

(** A successful forward pass: the features averaged over the slices go
    through the head, and in regression mode the result is multiplied
    by 100. *)
Lemma forward_steps (m : FinetuneModel targets) x out :
  forward_pass m x = Ok out ->
  exists t feats s,
    mean_1 t = Ok feats /\
    sequential sigmoid_kernel (mlps m) feats = Ok s /\
    out = (if truthy (classification (hp m)) then s else mul_scalar s hundred).
Proof.
  unfold forward.
  destruct (output_single _ x) as [t1|]; [|discriminate]. cbn [bind].
  destruct (transpose_1_2 t1) as [t2|]; [|discriminate]. cbn [bind].
  destruct (transformer_forward _ t2) as [t3|]; [|discriminate]. cbn [bind].
  destruct (flatten_1_2 t3) as [t4|]; [|discriminate]. cbn [bind].
  destruct (mean_1 t4) as [feats|] eqn:Em; [|discriminate]. cbn [bind].
  destruct (sequential sigmoid_kernel (mlps m) feats) as [s|] eqn:Es; [|discriminate].
  cbn [bind]. intros H. exists t4, feats, s. split; [exact Em|]. split; [exact Es|].
  destruct (truthy (classification (hp m))); cbn [negb] in H; inversion H; reflexivity.
Qed.

(** The head up to its last linear layer. *)
Lemma sequential_head l0 l1 feats logits :
  sequential sigmoid_kernel [LinearLayer l0; ReLU; LinearLayer l1] feats = Ok logits ->
  exists lead,
    sizes feats = lead ++ [in_features l0] /\
    out_features l0 = in_features l1 /\
    sizes logits = lead ++ [out_features l1] /\
    List.length (storage logits)
      = (numel lead * Nat.min (List.length (weight l1)) (List.length (bias l1)))%nat.
Proof.
  cbn [sequential layer_forward].
  destruct (linear_forward l0 feats) as [h|] eqn:E0; [|discriminate]. cbn [bind].
  destruct (linear_forward l1 (map_elements relu h)) as [y|] eqn:E1; [|discriminate].
  cbn [bind]. intros H. inversion H; subst y; clear H.
  destruct (linear_forward_sizes _ _ _ E0) as (lead & S0 & S0' & _).
  destruct (linear_forward_sizes _ _ _ E1) as (lead' & S1 & S1' & L1).
  cbn [map_elements sizes] in S1. rewrite S0' in S1.
  apply app_inj_tail in S1. destruct S1 as [-> S1].
  exists lead'. repeat split; assumption.
Qed.

Lemma sigmoid_between z :
  (forall z, is_finite z = true -> between 0 1 (sigmoid_kernel z) = true) ->
  is_nan z = false -> between 0 1 (sigmoid sigmoid_kernel z) = true.
Proof.
  intros K N. destruct z as [s|[|]| |s mz ez]; cbn [sigmoid]; try reflexivity;
    try discriminate; apply K; reflexivity.
Qed.

(** C5.  In regression mode the forward output has one entry for every
    index of the leading dimensions, the logistic function of the
    corresponding output of the last linear layer multiplied by 100.
    An entry is a NaN when that output is a NaN (a NaN in the features
    spreads through the head); it lies in [[0, 100]] otherwise, given
    that the logistic kernel returns values in [[0, 1]]. *)
Theorem regression_output_range args m x out :
  (forall z, is_finite z = true -> between 0 1 (sigmoid_kernel z) = true) ->
  init_model args = Ok m ->
  truthy (classification args) = false ->
  forward_pass m x = Ok out ->
  exists feats logits lead,
    sequential sigmoid_kernel (removelast (mlps m)) feats = Ok logits /\
    sizes logits = lead ++ [1%nat] /\
    sizes out = sizes logits /\
    storage out = map (fun z => mul (sigmoid sigmoid_kernel z) hundred) (storage logits) /\
    Forall (fun z => if is_nan z then mul (sigmoid sigmoid_kernel z) hundred = nan
                     else between 0 100 (mul (sigmoid sigmoid_kernel z) hundred) = true)
           (storage logits) /\
    Forall (fun y => is_nan y = true \/ between 0 100 y = true) (storage out).
Proof.
  intros K Hi Hc Hf.
  destruct (init_fields args m Hi) as (Hhp & _ & _ & _ & _ & l0 & l1 & _ & Hm).
  rewrite Hc in Hm. destruct Hm as [Hl1 Hm].
  destruct (forward_steps m x out Hf) as (t & feats & s & _ & Hs & Ho).
  rewrite Hhp, Hc in Ho. rewrite Hm in Hs.
  cbn [sequential layer_forward] in Hs.
  destruct (linear_forward l0 feats) as [h|] eqn:E0; [|discriminate]. cbn [bind] in Hs.
  destruct (linear_forward l1 (map_elements relu h)) as [logits|] eqn:E1; [|discriminate].
  cbn [bind] in Hs. inversion Hs; subst s; clear Hs.
  assert (sequential sigmoid_kernel [LinearLayer l0; ReLU; LinearLayer l1] feats = Ok logits)
    as Hh.
  { cbn [sequential layer_forward]. rewrite E0. cbn [bind]. rewrite E1. reflexivity. }
  destruct (sequential_head _ _ _ _ Hh) as (lead & _ & _ & Sl & _).
  assert (out_features l1 = 1%nat) as O1.
  { unfold nn_Linear in Hl1. destruct (_ || _)%bool; [discriminate|].
    inversion Hl1. reflexivity. }
  rewrite O1 in Sl.
  assert (forall z, if is_nan z then mul (sigmoid sigmoid_kernel z) hundred = nan
                    else between 0 100 (mul (sigmoid sigmoid_kernel z) hundred) = true) as Each.
  { intros z. destruct (is_nan z) eqn:N.
    - destruct z; try discriminate. reflexivity.
    - apply mul_hundred_between. apply sigmoid_between; assumption. }
  exists feats, logits, lead. rewrite Hm. cbn [removelast].
  split; [exact Hh|]. split; [exact Sl|]. subst out. cbn [mul_scalar map_elements sizes storage].
  split; [reflexivity|]. split; [apply map_map|]. split.
  - apply Forall_forall. intros z _. apply Each.
  - rewrite map_map. apply Forall_map. apply Forall_forall. intros z _.
    specialize (Each z). destruct (is_nan z).
    + left. rewrite Each. reflexivity.
    + right. exact Each.
Qed.




Lemma requires_grad_all_false ps :
  Forall (fun p => requires_grad p = false) ps -> filter requires_grad ps = [].
Proof.
  induction 1 as [|p ps Hp _ IH]; simpl; [reflexivity|]. rewrite Hp. exact IH.
Qed.



End NetworkProps.

Section NetworkSamples.

Import Binary32 Torch Samples.

Lemma regression_output_range_witness :
  exists m out,
    build (options 1 1 0) = Ok m /\
    forward sigmoid_half unit unit features fusion m tt = Ok out /\
    sizes out = [1; 1]%nat /\
    Forall (fun y => is_nan y = true \/ between 0 100 y = true) (storage out).
Proof.
  eexists. eexists. split; [reflexivity|]. split; [reflexivity|].
  destruct (regression_output_range sigmoid_half unit unit load_fusion load_views new_fusion
              new_view weight_0 bias_0 features fusion (options 1 1 0) _ tt _
              (fun z _ => eq_refl) (eq_refl : build (options 1 1 0) = Ok _) eq_refl eq_refl)
    as (feats & logits & lead & _ & _ & _ & _ & _ & H).
  split; [reflexivity|exact H].
Defined.

(** Features that hold a NaN: the regression output is a NaN, whatever
    the logistic kernel, and a NaN is not in [[0, 100]]. *)
Lemma regression_output_nan :
  exists m,
    build (options 1 1 0) = Ok m /\
    (forall sigmoid_kernel,
       forward sigmoid_kernel unit unit features_nan fusion m tt
       = Ok {| sizes := [1; 1]%nat; storage := [nan] |}) /\
    between 0 100 nan = false.
Proof.
  eexists. split; [reflexivity|]. split; [intros; reflexivity|reflexivity].
Qed.




End NetworkSamples.

(** * Further properties *)

(** ** Manifest rows and indices *)

Section ManifestRows.

Import Numpy Dataset.
Local Open Scope string_scope.
Local Open Scope Z_scope.

Variable load_fdata : string -> result ndarray.

Lemma getitem_out_of_range {A : Type} (l : list A) i :
  i < - Z.of_nat (List.length l) \/ Z.of_nat (List.length l) <= i ->
  Py.getitem l i = Raise IndexError.
Proof.
  intros H. unfold Py.getitem. cbv zeta.
  destruct (Z.ltb_spec i 0) as [N|N].
  - destruct (Z.ltb_spec (i + Z.of_nat (List.length l)) 0); [reflexivity|lia].
  - destruct (Z.ltb_spec i 0); [lia|].
    destruct (nth_error l (Z.to_nat i)) eqn:E; [|reflexivity].
    assert (nth_error l (Z.to_nat i) <> None) as F by congruence.
    apply nth_error_Some in F. lia.
Qed.

Lemma getitem_in_range {A : Type} (l : list A) i d :
  0 <= i < Z.of_nat (List.length l) ->
  Py.getitem l i = Ok (nth (Z.to_nat i) l d) /\
  Py.getitem l (i - Z.of_nat (List.length l)) = Ok (nth (Z.to_nat i) l d).
Proof.
  intros H. unfold Py.getitem. cbv zeta.
  assert (nth_error l (Z.to_nat i) = Some (nth (Z.to_nat i) l d)) as E.
  { apply nth_error_nth'. lia. }
  split.
  - destruct (Z.ltb_spec i 0); [lia|].
    destruct (Z.ltb_spec i 0); [lia|]. rewrite E. reflexivity.
  - destruct (Z.ltb_spec (i - Z.of_nat (List.length l)) 0); [|lia].
    replace (i - Z.of_nat (List.length l) + Z.of_nat (List.length l)) with i by lia.
    destruct (Z.ltb_spec i 0); [lia|]. rewrite E. reflexivity.
Qed.

Lemma len_init root file_lines classif :
  len (init root file_lines classif) = Z.of_nat (List.length file_lines - 1).
Proof.
  unfold len, init, slice_from_1. cbn [lines].
  destruct file_lines as [|h rest]; cbn [map tl List.length]; [reflexivity|].
  rewrite length_map. f_equal. lia.
Qed.

(** X1.  The dataset has one item per manifest line after the header, and an
    index outside [[-len, len)] raises [IndexError] without decoding
    anything. *)
Theorem getitem_index_out_of_range root file_lines classif idx :
  idx < - len (init root file_lines classif) \/ len (init root file_lines classif) <= idx ->
  len (init root file_lines classif) = Z.of_nat (List.length file_lines - 1) /\
  getitem load_fdata (init root file_lines classif) idx = Raise IndexError.
Proof.
  intros H. split; [apply len_init|].
  unfold getitem. rewrite getitem_out_of_range; [reflexivity|exact H].
Qed.

(** X2.  Item [i] reads manifest line [i + 1] (the header is line 0), split
    at the commas; the index [i - len] reads the same line. *)
Theorem getitem_reads_line root file_lines classif i :
  0 <= i < len (init root file_lines classif) ->
  Py.getitem (lines (init root file_lines classif)) i
    = Ok (split "," (nth (S (Z.to_nat i)) file_lines "")) /\
  getitem load_fdata (init root file_lines classif) (i - len (init root file_lines classif))
    = getitem load_fdata (init root file_lines classif) i.
Proof.
  set (self := init root file_lines classif). intros H. unfold len in H.
  destruct (getitem_in_range (lines self) i [] H) as [E1 E2].
  assert (nth (Z.to_nat i) (lines self) [] = split "," (nth (S (Z.to_nat i)) file_lines ""))
    as Hn.
  { unfold self, init, slice_from_1. cbn [lines].
    destruct file_lines as [|h rest]; cbn [map tl].
    - unfold self, init, slice_from_1 in H. cbn in H. lia.
    - cbn [nth]. rewrite <- (map_nth (split ",")).
      apply nth_indep. unfold self, init, slice_from_1 in H. cbn [lines map tl] in H. lia. }
  split.
  - rewrite E1, Hn. reflexivity.
  - unfold getitem, len. rewrite E1, E2. reflexivity.
Qed.

(** X3.  A row with fewer fields than the label column needs (three in
    classification, five in regression) raises [IndexError] before any
    volume is decoded. *)
Theorem getitem_short_row root file_lines classif idx lst :
  Py.getitem (lines (init root file_lines classif)) idx = Ok lst ->
  (List.length lst < (if truthy classif then 3 else 5))%nat ->
  getitem load_fdata (init root file_lines classif) idx = Raise IndexError.
Proof.
  set (self := init root file_lines classif). intros H L. unfold getitem. rewrite H. cbn [bind].
  destruct (Py.getitem lst 0) as [name0|e] eqn:E0.
  - cbn [bind]. unfold self, init. cbn [classification label_file_idx].
    destruct (truthy classif).
    + rewrite (getitem_out_of_range lst 2) by lia. reflexivity.
    + rewrite (getitem_out_of_range lst 4) by lia. reflexivity.
  - cbn [bind]. destruct lst; [|discriminate].
    unfold Py.getitem in E0. cbn in E0. congruence.
Qed.

End ManifestRows.

(** ** Cells that [float()] and the label table reject *)

Section QuotedCells.

Import Numpy Dataset.
Local Open Scope string_scope.

Local Abbreviation dq := ("034"%char).
Local Abbreviation nl := ("010"%char).

Lemma string_app_assoc (a b c : string) : (a ++ b) ++ c = a ++ (b ++ c).
Proof. induction a as [|x a IH]; simpl; [reflexivity|]. rewrite IH. reflexivity. Qed.

Lemma contains_app c a b : contains c (a ++ b) = contains c a || contains c b.
Proof.
  induction a as [|x a IH]; simpl; [reflexivity|]. rewrite IH. apply orb_assoc.
Qed.

Lemma contains_lstrip_keep p c s :
  p c = false -> contains c s = true -> contains c (lstrip_by p s) = true.
Proof.
  intros Hp. induction s as [|a s IH]; simpl; [auto|].
  destruct (p a) eqn:Pa; [|auto].
  destruct (Ascii.eqb_spec a c) as [->|N]; [congruence|]. exact IH.
Qed.

Lemma contains_rstrip_keep p c s :
  p c = false -> contains c s = true -> contains c (rstrip_by p s) = true.
Proof.
  intros Hp. induction s as [|a s IH]; simpl; [auto|].
  intros H. destruct (rstrip_by p s) as [|b r] eqn:E.
  - destruct (contains c s) eqn:C; [specialize (IH eq_refl); discriminate|].
    rewrite orb_false_r in H. apply Ascii.eqb_eq in H. subst a. rewrite Hp.
    simpl. rewrite Ascii.eqb_refl. reflexivity.
  - cbn [contains]. apply orb_true_iff in H. destruct H as [H|H].
    + rewrite H. reflexivity.
    + cbn [contains] in IH. rewrite (IH H). apply orb_true_r.
Qed.

Lemma contains_drop_underscores_keep c s : forall prev t,
  Ascii.eqb c "_" = false ->
  drop_underscores prev s = Some t -> contains c s = true -> contains c t = true.
Proof.
  induction s as [|a s IH]; intros prev t Hc; simpl; [discriminate|].
  destruct (Ascii.eqb a "000"); [discriminate|].
  destruct (Ascii.eqb_spec a "_") as [->|N].
  - destruct (is_digit prev); [|discriminate]. intros H C.
    rewrite Ascii.eqb_sym, Hc in C. cbn [orb] in C. exact (IH _ _ Hc H C).
  - destruct (Ascii.eqb prev "_" && negb (is_digit a)); [discriminate|].
    destruct (drop_underscores a s) as [t'|] eqn:E; [|discriminate].
    simpl. intros H; inversion H; subst. simpl. intros C.
    apply orb_true_iff in C. destruct C as [C|C].
    + rewrite C. reflexivity.
    + rewrite (IH _ _ Hc E C). apply orb_true_r.
Qed.

Lemma span_digits_no c s : forall d r,
  is_digit c = false -> span_digits s = (d, r) -> contains c d = false.
Proof.
  induction s as [|a s IH]; intros d r Hc; simpl.
  - intros H; inversion H. reflexivity.
  - destruct (is_digit a) eqn:D.
    + destruct (span_digits s) as [d' r'] eqn:E. intros H; inversion H; subst.
      simpl. rewrite (IH _ _ Hc eq_refl), orb_false_r.
      apply Ascii.eqb_neq. intros ->. congruence.
    + intros H; inversion H. reflexivity.
Qed.

(** The part of a string read as a decimal number holds no quote. *)
Lemma parse_decimal_no_quote s d e10 r :
  parse_decimal s = Some (d, e10, r) ->
  exists pre, s = pre ++ r /\ contains dq pre = false.
Proof.
  unfold parse_decimal.
  destruct (span_digits s) as [ip r1] eqn:E1.
  pose proof (span_digits_app _ _ _ E1) as S1.
  pose proof (span_digits_no dq _ _ _ eq_refl E1) as N1.
  assert (exists mid fp r2,
             (let (fp', r2') := match r1 with
                                | String "." r0 => span_digits r0
                                | _ => ("", r1)
                                end in (fp', r2')) = (fp, r2) /\
             r1 = mid ++ r2 /\ contains dq mid = false) as (mid & fp & r2 & Em & S2 & N2).
  { destruct r1 as [|c r0].
    - exists "", "", "". repeat split.
    - destruct (Ascii.eqb_spec c ".") as [->|N].
      + destruct (span_digits r0) as [fp r2] eqn:E2.
        exists (String "." fp), fp, r2. split; [reflexivity|]. split.
        * simpl. f_equal. apply span_digits_app. exact E2.
        * simpl. apply (span_digits_no dq _ _ _ eq_refl E2).
      + exists "", "", (String c r0). split; [|split; reflexivity].
        destruct c as [[] [] [] [] [] [] [] []]; try reflexivity. congruence. }
  destruct (match r1 with
            | String "." r0 => span_digits r0
            | _ => ("", r1)
            end) as [fp' r2'].
  inversion Em; subst fp' r2'; clear Em.
  destruct (ip ++ fp =? ""); [discriminate|].
  assert (exists ex r3,
             (match r2 with
              | String c r0 =>
                  if Ascii.eqb c "e" || Ascii.eqb c "E" then
                    let (es, r') := parse_sign r0 in
                    let (ed, r'') := span_digits r' in
                    if ed =? "" then (0%Z, r2)
                    else (cond_Zopp es (digits_value 0 ed), r'')
                  else (0%Z, r2)
              | "" => (0%Z, r2)
              end) = (fst (match r2 with
              | String c r0 =>
                  if Ascii.eqb c "e" || Ascii.eqb c "E" then
                    let (es, r') := parse_sign r0 in
                    let (ed, r'') := span_digits r' in
                    if ed =? "" then (0%Z, r2)
                    else (cond_Zopp es (digits_value 0 ed), r'')
                  else (0%Z, r2)
              | "" => (0%Z, r2)
              end), r3) /\
             r2 = ex ++ r3 /\ contains dq ex = false) as (ex & r3 & Ee & S3 & N3).
  { destruct r2 as [|c r0].
    - exists "", "". repeat split.
    - destruct (Ascii.eqb c "e" || Ascii.eqb c "E") eqn:Ce.
      + assert (Ascii.eqb c dq = false) as Cq.
        { apply Ascii.eqb_neq. intros ->. discriminate. }
        assert (exists sg r', parse_sign r0 = (fst (parse_sign r0), r') /\
                              r0 = sg ++ r' /\ contains dq sg = false) as (sg & r' & Ps & Ss & Ns).
        { destruct r0 as [|a r0'].
          - exists "", "". repeat split.
          - destruct (Ascii.eqb_spec a "-") as [->|Nm].
            + exists "-", r0'. repeat split.
            + destruct (Ascii.eqb_spec a "+") as [->|Np].
              * exists "+", r0'. repeat split.
              * exists "", (String a r0'). split; [|split; reflexivity].
                destruct a as [[] [] [] [] [] [] [] []]; try reflexivity; congruence. }
        rewrite Ps. destruct (span_digits r') as [ed r''] eqn:Ed.
        destruct (ed =? "").
        * exists "", (String c r0). repeat split.
        * exists (String c (sg ++ ed)), r''. split; [reflexivity|]. split.
          -- simpl. f_equal. rewrite Ss. rewrite string_app_assoc. f_equal.
             apply span_digits_app. exact Ed.
          -- cbn [contains]. rewrite Cq. cbn [orb].
             rewrite contains_app, Ns. apply (span_digits_no dq _ _ _ eq_refl Ed).
      + exists "", (String c r0). repeat split. }
  rewrite Ee. intros H; inversion H; subst r3.
  exists (ip ++ mid ++ ex). split.
  - rewrite S1, S2, S3. rewrite !string_app_assoc. reflexivity.
  - rewrite !contains_app, N1, N2, N3. reflexivity.
Qed.

Lemma lower_quote c : Ascii.eqb (lower c) dq = Ascii.eqb c dq.
Proof. destruct c as [[] [] [] [] [] [] [] []]; reflexivity. Qed.

Lemma contains_lower_str s : contains dq (lower_str s) = contains dq s.
Proof.
  induction s as [|a s IH]; simpl; [reflexivity|]. rewrite IH. f_equal.
  rewrite Ascii.eqb_sym, (Ascii.eqb_sym a). apply lower_quote.
Qed.

(** [float()] rejects every string that holds a double quote. *)
Lemma of_str_quote s x : of_str s = Ok x -> contains dq s = false.
Proof.
  intros H. destruct (contains dq s) eqn:C; [|reflexivity]. exfalso.
  unfold of_str in H.
  destruct (drop_underscores "000" (to_ascii_blanks s)) as [t|] eqn:E; [|discriminate].
  rewrite <- (contains_to_ascii_blanks dq s) in C by (reflexivity || discriminate).
  pose proof (contains_drop_underscores_keep dq _ _ _ eq_refl E C) as Ct.
  assert (contains dq (strip_space t) = true) as Cs.
  { unfold strip_space. apply contains_rstrip_keep; [reflexivity|].
    apply contains_lstrip_keep; [reflexivity|exact Ct]. }
  assert (contains dq (snd (parse_sign (strip_space t))) = true) as Cb.
  { destruct (strip_space t) as [|a u]; [discriminate|].
    unfold parse_sign.
    destruct (Ascii.eqb_spec a "-") as [->|Nm]; [exact Cs|].
    destruct (Ascii.eqb_spec a "+") as [->|Np]; [exact Cs|].
    destruct a as [[] [] [] [] [] [] [] []]; try exact Cs; congruence. }
  destruct (parse_sign (strip_space t)) as [sg body]. cbn [snd] in Cb.
  destruct (parse_decimal body) as [[[d e10] r]|] eqn:P.
  - destruct (parse_decimal_no_quote _ _ _ _ P) as (pre & Sp & Np).
    destruct r; [|discriminate]. rewrite Sp, contains_app, Np in Cb. discriminate.
  - rewrite <- contains_lower_str in Cb.
    destruct (lower_str body =? "inf") eqn:W1;
      [apply String.eqb_eq in W1; rewrite W1 in Cb; discriminate|].
    destruct (lower_str body =? "infinity") eqn:W2;
      [apply String.eqb_eq in W2; rewrite W2 in Cb; discriminate|].
    destruct (lower_str body =? "nan") eqn:W3;
      [apply String.eqb_eq in W3; rewrite W3 in Cb; discriminate|].
    cbn [orb] in H. discriminate.
Qed.

Lemma rstrip_by_ends_with p c s :
  p c = false -> ends_with c s = true -> rstrip_by p s = s.
Proof.
  intros Hp. induction s as [|a s IH]; [discriminate|].
  cbn [ends_with rstrip_by]. destruct s as [|b s'].
  - intros H. apply Ascii.eqb_eq in H. subst a. cbn [rstrip_by]. rewrite Hp. reflexivity.
  - intros H. rewrite (IH H). reflexivity.
Qed.

Lemma lstrip_by_ends_with p c s :
  p c = false -> ends_with c s = true -> ends_with c (lstrip_by p s) = true.
Proof.
  intros Hp. induction s as [|a s IH]; [discriminate|].
  cbn [lstrip_by]. destruct (p a) eqn:Pa; [|auto].
  cbn [ends_with]. destruct s as [|b s'].
  - intros H. apply Ascii.eqb_eq in H. subst a. congruence.
  - exact IH.
Qed.

Lemma strip_ends_with_newline s :
  ends_with nl s = true -> ends_with nl (strip dq s) = true.
Proof.
  intros H. unfold strip.
  rewrite (rstrip_by_ends_with (Ascii.eqb dq) nl); [|reflexivity|];
    apply lstrip_by_ends_with; try reflexivity; exact H.
Qed.

Lemma class_label_newline s : ends_with nl s = true -> class_label s = None.
Proof.
  intros H. unfold class_label.
  destruct (String.eqb_spec s "AD") as [->|_]; [discriminate|].
  destruct (String.eqb_spec s "CN") as [->|_]; [discriminate|].
  destruct (String.eqb_spec s "MCI") as [->|_]; [discriminate|]. reflexivity.
Qed.

Lemma ends_with_app c a b : b <> "" -> ends_with c (a ++ b) = ends_with c b.
Proof.
  intros Hb. induction a as [|x a IH]; [reflexivity|].
  cbn [append ends_with]. destruct (a ++ b) eqn:E; [|exact IH].
  destruct a; [simpl in E; congruence|discriminate].
Qed.

(** What is left of a quoted cell followed by a newline once the leading
    quotes are stripped: the bare newline, or a string still holding the
    closing quote. *)
Lemma lstrip_quoted_cell cell :
  lstrip_by (Ascii.eqb dq) (cell ++ String dq (String nl "")) = String nl "" \/
  contains dq (lstrip_by (Ascii.eqb dq) (cell ++ String dq (String nl ""))) = true.
Proof.
  induction cell as [|a cell IH]; [left; reflexivity|].
  cbn [append lstrip_by]. destruct (Ascii.eqb dq a) eqn:E; [exact IH|].
  right. cbn [contains]. rewrite contains_app. cbn. rewrite orb_true_r. apply orb_true_r.
Qed.

Variable load_fdata : string -> result ndarray.

(** X4.  A quoted label cell that ends its line is never accepted: the
    newline keeps the closing quote from being stripped, so in
    classification mode no label is bound (the volume is decoded, then
    [UnboundLocalError] is raised) and in regression mode [float()]
    rejects the cell. *)
Theorem getitem_label_in_last_column self idx lst name0 cell :
  Py.getitem (lines self) idx = Ok lst ->
  Py.getitem lst 0%Z = Ok name0 ->
  Py.getitem lst (label_file_idx self) = Ok (String dq (cell ++ String dq (String nl ""))) ->
  getitem load_fdata self idx =
  if truthy (classification self) then
    match load_fdata (os_path_join (root_dir self) (strip dq name0) ++ ".nii") with
    | Ok _ => Raise (UnboundLocalError "label")
    | Raise e => Raise e
    end
  else
    Raise (could_not_convert (strip dq (String dq (cell ++ String dq (String nl ""))))).
Proof.
  intros H1 H2 H3.
  assert (ends_with nl (String dq (cell ++ String dq (String nl ""))) = true) as En.
  { change (String dq (cell ++ String dq (String nl "")))
      with (String dq cell ++ String dq (String nl "")).
    rewrite ends_with_app by discriminate. reflexivity. }
  rewrite (getitem_row load_fdata self idx lst name0 _ H1 H2 H3).
  destruct (truthy (classification self)).
  - rewrite (class_label_newline _ (strip_ends_with_newline _ En)). cbn [bind].
    destruct (load_fdata _); cbn [bind]; [|reflexivity].
    rewrite customToTensor_ndarray. reflexivity.
  - destruct (of_str (strip dq (String dq (cell ++ String dq (String nl ""))))) as [x|e] eqn:E.
    + exfalso. pose proof (of_str_quote _ _ E) as Q.
      unfold strip in E, Q. cbn [lstrip_by] in E, Q.
      rewrite Ascii.eqb_refl in E, Q.
      assert (ends_with nl (lstrip_by (Ascii.eqb dq) (cell ++ String dq (String nl ""))) = true)
        as En'.
      { apply lstrip_by_ends_with; [reflexivity|].
        rewrite ends_with_app by discriminate. reflexivity. }
      rewrite (rstrip_by_ends_with _ nl) in E, Q by (reflexivity || exact En').
      destruct (lstrip_quoted_cell cell) as [L|L].
      * rewrite L in E. vm_compute in E. discriminate.
      * congruence.
    + cbn [bind]. f_equal. eapply of_str_error. exact E.
Qed.

(** X5.  Every successful item access returns a float32 array of shape
    (150, 150, 200) with 4,500,000 elements, whatever the stored volume,
    together with a class code 1, 0 or 2 in classification mode and a
    float score in regression mode. *)
Theorem getitem_returns_resized_volume self idx a l :
  getitem load_fdata self idx = Ok (a, l) ->
  (exists r, a = PyNdarray r /\ shape r = [150; 150; 200]%Z /\
             dtype_of (data r) = float32 /\
             Z.of_nat (size_of (data r)) = 4500000%Z) /\
  if truthy (classification self)
  then l = ClassCode 1 \/ l = ClassCode 0 \/ l = ClassCode 2
  else exists x, l = Score x.
Proof.
  unfold getitem.
  destruct (Py.getitem (lines self) idx) as [lst|]; [|discriminate]. cbn [bind].
  destruct (Py.getitem lst 0%Z) as [name0|]; [|discriminate]. cbn [bind].
  set (path := os_path_join _ _ ++ ".nii").
  assert (forall lab : option label,
            (a0 <- load_fdata path ;; a1 <- customToTensor (PyNdarray a0) ;;
             label <- read_local "label" lab ;; Ok (a1, label))%py = Ok (a, l) ->
            (exists r, a = PyNdarray r /\ shape r = [150; 150; 200]%Z /\
                       dtype_of (data r) = float32 /\
                       Z.of_nat (size_of (data r)) = 4500000%Z) /\ lab = Some l) as K.
  { intros lab. destruct (load_fdata path) as [vol|]; [|discriminate]. cbn [bind].
    rewrite customToTensor_ndarray. cbn [bind].
    destruct lab as [l0|]; [|discriminate]. cbn [read_local bind].
    intros H; inversion H; subst. split; [|reflexivity].
    eexists. split; [reflexivity|]. split; [reflexivity|].
    match goal with
    | |- dtype_of (data (astype_float32 ?r)) = _ /\ _ =>
        destruct (size_of_astype_float32 r) as [S D]; rewrite S
    end.
    split; [exact D|]. cbn [data].
    rewrite size_of_resize_data by lia. apply Z2Nat.id. lia. }
  destruct (truthy (classification self)).
  - destruct (Py.getitem lst (label_file_idx self)) as [raw|]; [|discriminate]. cbn [bind].
    intros H. destruct (K _ H) as [Ka Kl]. split; [exact Ka|].
    unfold class_label in Kl.
    destruct (strip dq raw =? "AD"); [inversion Kl; auto|].
    destruct (strip dq raw =? "CN"); [inversion Kl; auto|].
    destruct (strip dq raw =? "MCI"); [inversion Kl; auto|discriminate].
  - destruct (Py.getitem lst (label_file_idx self)) as [raw|]; [|discriminate]. cbn [bind].
    destruct (of_str (strip dq raw)) as [x|]; [|discriminate]. cbn [bind].
    intros H. destruct (K _ H) as [Ka Kl]. split; [exact Ka|].
    exists x. inversion Kl. reflexivity.
Qed.

End QuotedCells.

(** ** Resizing twice, and the subsets of the split *)

Section VolumeComposition.

Import Numpy Dataset.
Local Open Scope Z_scope.

Lemma resize_list_same_size {X : Type} (zero : X) l n :
  0 < n -> List.length l = Z.to_nat n -> resize_list zero l n = l.
Proof.
  intros Hn Hl. unfold resize_list.
  assert (Z.of_nat (List.length l) = n) as E by lia. rewrite E.
  destruct (Z.eqb_spec n 0); [lia|]. cbn [orb].
  assert (- n / n = -1) as D.
  { symmetry. apply Z.div_unique with 0; lia. }
  rewrite D. change (Z.to_nat (- -1)) with 1%nat. cbn [repeat List.concat].
  rewrite app_nil_r, <- Hl. apply firstn_all.
Qed.

Lemma resize_data_same_size d n :
  0 < n -> size_of d = Z.to_nat n -> resize_data d n = d.
Proof.
  intros Hn Hs. destruct d; cbn [resize_data size_of] in *;
    rewrite resize_list_same_size by assumption; reflexivity.
Qed.

(** X6.  Resizing is idempotent: applied to its own result, [customToTensor]
    returns it unchanged. *)
Theorem customToTensor_idempotent (img out : pyobj) :
  is_ndarray img = true ->
  customToTensor img = Ok out ->
  customToTensor out = Ok out.
Proof.
  destruct img as [| | | | |[a|dt sh l|a|a mask]]; try discriminate. intros _.
  rewrite customToTensor_ndarray. intros H; inversion H; subst; clear H.
  rewrite customToTensor_ndarray. f_equal. f_equal. f_equal.
  unfold astype_float32. cbn [data shape data_as_float32]. f_equal. f_equal.
  apply resize_list_same_size; [lia|].
  pose proof (size_of_resize_data (data a) 4500000 ltac:(lia)) as L.
  pose proof (proj1 (size_of_astype_float32
                       {| shape := [150; 150; 200];
                          data := resize_data (data a) 4500000 |})) as S.
  unfold astype_float32 in S. cbn [data size_of] in S. rewrite S. exact L.
Qed.

End VolumeComposition.

Section SplitSubsets.

Import Split.
Local Open Scope Z_scope.

Lemma py_slice_in_range {A : Type} (l : list A) lo hi :
  0 <= lo <= hi -> hi <= Z.of_nat (List.length l) ->
  py_slice l lo hi = firstn (Z.to_nat (hi - lo)) (skipn (Z.to_nat lo) l).
Proof.
  intros H1 H2. unfold py_slice, clamp_index.
  destruct (Z.ltb_spec lo 0); [lia|]. destruct (Z.ltb_spec hi 0); [lia|].
  rewrite !Z.min_l by lia. reflexivity.
Qed.

Lemma firstn_then_more {A : Type} (l : list A) a b :
  firstn a l ++ firstn b (skipn a l) = firstn (a + b) l.
Proof.
  revert l. induction a as [|a IH]; intros l; [reflexivity|].
  destruct l as [|x l]; cbn; [rewrite firstn_nil; reflexivity|].
  f_equal. apply IH.
Qed.

(** Consecutive slices of non-negative lengths tile the permutation. *)
Lemma subsets_tile (indices : list Z) lengths : forall offset,
  Forall (fun z => 0 <= z) lengths -> 0 <= offset ->
  offset + sum lengths <= Z.of_nat (List.length indices) ->
  List.concat (subsets indices offset lengths)
    = firstn (Z.to_nat (sum lengths)) (skipn (Z.to_nat offset) indices) /\
  map (fun s => Z.of_nat (List.length s)) (subsets indices offset lengths) = lengths.
Proof.
  induction lengths as [|len rest IH]; intros offset Hall Hoff Hsum.
  - split; reflexivity.
  - inversion Hall as [|? ? Hlen Hrest]; subst.
    assert (sum (len :: rest) = len + sum rest) as S.
    { unfold sum. cbn [fold_left].
      assert (forall l a, fold_left Z.add l a = a + fold_left Z.add l 0) as G.
      { induction l as [|y l IHl]; intros a0; cbn [fold_left]; [lia|].
        rewrite (IHl (a0 + y)), (IHl (0 + y)). lia. }
      rewrite (G rest (0 + len)). lia. }
    assert (0 <= sum rest) as Pr.
    { clear -Hrest. unfold sum.
      assert (forall l a, Forall (fun z => 0 <= z) l -> 0 <= a -> 0 <= fold_left Z.add l a) as G.
      { induction l as [|y l IHl]; intros a0 Hl Ha; cbn [fold_left]; [exact Ha|].
        inversion Hl; subst. apply IHl; [assumption|lia]. }
      apply G; [exact Hrest|lia]. }
    rewrite S in *. cbn [subsets List.concat map].
    destruct (IH (offset + len) Hrest ltac:(lia) ltac:(lia)) as [IH1 IH2].
    rewrite IH1, IH2.
    replace (offset + len - len) with offset by lia.
    rewrite py_slice_in_range by lia.
    replace (offset + len - offset) with len by lia.
    split.
    + replace (Z.to_nat (offset + len)) with (Z.to_nat len + Z.to_nat offset)%nat by lia.
      rewrite <- skipn_skipn.
      rewrite firstn_then_more. f_equal. lia.
    + f_equal. rewrite length_firstn, length_skipn. lia.
Qed.

Lemma split_lengths_shape n v t r lengths :
  split_lengths n v t r = Ok lengths ->
  exists a b vs ts rest,
    mul_int v n = Ok a /\ to_int a = Ok vs /\
    mul_int t n = Ok b /\ to_int b = Ok ts /\
    lengths = vs :: ts :: rest /\
    List.length rest = (if eq_int r 1 then 1 else 2)%nat.
Proof.
  unfold split_lengths.
  destruct (mul_int v n) as [a|] eqn:Ea; [|discriminate]. cbn [bind].
  destruct (to_int a) as [vs|] eqn:Ev; [|discriminate]. cbn [bind].
  destruct (mul_int t n) as [b|] eqn:Eb; [|discriminate]. cbn [bind].
  destruct (to_int b) as [ts|] eqn:Et; [|discriminate]. cbn [bind].
  destruct (eq_int r 1).
  - intros H; inversion H. exists a, b, vs, ts. eexists.
    repeat split; first [reflexivity | assumption].
  - destruct (rmul_int _ r) as [c|]; [|discriminate]. cbn [bind].
    destruct (to_int c) as [trs|]; [|discriminate]. cbn [bind].
    intros H; inversion H. exists a, b, vs, ts. eexists.
    repeat split; first [reflexivity | assumption].
Qed.

(** X8.  When no size is negative the subsets are consecutive pieces of the
    permutation: joined in order they give it back, so every record is
    in exactly one of them; there are three subsets when
    [train_ratio == 1] and four otherwise. *)
Theorem split_tiles_permutation indices val_ratio test_ratio train_ratio lengths :
  split_lengths (Z.of_nat (List.length indices)) val_ratio test_ratio train_ratio = Ok lengths ->
  Forall (fun size => 0 <= size) lengths ->
  exists parts,
    split indices val_ratio test_ratio train_ratio = Ok parts /\
    List.concat parts = indices /\
    map (fun s => Z.of_nat (List.length s)) parts = lengths /\
    List.length parts = (if eq_int train_ratio 1 then 3 else 4)%nat.
Proof.
  intros H Hall.
  pose proof (split_lengths_cases (Z.of_nat (List.length indices)) val_ratio test_ratio
                train_ratio) as C.
  rewrite H in C.
  exists (subsets indices 0 lengths). split.
  - unfold split. rewrite H. cbn [bind]. unfold random_split. rewrite C, Z.eqb_refl.
    reflexivity.
  - destruct (subsets_tile indices lengths 0 Hall ltac:(lia) ltac:(lia)) as [T1 T2].
    split; [|split; [exact T2|]].
    + rewrite T1, C. cbn [Z.to_nat skipn]. rewrite Nat2Z.id. apply firstn_all.
    + destruct (split_lengths_shape _ _ _ _ _ H) as (a & b & vs & ts & rest & _ & _ & _ & _ & E & L).
      apply (f_equal (@List.length Z)) in T2. rewrite length_map in T2. rewrite T2, E.
      cbn [List.length]. rewrite L. destruct (eq_int train_ratio 1); reflexivity.
Qed.

(** X9.  The validation and test subsets do not depend on [train_ratio]:
    on the same permutation two runs that differ only in it select the
    same first two subsets. *)
Theorem split_eval_sets_independent indices val_ratio test_ratio r1 r2 parts1 parts2 :
  split indices val_ratio test_ratio r1 = Ok parts1 ->
  split indices val_ratio test_ratio r2 = Ok parts2 ->
  firstn 2 parts1 = firstn 2 parts2 /\ List.length (firstn 2 parts1) = 2%nat.
Proof.
  unfold split.
  destruct (split_lengths _ val_ratio test_ratio r1) as [l1|] eqn:E1; [|discriminate].
  destruct (split_lengths _ val_ratio test_ratio r2) as [l2|] eqn:E2; [|discriminate].
  cbn [bind]. unfold random_split.
  destruct (negb _); [discriminate|]. destruct (negb _); [discriminate|].
  intros H1 H2. inversion H1; inversion H2; subst.
  destruct (split_lengths_shape _ _ _ _ _ E1) as (a & b & vs & ts & rest & Ha & Hv & Hb & Ht & -> & _).
  destruct (split_lengths_shape _ _ _ _ _ E2) as (a' & b' & vs' & ts' & rest' & Ha' & Hv' & Hb' & Ht' & -> & _).
  rewrite Ha in Ha'. inversion Ha'; subst a'. rewrite Hv in Hv'. inversion Hv'; subst vs'.
  rewrite Hb in Hb'. inversion Hb'; subst b'. rewrite Ht in Ht'. inversion Ht'; subst ts'.
  cbn [subsets firstn]. split; reflexivity.
Qed.

(** X10.  An empty dataset splits into empty subsets for any finite ratios. *)
Theorem split_empty_dataset val_ratio test_ratio train_ratio :
  is_finite val_ratio = true -> is_finite test_ratio = true ->
  is_finite train_ratio = true ->
  split [] val_ratio test_ratio train_ratio
    = Ok (if eq_int train_ratio 1 then [[]; []; []] else [[]; []; []; []]).
Proof.
  intros Hv Ht Hr.
  assert (forall x, is_finite x = true ->
            exists s s', mul x (S754_zero false) = S754_zero s /\
                         mul (S754_zero false) x = S754_zero s') as M.
  { intros x Hx.
    destruct x as [s|s| |s m e]; try discriminate; eexists; eexists; split; reflexivity. }
  destruct (M _ Hv) as (sv & _ & Mv & _). destruct (M _ Ht) as (st & _ & Mt & _).
  destruct (M _ Hr) as (_ & sr & _ & Mr).
  unfold split, split_lengths, mul_int, rmul_int.
  cbn [List.length Z.of_nat]. change (of_int 0) with (Ok (S754_zero false)).
  cbn [bind]. rewrite Mv, Mt. cbn [to_int bind].
  destruct (eq_int train_ratio 1); [reflexivity|].
  change (0 - sum [0; 0]) with 0. change (of_int 0) with (Ok (S754_zero false)).
  cbn [bind]. rewrite Mr. reflexivity.
Qed.

End SplitSubsets.

(** ** Construction, loss inputs and steps *)

Section Construction.

Import Binary32 Torch.

Variable exp_kernel : f32 -> f32.
Variable log_kernel : f32 -> f32.
Variable sigmoid_kernel : f32 -> f32.
Variable input : Type.
Variable targets : Type.
Variable torch_load_transformer : string -> result state_dict.
Variable torch_load_cnn : string -> result (list state_dict).
Variable MultiViewTransformer : hparams -> SubModule.
Variable cnn_multi_dim : Z -> Z -> SubModule.
Variable init_weight : nat -> nat -> nat -> f32.
Variable init_bias : nat -> nat -> f32.
Variable output_single : list SubModule -> input -> result Tensor.
Variable transformer_forward : SubModule -> Tensor -> result Tensor.
Variable apply_loss : loss_kind -> Tensor -> targets -> result f32.

Local Abbreviation init_model :=
  (init targets torch_load_transformer torch_load_cnn MultiViewTransformer
        cnn_multi_dim init_weight init_bias).
Local Abbreviation forward_pass :=
  (forward sigmoid_kernel input targets output_single transformer_forward).
Local Abbreviation loss_inputs :=
  (loss_metric_inputs exp_kernel log_kernel sigmoid_kernel input targets output_single
     transformer_forward).
Local Abbreviation step :=
  (get_loss_metrics exp_kernel log_kernel sigmoid_kernel input targets output_single
     transformer_forward apply_loss).

Lemma shape_eqb_eq a b : shape_eqb a b = true -> a = b.
Proof. unfold shape_eqb. destruct (list_eq_dec Nat.eq_dec a b); [auto|discriminate]. Qed.

Lemma load_parameters_values ps sd ps' :
  load_parameters ps sd = Ok ps' ->
  Forall (loaded_from sd) ps' /\ map p_name ps' = map p_name ps.
Proof.
  revert ps'. induction ps as [|p ps IH]; intros ps' H; simpl in H.
  - inversion H. split; [constructor|reflexivity].
  - destruct (lookup (p_name p) sd) as [[sh v]|] eqn:L; [|discriminate].
    destruct (shape_eqb sh (p_shape p)) eqn:S; [|discriminate].
    destruct (load_parameters ps sd) as [rest|]; [|discriminate].
    cbn [bind] in H. inversion H; subst. destruct (IH rest eq_refl) as [IH1 IH2].
    apply shape_eqb_eq in S. subst sh. split.
    + constructor; [exact L|exact IH1].
    + simpl. f_equal. exact IH2.
Qed.

Lemma load_state_dict_values m sd m' :
  load_state_dict m sd = Ok m' ->
  Forall (loaded_from sd) (sm_parameters m') /\
  map p_name (sm_parameters m') = map p_name (sm_parameters m) /\
  sm_training m' = sm_training m.
Proof.
  unfold load_state_dict. destruct (existsb _ sd); [discriminate|].
  destruct (load_parameters (sm_parameters m) sd) as [ps|] eqn:E; [|discriminate].
  cbn [bind]. intros H. inversion H. cbn [sm_parameters sm_training].
  destruct (load_parameters_values _ _ _ E). repeat split; assumption.
Qed.

Lemma frozen_values sd m :
  Forall (loaded_from sd) (sm_parameters m) ->
  Forall (loaded_from sd) (sm_parameters (eval (freeze m))) /\
  map p_name (sm_parameters (eval (freeze m))) = map p_name (sm_parameters m).
Proof.
  intros H. cbn [eval freeze sm_parameters]. split.
  - apply Forall_map. revert H. apply Forall_impl. intros p Hp. exact Hp.
  - rewrite map_map. reflexivity.
Qed.

(** The steps of a successful construction. *)
Lemma init_steps args m :
  init_model args = Ok m ->
  exists sd tr loaded s0 s1 s2 c0 c1 c2,
    torch_load_transformer (transformer_checkpoint_path args) = Ok sd /\
    load_state_dict (MultiViewTransformer args) sd = Ok tr /\
    transformer m = (if truthy (finetune_transformer args) then tr else eval (freeze tr)) /\
    torch_load_cnn (cnn_checkpoint_path args) = Ok loaded /\
    Py.getitem loaded 0%Z = Ok s0 /\ Py.getitem loaded 1%Z = Ok s1 /\
    Py.getitem loaded 2%Z = Ok s2 /\
    load_state_dict (cnn_multi_dim 0 (n_hidden args)) s0 = Ok c0 /\
    load_state_dict (cnn_multi_dim 1 (n_hidden args)) s1 = Ok c1 /\
    load_state_dict (cnn_multi_dim 2 (n_hidden args)) s2 = Ok c2 /\
    cnn_models m = (if truthy (finetune_cnn args) then [c0; c1; c2]
                    else map (fun c => eval (freeze c)) [c0; c1; c2]).
Proof.
  unfold init.
  destruct (torch_load_transformer _) as [sd|]; [|discriminate]. cbn [bind].
  destruct (load_state_dict (MultiViewTransformer args) sd) as [tr|] eqn:Et; [|discriminate].
  cbn [bind].
  destruct (torch_load_cnn _) as [loaded|]; [|discriminate]. cbn [bind].
  cbn [map load_cnn_models].
  destruct (Py.getitem loaded 0%Z) as [s0|] eqn:G0; [|discriminate]. cbn [bind].
  destruct (load_state_dict (cnn_multi_dim 0 _) s0) as [c0|] eqn:L0; [|discriminate]. cbn [bind].
  change (0 + 1)%Z with 1%Z.
  destruct (Py.getitem loaded 1%Z) as [s1|] eqn:G1; [|discriminate]. cbn [bind].
  destruct (load_state_dict (cnn_multi_dim 1 _) s1) as [c1|] eqn:L1; [|discriminate]. cbn [bind].
  change (1 + 1)%Z with 2%Z.
  destruct (Py.getitem loaded 2%Z) as [s2|] eqn:G2; [|discriminate]. cbn [bind].
  destruct (load_state_dict (cnn_multi_dim 2 _) s2) as [c2|] eqn:L2; [|discriminate]. cbn [bind].
  destruct (nn_Linear init_weight init_bias 0 _ _) as [l0|]; [|discriminate]. cbn [bind].
  destruct (truthy (classification args));
    (destruct (nn_Linear init_weight init_bias 1 _ _) as [l1|]; [|discriminate]); cbn [bind];
    intros H; inversion H; subst; clear H; cbn [transformer cnn_models];
    exists sd, tr, loaded, s0, s1, s2, c0, c1, c2;
    (repeat split; try assumption; try reflexivity);
    try (destruct (truthy (finetune_transformer args)); reflexivity);
    destruct (truthy (finetune_cnn args)); reflexivity.
Qed.

Local Abbreviation Linear_ := (nn_Linear init_weight init_bias).

(** X11.  The constructed sub-models carry the checkpoint: every parameter of
    the fusion network holds the shape and value stored under its name
    in the fusion checkpoint, every parameter of extractor [i] those of
    entry [i] of the ensemble checkpoint, and the parameter names are
    those of the freshly built sub-models. *)
Theorem init_loads_checkpoints args m :
  init_model args = Ok m ->
  exists sd loaded,
    torch_load_transformer (transformer_checkpoint_path args) = Ok sd /\
    torch_load_cnn (cnn_checkpoint_path args) = Ok loaded /\
    Forall (loaded_from sd) (sm_parameters (transformer m)) /\
    map p_name (sm_parameters (transformer m))
      = map p_name (sm_parameters (MultiViewTransformer args)) /\
    List.length (cnn_models m) = 3%nat /\
    forall i, (i < 3)%nat ->
      exists s c,
        nth_error loaded i = Some s /\ nth_error (cnn_models m) i = Some c /\
        Forall (loaded_from s) (sm_parameters c) /\
        map p_name (sm_parameters c)
          = map p_name (sm_parameters (cnn_multi_dim (Z.of_nat i) (n_hidden args))).
Proof.
  intros Hi.
  destruct (init_steps args m Hi)
    as (sd & tr & loaded & s0 & s1 & s2 & c0 & c1 & c2 & Hsd & Htr & Tm & Hl & G0 & G1 & G2
        & L0 & L1 & L2 & Cm).
  exists sd, loaded. split; [exact Hsd|]. split; [exact Hl|].
  destruct (load_state_dict_values _ _ _ Htr) as (Vt & Nt & _).
  assert (forall c s fresh, load_state_dict fresh s = Ok c ->
            forall c', (c' = c \/ c' = eval (freeze c)) ->
            Forall (loaded_from s) (sm_parameters c') /\
            map p_name (sm_parameters c') = map p_name (sm_parameters fresh)) as K.
  { intros c s fresh Hc c' [->| ->].
    - destruct (load_state_dict_values _ _ _ Hc) as (V & N & _). split; assumption.
    - destruct (load_state_dict_values _ _ _ Hc) as (V & N & _).
      destruct (frozen_values s c V) as [V' N']. split; [exact V'|congruence]. }
  assert (forall (l : list state_dict) k s, Py.getitem l (Z.of_nat k) = Ok s ->
            nth_error l k = Some s) as GN.
  { intros l k s. unfold Py.getitem. cbv zeta.
    destruct (Z.ltb_spec (Z.of_nat k) 0); [lia|].
    destruct (Z.ltb_spec (Z.of_nat k) 0); [lia|]. rewrite Nat2Z.id.
    destruct (nth_error l k); [intros Hx; inversion Hx; reflexivity|discriminate]. }
  split; [|split; [|split]].
  - rewrite Tm. destruct (truthy (finetune_transformer args)); [exact Vt|].
    apply (K tr sd _ Htr). right. reflexivity.
  - rewrite Tm. destruct (truthy (finetune_transformer args)); [exact Nt|].
    apply (K tr sd _ Htr). right. reflexivity.
  - rewrite Cm. destruct (truthy (finetune_cnn args)); reflexivity.
  - intros i Hlt. rewrite Cm.
    assert (i = 0 \/ i = 1 \/ i = 2)%nat as [->|[->| ->]] by lia.
    + exists s0, (if truthy (finetune_cnn args) then c0 else eval (freeze c0)).
      split; [apply (GN loaded 0%nat); exact G0|].
      split; [destruct (truthy (finetune_cnn args)); reflexivity|].
      apply (K c0 s0 _ L0). destruct (truthy (finetune_cnn args)); [left|right]; reflexivity.
    + exists s1, (if truthy (finetune_cnn args) then c1 else eval (freeze c1)).
      split; [apply (GN loaded 1%nat); exact G1|].
      split; [destruct (truthy (finetune_cnn args)); reflexivity|].
      apply (K c1 s1 _ L1). destruct (truthy (finetune_cnn args)); [left|right]; reflexivity.
    + exists s2, (if truthy (finetune_cnn args) then c2 else eval (freeze c2)).
      split; [apply (GN loaded 2%nat); exact G2|].
      split; [destruct (truthy (finetune_cnn args)); reflexivity|].
      apply (K c2 s2 _ L2). destruct (truthy (finetune_cnn args)); [left|right]; reflexivity.
Qed.

(** X12.  An ensemble checkpoint with fewer than three entries makes the
    construction fail. *)
Theorem init_needs_three_views args loaded :
  torch_load_cnn (cnn_checkpoint_path args) = Ok loaded ->
  (List.length loaded < 3)%nat ->
  exists e,
    init targets torch_load_transformer torch_load_cnn MultiViewTransformer
         cnn_multi_dim init_weight init_bias args = Raise e.
Proof.
  intros Hl Hn. destruct (init_model args) as [m|e] eqn:E; [|exists e; reflexivity].
  exfalso.
  destruct (init_steps args m E)
    as (sd & tr & loaded' & s0 & s1 & s2 & c0 & c1 & c2 & _ & _ & _ & Hl' & _ & _ & G2 & _).
  rewrite Hl in Hl'. inversion Hl'; subst loaded'.
  unfold Py.getitem in G2. cbv zeta in G2. cbn [Z.ltb Z.compare] in G2.
  destruct (nth_error loaded (Z.to_nat 2)) eqn:N; [|discriminate].
  assert (nth_error loaded (Z.to_nat 2) <> None) as F by congruence.
  apply nth_error_Some in F. change (Z.to_nat 2) with 2%nat in F. lia.
Qed.

(** X13.  With [finetune_transformer] false every fusion parameter is
    non-trainable, the fusion network is in evaluation mode and none of
    its parameters reaches the optimizer; frozen extractors are in
    evaluation mode too; a sub-model that is finetuned keeps the mode it
    was built in. *)
Theorem init_frozen_modes args m :
  init_model args = Ok m ->
  (truthy (finetune_transformer args) = false ->
     Forall (fun p => requires_grad p = false) (sm_parameters (transformer m)) /\
     sm_training (transformer m) = false /\
     forall p, In p (sm_parameters (transformer m)) ->
               ~ In p (opt_params (configure_optimizers m))) /\
  (truthy (finetune_transformer args) = true ->
     sm_training (transformer m) = sm_training (MultiViewTransformer args)) /\
  (truthy (finetune_cnn args) = false ->
     Forall (fun c => sm_training c = false) (cnn_models m)) /\
  (truthy (finetune_cnn args) = true ->
     map sm_training (cnn_models m)
       = map (fun i => sm_training (cnn_multi_dim i (n_hidden args))) [0; 1; 2]%Z).
Proof.
  intros Hi.
  destruct (init_steps args m Hi)
    as (sd & tr & loaded & s0 & s1 & s2 & c0 & c1 & c2 & Hsd & Htr & Tm & Hl & G0 & G1 & G2
        & L0 & L1 & L2 & Cm).
  split; [|split; [|split]].
  - intros F. rewrite F in Tm.
    assert (Forall (fun p => requires_grad p = false) (sm_parameters (transformer m))) as A.
    { rewrite Tm. apply freeze_no_grad. }
    split; [exact A|]. split; [rewrite Tm; reflexivity|].
    intros p Hp Hq. cbn [configure_optimizers opt_params] in Hq.
    apply filter_In in Hq. destruct Hq as [_ Hq].
    rewrite Forall_forall in A. rewrite (A p Hp) in Hq. discriminate.
  - intros F. rewrite F in Tm. rewrite Tm.
    apply (load_state_dict_values _ _ _ Htr).
  - intros F. rewrite F in Cm. rewrite Cm. repeat constructor.
  - intros F. rewrite F in Cm. rewrite Cm. cbn [map].
    rewrite (proj2 (proj2 (load_state_dict_values _ _ _ L0))).
    rewrite (proj2 (proj2 (load_state_dict_values _ _ _ L1))).
    rewrite (proj2 (proj2 (load_state_dict_values _ _ _ L2))). reflexivity.
Qed.

Lemma head_parameters_trainable ls :
  filter requires_grad (flat_map layer_parameters ls) = flat_map layer_parameters ls.
Proof.
  induction ls as [|ly ls IH]; [reflexivity|].
  cbn [flat_map]. rewrite filter_app, IH. f_equal. destruct ly; reflexivity.
Qed.

(** X14.  The task head is always optimized: its four tensors (two weights
    and two biases) are in the optimizer whatever the freezing options,
    and with both sub-models frozen they are all the optimizer holds. *)
Theorem optimizer_holds_head args m :
  init_model args = Ok m ->
  List.length (flat_map layer_parameters (mlps m)) = 4%nat /\
  incl (flat_map layer_parameters (mlps m)) (opt_params (configure_optimizers m)) /\
  (truthy (finetune_transformer args) = false -> truthy (finetune_cnn args) = false ->
   opt_params (configure_optimizers m) = flat_map layer_parameters (mlps m)).
Proof.
  intros Hi.
  destruct (init_fields targets _ _ _ _ _ _ args m Hi)
    as (_ & _ & _ & Htr & Hcnn & l0 & l1 & _ & Hm).
  assert (opt_params (configure_optimizers m)
          = filter requires_grad (sm_parameters (transformer m))
            ++ filter requires_grad (ensemble_parameters m)
            ++ flat_map layer_parameters (mlps m)) as E.
  { cbn [configure_optimizers opt_params]. unfold parameters.
    rewrite !filter_app, head_parameters_trainable. reflexivity. }
  split; [|split].
  - destruct (truthy (classification args)); destruct Hm as [_ ->]; reflexivity.
  - intros p Hp. rewrite E. apply in_or_app. right. apply in_or_app. right. exact Hp.
  - intros F1 F2. rewrite E.
    destruct (Htr F1) as [t Ht]. destruct (Hcnn F2) as [ms Hms].
    rewrite (requires_grad_all_false (sm_parameters (transformer m)))
      by (rewrite Ht; apply freeze_no_grad).
    rewrite (requires_grad_all_false (ensemble_parameters m)); [reflexivity|].
    unfold ensemble_parameters. rewrite Hms. apply Forall_forall. intros p Hp.
    apply in_flat_map in Hp. destruct Hp as (c & Hc & Hp).
    apply in_map_iff in Hc. destruct Hc as (c0 & <- & _).
    pose proof (freeze_no_grad c0) as Fz. rewrite Forall_forall in Fz. apply Fz. exact Hp.
Qed.

(** X15.  In regression mode the loss and the metric receive the same
    tensor, the forward output flattened to one dimension: the output
    has sizes [[..., 1]], so the flat tensor has one score for every
    index of the leading dimensions (one per sample of the batch). *)
Theorem regression_loss_metric_inputs args m x out :
  init_model args = Ok m ->
  truthy (classification args) = false ->
  forward_pass m x = Ok out ->
  exists lead,
    sizes out = lead ++ [1%nat] /\
    List.length (storage out) = numel lead /\
    loss_inputs m x = Ok (flatten out, flatten out) /\
    sizes (flatten out) = [numel lead] /\
    storage (flatten out) = storage out.
Proof.
  intros Hi Hc Hf.
  destruct (init_fields targets _ _ _ _ _ _ args m Hi)
    as (Hhp & _ & _ & _ & _ & l0 & l1 & _ & Hm).
  rewrite Hc in Hm. destruct Hm as [Hl1 Hm].
  destruct (forward_steps _ _ _ _ _ m x out Hf) as (t & feats & s & _ & Hs & Ho).
  rewrite Hhp, Hc in Ho. rewrite Hm in Hs.
  cbn [sequential layer_forward] in Hs.
  destruct (linear_forward l0 feats) as [h|] eqn:E0; [|discriminate]. cbn [bind] in Hs.
  destruct (linear_forward l1 (map_elements relu h)) as [logits|] eqn:E1; [|discriminate].
  cbn [bind] in Hs. inversion Hs; subst s; clear Hs.
  destruct (linear_forward_sizes _ _ _ E1) as (lead & _ & Sl & Ll).
  assert (out_features l1 = 1%nat /\ List.length (weight l1) = 1%nat /\
          List.length (bias l1) = 1%nat) as (O1 & W1 & B1).
  { unfold nn_Linear in Hl1. destruct (_ || _)%bool; [discriminate|].
    injection Hl1 as <-. cbn [out_features weight bias]. rewrite ?length_map, ?length_seq.
    repeat split. }
  rewrite O1 in Sl. rewrite W1, B1 in Ll.
  exists lead. subst out. cbn [mul_scalar map_elements sizes storage flatten].
  split; [exact Sl|]. split; [rewrite !length_map, Ll; cbn [Nat.min]; lia|].
  split.
  - unfold loss_metric_inputs. rewrite Hf. cbn [bind]. rewrite Hhp, Hc. reflexivity.
  - split; [|reflexivity]. rewrite Sl, numel_app. unfold numel at 2. simpl. f_equal. lia.
Qed.

(** X18.  A step of a stage changes nothing but that stage's metric and the
    log: the sub-models, the head and the two other accumulators are
    those of the model it started from; the stage's accumulator gains
    the update (metric input, labels); the loss returned is the one
    computed on the loss input and it is logged with the metric under
    the stage's name. *)
Theorem steps_touch_only_their_metric (m : FinetuneModel targets) batch idx l m' :
  (training_step exp_kernel log_kernel sigmoid_kernel input targets output_single
     transformer_forward apply_loss m batch idx = Ok (l, m') ->
   exists pred pred_metric,
     loss_inputs m (fst batch) = Ok (pred, pred_metric) /\
     apply_loss (loss m) pred (snd batch) = Ok l /\
     parameters m' = parameters m /\ mlps m' = mlps m /\
     m_updates (train_metric m') = m_updates (train_metric m) ++ [(pred_metric, snd batch)] /\
     test_metric m' = test_metric m /\ val_metric m' = val_metric m /\
     map fst (logged m') = map fst (logged m) ++ ["train_loss"; "train_metric"]%string) /\
  (test_step exp_kernel log_kernel sigmoid_kernel input targets output_single
     transformer_forward apply_loss m batch idx = Ok (l, m') ->
   exists pred pred_metric,
     loss_inputs m (fst batch) = Ok (pred, pred_metric) /\
     apply_loss (loss m) pred (snd batch) = Ok l /\
     parameters m' = parameters m /\ mlps m' = mlps m /\
     m_updates (test_metric m') = m_updates (test_metric m) ++ [(pred_metric, snd batch)] /\
     train_metric m' = train_metric m /\ val_metric m' = val_metric m /\
     map fst (logged m') = map fst (logged m) ++ ["test_loss"; "test_metric"]%string) /\
  (validation_step exp_kernel log_kernel sigmoid_kernel input targets output_single
     transformer_forward apply_loss m batch idx = Ok (l, m') ->
   exists pred pred_metric,
     loss_inputs m (fst batch) = Ok (pred, pred_metric) /\
     apply_loss (loss m) pred (snd batch) = Ok l /\
     parameters m' = parameters m /\ mlps m' = mlps m /\
     m_updates (val_metric m') = m_updates (val_metric m) ++ [(pred_metric, snd batch)] /\
     train_metric m' = train_metric m /\ test_metric m' = test_metric m /\
     map fst (logged m') = map fst (logged m) ++ ["val_loss"; "val_metric"]%string).
Proof.
  unfold training_step, test_step, validation_step, get_loss_metrics.
  destruct (loss_inputs m (fst batch)) as [[pred pred_metric]|]; cbn [bind fst snd].
  - split; [|split]; intros H;
      cbn [String.eqb Ascii.eqb Bool.eqb bind] in H;
      destruct (apply_loss (loss m) pred (snd batch)) as [l1|] eqn:El; cbn [bind] in H;
      try discriminate; inversion H; subst; clear H;
      exists pred, pred_metric;
      (split; [reflexivity|]); (split; [exact El|]);
      cbn [train_metric test_metric val_metric mlps logged update m_updates];
      rewrite ?map_app; repeat split; reflexivity.
  - split; [|split]; discriminate.
Qed.

Lemma nn_Linear_features k inf outf l :
  nn_Linear init_weight init_bias k inf outf = Ok l ->
  in_features l = Z.to_nat inf /\ out_features l = Z.to_nat outf.
Proof.
  unfold nn_Linear. destruct (_ || _)%bool; [discriminate|].
  intros H. injection H as <-. split; reflexivity.
Qed.

Lemma linear_forward_2d l t B C :
  sizes t = [B; C] ->
  if (C =? in_features l)%nat
  then exists y, linear_forward l t = Ok y /\ sizes y = [B; out_features l]
  else linear_forward l t = Raise shape_mismatch.
Proof.
  intros S. unfold linear_forward. rewrite S. cbn [rev app].
  destruct (C =? in_features l)%nat; cbn [negb]; [|reflexivity].
  eexists. split; reflexivity.
Qed.

(** X19.  When the fusion network returns a tensor of sizes
    [[B, T, V, C]], the forward pass succeeds exactly when the channel
    count [C] is [n_hidden]: its output then has sizes [[B, 3]] in
    classification and [[B, 1]] in regression.  Otherwise the first
    linear layer raises the shape error of torch, and so does
    [get_loss_metrics] for every stage name, known or not, since the
    forward pass comes before the stage is looked up. *)
Theorem forward_channel_count args m x t1 t2 t3 B T V C :
  init_model args = Ok m ->
  output_single (cnn_models m) x = Ok t1 ->
  transpose_1_2 t1 = Ok t2 ->
  transformer_forward (transformer m) t2 = Ok t3 ->
  sizes t3 = [B; T; V; C] ->
  if (C =? Z.to_nat (n_hidden args))%nat
  then exists out,
         forward_pass m x = Ok out /\
         sizes out = [B; if truthy (classification args) then 3%nat else 1%nat]
  else forward_pass m x = Raise shape_mismatch /\
       forall target stage, step m x target stage = Raise shape_mismatch.
Proof.
  intros Hi H1 H2 H3 S3.
  destruct (init_fields targets _ _ _ _ _ _ args m Hi)
    as (Hhp & _ & _ & _ & _ & l0 & l1 & Hl0 & Hm).
  destruct (nn_Linear_features _ _ _ _ Hl0) as [I0 O0].
  assert (exists feats, flatten_1_2 t3 = Ok {| sizes := [B; T * V; C]%nat; storage := storage t3 |}
                        /\ mean_1 {| sizes := [B; T * V; C]%nat; storage := storage t3 |} = Ok feats
                        /\ sizes feats = [B; C]) as (feats & F1 & F2 & Sf).
  { eexists. unfold flatten_1_2, mean_1. rewrite S3. cbn [sizes].
    split; [reflexivity|]. split; reflexivity. }
  assert (forward_pass m x
          = (out <- sequential sigmoid_kernel (mlps m) feats ;;
             if negb (truthy (classification (hp m))) then Ok (mul_scalar out hundred)
             else Ok out)%py) as Hf.
  { unfold forward. rewrite H1. cbn [bind]. rewrite H2. cbn [bind]. rewrite H3. cbn [bind].
    rewrite F1. cbn [bind]. rewrite F2. reflexivity. }
  pose proof (linear_forward_2d l0 feats B C Sf) as L0. rewrite I0 in L0.
  destruct (C =? Z.to_nat (n_hidden args))%nat eqn:EC.
  - destruct L0 as (h & Eh & Sh). rewrite O0 in Sh.
    destruct (truthy (classification args)) eqn:Ec; destruct Hm as [Hl1 Hm];
      destruct (nn_Linear_features _ _ _ _ Hl1) as [I1 O1];
      pose proof (linear_forward_2d l1 (map_elements relu h) B _ Sh) as L1;
      rewrite I1, Nat.eqb_refl in L1; destruct L1 as (y & Ey & Sy);
      rewrite O1 in Sy; rewrite Hf, Hm, Hhp, Ec;
      cbn [sequential layer_forward]; rewrite Eh; cbn [bind]; rewrite Ey; cbn [bind negb];
      eexists; (split; [reflexivity|]); exact Sy.
  - assert (sequential sigmoid_kernel (mlps m) feats = Raise shape_mismatch) as Es.
    { destruct (truthy (classification args)); destruct Hm as [_ ->];
        cbn [sequential layer_forward]; rewrite L0; reflexivity. }
    assert (forward_pass m x = Raise shape_mismatch) as Hr.
    { rewrite Hf, Es. reflexivity. }
    split; [exact Hr|]. intros target stage.
    unfold get_loss_metrics, loss_metric_inputs. rewrite Hr. reflexivity.
Qed.

End Construction.

(** ** The further properties on the sample inputs *)

Section FurtherSamples.

Import Numpy Dataset Split Binary32 Torch Samples.
Local Open Scope string_scope.
Local Open Scope Z_scope.

Lemma getitem_index_out_of_range_witness :
  len class_dataset = 4 /\ getitem decoder class_dataset 4 = Raise IndexError.
Proof.
  apply (getitem_index_out_of_range decoder "./adni_data" manifest 1 4).
  right. discriminate.
Defined.

Lemma getitem_reads_line_witness :
  Py.getitem (lines class_dataset) 1 = Ok (Py.split "," (row scan_1)) /\
  getitem decoder class_dataset (1 - 4) = getitem decoder class_dataset 1.
Proof.
  apply (getitem_reads_line decoder "./adni_data" manifest 1 1).
  split; [discriminate|reflexivity].
Defined.

Lemma getitem_short_row_witness :
  getitem decoder (Dataset.init "./adni_data" manifest_blank_end 1) 4 = Raise IndexError.
Proof.
  apply (getitem_short_row decoder "./adni_data" manifest_blank_end 1 4 [String "010" ""]);
    [reflexivity|].
  apply Nat.ltb_lt. reflexivity.
Defined.

Lemma getitem_label_in_last_column_witness :
  getitem decoder label_last_dataset 0 = Raise (UnboundLocalError "label") /\
  getitem decoder score_last_dataset 0
    = Raise (could_not_convert ("72.3" ++ String "034" (String "010" ""))).
Proof.
  split.
  - exact (getitem_label_in_last_column decoder label_last_dataset 0 _ (quoted "I100") "AD"
             eq_refl eq_refl eq_refl).
  - exact (getitem_label_in_last_column decoder score_last_dataset 0 _ (quoted "I100") "72.3"
             eq_refl eq_refl eq_refl).
Defined.

Lemma getitem_returns_resized_volume_witness :
  exists a l,
    getitem decoder class_dataset 0 = Ok (a, l) /\
    (exists r, a = PyNdarray r /\ shape r = [150; 150; 200] /\
               dtype_of (data r) = float32 /\
               Z.of_nat (size_of (data r)) = 4500000) /\
    (l = ClassCode 1 \/ l = ClassCode 0 \/ l = ClassCode 2).
Proof.
  eexists. eexists. split; [reflexivity|].
  apply (getitem_returns_resized_volume decoder class_dataset 0). reflexivity.
Defined.

Lemma customToTensor_idempotent_witness :
  exists out,
    customToTensor (PyNdarray volume) = Ok out /\ customToTensor out = Ok out.
Proof.
  eexists. split; [reflexivity|].
  apply (customToTensor_idempotent (PyNdarray volume)); reflexivity.
Defined.

Lemma split_tiles_permutation_witness :
  exists parts,
    split (map Z.of_nat (seq 0 10)) f_0_2 f_0_2 f_1_0 = Ok parts /\
    List.concat parts = map Z.of_nat (seq 0 10) /\
    map (fun s => Z.of_nat (List.length s)) parts = [2; 2; 6] /\
    List.length parts = 3%nat.
Proof.
  apply (split_tiles_permutation (map Z.of_nat (seq 0 10)) f_0_2 f_0_2 f_1_0 [2; 2; 6]);
    [reflexivity|].
  repeat constructor; discriminate.
Defined.

Lemma split_eval_sets_independent_witness :
  firstn 2 [[0; 1]; [2; 3]; [4; 5; 6; 7; 8; 9]]
    = firstn 2 [[0; 1]; [2; 3]; [4; 5; 6]; [7; 8; 9]] /\
  List.length (firstn 2 [[0; 1]; [2; 3]; [4; 5; 6; 7; 8; 9]]) = 2%nat.
Proof.
  apply (split_eval_sets_independent (map Z.of_nat (seq 0 10)) f_0_2 f_0_2 f_1_0 f_0_5);
    reflexivity.
Defined.

Lemma split_empty_dataset_witness :
  split [] f_0_2 f_0_2 f_0_5 = Ok [[]; []; []; []].
Proof.
  apply (split_empty_dataset f_0_2 f_0_2 f_0_5); reflexivity.
Defined.

Lemma init_loads_checkpoints_witness :
  exists m,
    build (options 0 1 1) = Ok m /\
    Forall (loaded_from (checkpoint "fusion")) (sm_parameters (transformer m)) /\
    List.length (cnn_models m) = 3%nat.
Proof.
  eexists. split; [reflexivity|].
  destruct (init_loads_checkpoints unit load_fusion load_views new_fusion new_view
              weight_0 bias_0 (options 0 1 1) _
              (eq_refl : build (options 0 1 1) = Ok _))
    as (sd & loaded & Hsd & _ & Hv & _ & Hn & _).
  inversion Hsd; subst sd. split; [exact Hv|exact Hn].
Defined.

Lemma init_needs_three_views_witness :
  exists e,
    init unit load_fusion load_two_views new_fusion new_view weight_0 bias_0 (options 1 1 1)
    = Raise e.
Proof.
  apply (init_needs_three_views unit load_fusion load_two_views new_fusion new_view
           weight_0 bias_0 (options 1 1 1) [checkpoint "view"; checkpoint "view"]);
    [reflexivity|].
  apply Nat.ltb_lt. reflexivity.
Defined.

Lemma init_frozen_modes_witness :
  exists m,
    build (options 0 0 1) = Ok m /\
    Forall (fun p => requires_grad p = false) (sm_parameters (transformer m)) /\
    sm_training (transformer m) = false /\
    Forall (fun c => sm_training c = false) (cnn_models m).
Proof.
  eexists. split; [reflexivity|].
  destruct (init_frozen_modes unit load_fusion load_views new_fusion new_view
              weight_0 bias_0 (options 0 0 1) _
              (eq_refl : build (options 0 0 1) = Ok _))
    as (Ht & _ & Hc & _).
  destruct (Ht eq_refl) as (H1 & H2 & _).
  split; [exact H1|]. split; [exact H2|exact (Hc eq_refl)].
Defined.

Lemma optimizer_holds_head_witness :
  exists m,
    build (options 0 0 1) = Ok m /\
    List.length (flat_map layer_parameters (mlps m)) = 4%nat /\
    opt_params (configure_optimizers m) = flat_map layer_parameters (mlps m).
Proof.
  eexists. split; [reflexivity|].
  destruct (optimizer_holds_head unit load_fusion load_views new_fusion new_view
              weight_0 bias_0 (options 0 0 1) _
              (eq_refl : build (options 0 0 1) = Ok _))
    as (H4 & _ & Hall).
  split; [exact H4|exact (Hall eq_refl eq_refl)].
Defined.

Lemma regression_loss_metric_inputs_witness :
  exists m out,
    build (options 1 1 0) = Ok m /\
    forward sigmoid_half unit unit features fusion m tt = Ok out /\
    loss_metric_inputs exp_one log_zero sigmoid_half unit unit features fusion m tt
      = Ok (flatten out, flatten out) /\
    sizes (flatten out) = [1%nat].
Proof.
  eexists. eexists. split; [reflexivity|]. split; [reflexivity|].
  lazymatch goal with
  | |- _ = Ok (flatten ?out, _) /\ _ =>
      destruct (regression_loss_metric_inputs exp_one log_zero sigmoid_half unit unit
                  load_fusion load_views new_fusion new_view weight_0 bias_0 features fusion
                  (options 1 1 0) _ tt out
                  (eq_refl : build (options 1 1 0) = Ok _) eq_refl eq_refl)
        as (lead & _ & _ & H1 & _)
  end.
  split; [exact H1|reflexivity].
Defined.

Lemma forward_channel_count_witness :
  exists m,
    build (options 1 1 0) = Ok m /\
    (exists out,
       forward sigmoid_half unit unit features fusion m tt = Ok out /\
       sizes out = [1; 1]%nat) /\
    get_loss_metrics exp_one log_zero sigmoid_half unit unit features_wide fusion loss_0
      m tt tt "fit" = Raise shape_mismatch.
Proof.
  eexists. split; [reflexivity|].
  lazymatch goal with
  | |- context [get_loss_metrics _ _ _ _ _ _ _ _ ?m _ _ _] =>
      pose proof (forward_channel_count exp_one log_zero sigmoid_half unit unit load_fusion
                    load_views new_fusion new_view weight_0 bias_0 features fusion loss_0
                    (options 1 1 0) m tt _ _ _ 1 3 1 2
                    eq_refl eq_refl eq_refl eq_refl eq_refl) as H1;
      pose proof (forward_channel_count exp_one log_zero sigmoid_half unit unit load_fusion
                    load_views new_fusion new_view weight_0 bias_0 features_wide fusion loss_0
                    (options 1 1 0) m tt _ _ _ 1 1 1 3
                    eq_refl eq_refl eq_refl eq_refl eq_refl) as H2
  end.
  split; [exact H1|]. exact (proj2 H2 tt "fit"%string).
Defined.

Lemma steps_touch_only_their_metric_witness :
  exists m l m',
    build (options 1 1 1) = Ok m /\
    training_step exp_one log_zero sigmoid_half unit unit features fusion loss_0 m (tt, tt) 0
      = Ok (l, m') /\
    parameters m' = parameters m /\
    test_metric m' = test_metric m /\ val_metric m' = val_metric m /\
    map fst (logged m') = ["train_loss"; "train_metric"].
Proof.
  eexists. eexists. eexists. split; [reflexivity|]. split; [reflexivity|].
  lazymatch goal with
  | |- parameters ?m' = parameters ?m /\ _ =>
      destruct (proj1 (steps_touch_only_their_metric exp_one log_zero sigmoid_half unit unit
                         features fusion loss_0 m (tt, tt) 0 _ m') eq_refl)
        as (pred & pred_metric & _ & _ & Hp & _ & _ & Ht & Hv & Hl)
  end.
  split; [exact Hp|]. split; [exact Ht|]. split; [exact Hv|exact Hl].
Defined.

End FurtherSamples.
